(** * Sydney Airport flight statistics: normalisation and aggregation

    A shallow embedding of the two versions of the flight service and the
    properties of their normalisation and aggregation pipeline.

    - [Api]: the version that requests the airport's JSON API with axios:
      [validateParams], the callback of [data.flightData.map] in
      [getFlightData] ([processFlight]) and the [/api/flights] handler.
    - [Dom]: the version that scrapes the flights page with puppeteer
      ([app.js]): [validateParams], the callback of [page.evaluate] in
      [getFlightTimes] ([extractFlights]) and the [/api/flights] handler.

    Modelling conventions.
    - JavaScript strings are [string]s of bytes ([Str]).  [toLowerCase]
      folds the ASCII letters, [trim] and [parseInt] strip the ASCII white
      space, and the other code points are left alone.  No code point
      outside ASCII lowercases to a letter of the needles that the program
      searches for ("cancel", "cancelled", "delay", "delayed", "qantas").
    - A raw record of the API is a parsed JSON value ([jsval], [Val]);
      [VUndef] is the value of a property that is not there.  JSON numbers
      are the integers that a double holds exactly (at most 2^53 in
      absolute value), which print as their digits: they matter through
      their truthiness and through not being strings, and no property
      below is about how a number outside that range prints.
    - A thrown exception is the [Throw] case of [result];
      [let! x := e in k] is sequencing.
    - [parseInt] returns [None] for NaN and the exact integer otherwise.
      JavaScript rounds beyond 2^53 and keys the bucket by the rounded
      number; such keys are far from the hours 0..23 that the report
      reads back.
    - [flightCountByHour] is a [gmap] from the integer hour to its bucket;
      [flight_count] is the list of the properties in insertion order.
    - The number [Infinity] of the peak-hour scan is [Infinity] of [num];
      counters are [nat].
    - The network, the browser and the clock are parameters of the
      handlers ([httpGet], [loadCards], [today], [now], [addDays]); a
      handler returns its response together with the list of the URLs it
      requested.  [loadCards] is the whole browser session of
      [getFlightTimes], the closing of the browser included. *)

From Stdlib Require Import ZArith Ascii String List Permutation Lia.
From stdpp Require Import base option list gmap strings pretty.

(** ** Exceptions *)

Inductive Error :=
  | TypeError (msg : string)
  | OtherError (msg : string).

Definition message (e : Error) : string :=
  match e with TypeError m | OtherError m => m end.

Inductive result (A : Type) :=
  | OK (a : A)
  | Throw (e : Error).
Arguments OK {A} a.
Arguments Throw {A} e.

Definition bind {A B} (r : result A) (k : A -> result B) : result B :=
  match r with
  | OK a => k a
  | Throw e => Throw e
  end.

Notation "'let!' x ':=' r 'in' k" := (bind r (fun x => k))
  (at level 10, x name, r at level 100, k at level 200).

(** [l.map(f)] for a callback that can throw: the first exception ends
    the traversal. *)
Section MapM.

Context {A B : Type} (f : A -> result B).

Fixpoint mapM (l : list A) : result (list B) :=
  match l with
  | [] => OK []
  | x :: r =>
      let! y := f x in
      let! ys := mapM r in
      OK (y :: ys)
  end.

End MapM.

(** ** Strings *)

Module Str.

Definition isUpper (c : ascii) : bool :=
  let n := N_of_ascii c in ((65 <=? n) && (n <=? 90))%N.

Definition lowerChar (c : ascii) : ascii :=
  if isUpper c then ascii_of_N (N_of_ascii c + 32) else c.

(** [String.prototype.toLowerCase] *)
Fixpoint toLowerCase (s : string) : string :=
  match s with
  | EmptyString => EmptyString
  | String c r => String (lowerChar c) (toLowerCase r)
  end.

(** White space: TAB, LF, VT, FF, CR and SPACE. *)
Definition isWhiteSpace (c : ascii) : bool :=
  let n := N_of_ascii c in (((9 <=? n) && (n <=? 13)) || (n =? 32))%N.

Fixpoint trimStart (s : string) : string :=
  match s with
  | EmptyString => EmptyString
  | String c r => if isWhiteSpace c then trimStart r else s
  end.

Fixpoint trimEnd (s : string) : string :=
  match s with
  | EmptyString => EmptyString
  | String c r =>
      match trimEnd r with
      | EmptyString => if isWhiteSpace c then EmptyString else String c EmptyString
      | r' => String c r'
      end
  end.

(** [String.prototype.trim] *)
Definition trim (s : string) : string := trimEnd (trimStart s).

Fixpoint startsWith (needle s : string) : bool :=
  match needle, s with
  | EmptyString, _ => true
  | String _ _, EmptyString => false
  | String a n, String b r => Ascii.eqb a b && startsWith n r
  end.

(** [String.prototype.includes] *)
Fixpoint includes (needle s : string) : bool :=
  startsWith needle s ||
  match s with
  | EmptyString => false
  | String _ r => includes needle r
  end.

(** [String.prototype.split] on a one-character separator. *)
Fixpoint split (sep : ascii) (s : string) : list string :=
  match s with
  | EmptyString => [EmptyString]
  | String c r =>
      if Ascii.eqb c sep then EmptyString :: split sep r
      else match split sep r with
           | x :: xs => String c x :: xs
           | [] => [String c EmptyString]
           end
  end.

Definition digitValue (c : ascii) : option Z :=
  let n := Z.of_N (N_of_ascii c) in
  if ((48 <=? n) && (n <=? 57))%Z then Some (n - 48)%Z else None.

(** The value of the longest prefix of decimal digits, [acc] being the
    value read so far ([None]: no digit yet). *)
Fixpoint digits (s : string) (acc : option Z) : option Z :=
  match s with
  | EmptyString => acc
  | String c r =>
      match digitValue c with
      | Some d => digits r (Some (10 * default 0 acc + d)%Z)
      | None => acc
      end
  end.

(** [parseInt(s, 10)]; [None] is NaN.  Radix 10 strips no "0x". *)
Definition parseInt (s : string) : option Z :=
  match trimStart s with
  | String "-" r => Z.opp <$> digits r None
  | String "+" r => digits r None
  | r => digits r None
  end.

End Str.

(** ** JavaScript values

    What [JSON.parse] builds, plus [undefined] for a property that is not
    there. *)

#[warnings="-register-all"]
Inductive jsval :=
  | VUndef
  | VNull
  | VBool (b : bool)
  | VNum (n : Z)
  | VStr (s : string)
  | VArr (items : list jsval)
  | VObj (fields : list (string * jsval)).

Module Val.

(** [Boolean(v)] *)
Definition truthy (v : jsval) : bool :=
  match v with
  | VUndef | VNull => false
  | VBool b => b
  | VNum n => negb (n =? 0)%Z
  | VStr s => negb (String.eqb s "")
  | VArr _ | VObj _ => true
  end.

(** [a || b] *)
Definition orElse (a b : jsval) : jsval := if truthy a then a else b.

(** [a === b] between a value of the payload and a string or another
    property of the payload: two parsed objects or arrays are distinct
    references. *)
Definition strictEq (a b : jsval) : bool :=
  match a, b with
  | VUndef, VUndef | VNull, VNull => true
  | VBool x, VBool y => Bool.eqb x y
  | VNum x, VNum y => (x =? y)%Z
  | VStr x, VStr y => String.eqb x y
  | _, _ => false
  end.

Fixpoint assoc (k : string) (fields : list (string * jsval)) : jsval :=
  match fields with
  | [] => VUndef
  | (k', v) :: rest => if String.eqb k k' then v else assoc k rest
  end.

(** [v.k] for the property names the program reads (none of them is a
    property of a primitive wrapper or of [Array.prototype]). *)
Definition getProp (v : jsval) (k : string) : result jsval :=
  match v with
  | VUndef =>
      Throw (TypeError ("Cannot read properties of undefined (reading '" +:+ k +:+ "')"))
  | VNull =>
      Throw (TypeError ("Cannot read properties of null (reading '" +:+ k +:+ "')"))
  | VObj fields => OK (assoc k fields)
  | _ => OK VUndef
  end.

(** [e.m()] where [m] is a method that only strings have and [e] is the
    text of the expression whose value is [v]. *)
Definition stringMethod {A} (e m : string) (f : string -> A) (v : jsval) : result A :=
  match v with
  | VStr s => OK (f s)
  | VUndef =>
      Throw (TypeError ("Cannot read properties of undefined (reading '" +:+ m +:+ "')"))
  | VNull =>
      Throw (TypeError ("Cannot read properties of null (reading '" +:+ m +:+ "')"))
  | _ => Throw (TypeError (e +:+ "." +:+ m +:+ " is not a function"))
  end.

Fixpoint joinStrings (sep : string) (l : list string) : string :=
  match l with
  | [] => ""
  | [x] => x
  | x :: r => x +:+ sep +:+ joinStrings sep r
  end.

(** Whether the parsed object has a property [k] of its own. *)
Definition hasOwn (k : string) (fields : list (string * jsval)) : bool :=
  existsb (fun kv => String.eqb k kv.1) fields.

(** [String(v)], which a template literal and [join] apply.  A parsed
    object prints through [Object.prototype.toString] unless it has a
    [toString] property of its own: that property is no function, and
    so is its [valueOf] if it has one, while the inherited [valueOf]
    returns the object itself, and the conversion throws.  A parsed
    array prints through [Array.prototype.join], in which [null] and
    [undefined] elements print as "". *)
Fixpoint toString (v : jsval) : result string :=
  match v with
  | VUndef => OK "undefined"
  | VNull => OK "null"
  | VBool b => OK (if b then "true" else "false")
  | VNum n => OK (pretty n)
  | VStr s => OK s
  | VArr items =>
      let! texts :=
        mapM (fun x => match x with VUndef | VNull => OK "" | _ => toString x end) items in
      OK (joinStrings "," texts)
  | VObj fields =>
      if hasOwn "toString" fields
      then Throw (TypeError "Cannot convert object to primitive value")
      else OK "[object Object]"
  end.

(** The text of an element in [join], as in the arrays of [toString]. *)
Definition elementText (x : jsval) : result string :=
  match x with
  | VUndef | VNull => OK ""
  | _ => toString x
  end.

(** [items.join(sep)]: the elements are converted from left to right. *)
Definition join (sep : string) (items : list jsval) : result string :=
  let! texts := mapM elementText items in
  OK (joinStrings sep texts).

(** [[...new Set(l)]]: first occurrences, in order. *)
Fixpoint unique {A} (eqb : A -> A -> bool) (l seen : list A) : list A :=
  match l with
  | [] => []
  | x :: r =>
      if existsb (eqb x) seen then unique eqb r seen
      else x :: unique eqb r (x :: seen)
  end.

End Val.

(** ** What the two versions share *)

(** The three literals 'on time', 'cancelled' and 'delayed'. *)
Inductive Status := on_time | cancelled | delayed.

Definition Status_eqb (a b : Status) : bool :=
  match a, b with
  | on_time, on_time | cancelled, cancelled | delayed, delayed => true
  | _, _ => false
  end.

Record HourBucket := { T2 : nat; T3 : nat; total : nat }.

Definition zeroBucket : HourBucket := {| T2 := 0; T3 := 0; total := 0 |}.

Record StatusCounts := { n_on_time : nat; n_cancelled : nat; n_delayed : nat }.

(** A JavaScript number that is a counter or [Infinity]; [res.json]
    writes [Infinity] as [null]. *)
Inductive num := Fin (n : nat) | Infinity.

Record HourCount := { hour : string; count : num }.
Record PeakHours := { max_flights : HourCount; lowest_flights : HourCount }.

(** The body of [if (!isNaN(flightHour)) { ... }] in both [forEach]
    callbacks: the bucket of [flightHour] is created on first use, then
    its terminal counter and its total are incremented. *)
Definition bump (flightCountByHour : gmap Z HourBucket) (flightHour : Z) (isT3 : bool)
  : gmap Z HourBucket :=
  let b := default zeroBucket (flightCountByHour !! flightHour) in
  let b1 := if isT3 then {| T2 := T2 b; T3 := T3 b + 1; total := total b |}
            else {| T2 := T2 b + 1; T3 := T3 b; total := total b |} in
  <[flightHour := {| T2 := T2 b1; T3 := T3 b1; total := total b1 + 1 |}]> flightCountByHour.

(** [const [hour] = scheduledTime.split(':'); parseInt(hour, 10)] *)
Definition parseHour (scheduledTime : string) : option Z :=
  match Str.split ":" scheduledTime with
  | hour :: _ => Str.parseInt hour
  | [] => None
  end.

Definition tally (flightCountByHour : gmap Z HourBucket) (flightHour : option Z)
  (isT3 : bool) : gmap Z HourBucket :=
  match flightHour with
  | Some h => bump flightCountByHour h isT3
  | None => flightCountByHour
  end.

(** The state of the loop [for (let hour = 0; hour < 24; hour++)]. *)
Record Scan := {
  flight_count_of : list (string * HourBucket);
  maxFlights : nat;
  maxHour : nat;
  minFlights : num;
  minHour : nat
}.

Definition hourKey (hour : nat) : string :=
  pretty hour +:+ "-" +:+ pretty (hour + 1).

(** [count < minFlights] *)
Definition ltNum (count : nat) (m : num) : bool :=
  match m with
  | Infinity => true
  | Fin m => count <? m
  end.

Definition scanInit : Scan :=
  {| flight_count_of := []; maxFlights := 0; maxHour := 0;
     minFlights := Infinity; minHour := 0 |}.

(** One iteration.  The keys "0-1", ..., "23-24" are pairwise distinct, so
    each assignment to [flight_count] adds a property, in this order. *)
Definition scanHour (flightCountByHour : gmap Z HourBucket) (s : Scan) (hour : nat) : Scan :=
  let entry := flightCountByHour !! Z.of_nat hour in
  let count := from_option total 0 entry in
  let s1 :=
    {| flight_count_of := flight_count_of s ++ [(hourKey hour, default zeroBucket entry)];
       maxFlights := maxFlights s; maxHour := maxHour s;
       minFlights := minFlights s; minHour := minHour s |} in
  let s2 :=
    if maxFlights s1 <? count then
      {| flight_count_of := flight_count_of s1;
         maxFlights := count; maxHour := hour;
         minFlights := minFlights s1; minHour := minHour s1 |}
    else s1 in
  if ltNum count (minFlights s2) && (0 <? count) then
    {| flight_count_of := flight_count_of s2;
       maxFlights := maxFlights s2; maxHour := maxHour s2;
       minFlights := Fin count; minHour := hour |}
  else s2.

Definition scanHours (flightCountByHour : gmap Z HourBucket) : Scan :=
  fold_left (scanHour flightCountByHour) (seq 0 24) scanInit.

(** [flights.filter(flight => flight.status === ...).length], three times *)
Definition countStatuses {F} (status : F -> Status) (flights : list F) : StatusCounts :=
  {| n_on_time := length (filter (fun f => Status_eqb (status f) on_time) flights);
     n_cancelled := length (filter (fun f => Status_eqb (status f) cancelled) flights);
     n_delayed := length (filter (fun f => Status_eqb (status f) delayed) flights) |}.

(** A query parameter as the query parser delivers it: a string, or an
    array or nested object (always truthy, never [===] a string), kept
    with its string conversion. *)
Inductive qval :=
  | QStr (s : string)
  | QOther (str : string).

Definition qTruthy (q : qval) : bool :=
  match q with
  | QStr s => negb (String.eqb s "")
  | QOther _ => true
  end.

(** [valid.includes(q)] *)
Definition qIncluded (valid : list string) (q : qval) : bool :=
  match q with
  | QStr s => existsb (String.eqb s) valid
  | QOther _ => false
  end.

(** [q === s] *)
Definition qIs (q : qval) (s : string) : bool :=
  match q with
  | QStr s' => String.eqb s' s
  | QOther _ => false
  end.

Definition qString (q : qval) : string :=
  match q with QStr s | QOther s => s end.

Record Query := {
  q_date : option qval;
  q_flightType : option qval;
  q_flightDirection : option qval
}.

Inductive Validation :=
  | Valid
  | Invalid (message : string).

(** The calendar date as [getFullYear], [getMonth] and [getDate] read it. *)
Record Date := { getFullYear : nat; getMonth : nat; getDate : nat }.

(** [String(n).padStart(2, '0')] *)
Definition pad2 (n : nat) : string :=
  let s := pretty n in
  if String.length s <? 2 then "0" +:+ s else s.

(** The double quote, for the messages that quote the accepted values. *)
Definition dq : string := String "034"%char EmptyString.

Fixpoint foldM {A S} (step : S -> A -> result S) (l : list A) (s : S) : result S :=
  match l with
  | [] => OK s
  | x :: r => let! s' := step s x in foldM step r s'
  end.

(** ** The JSON-API version *)

Module Api.

(** [formatDate]: YYYY-MM-DD *)
Definition formatDate (date : Date) : string :=
  pretty (getFullYear date) +:+ "-" +:+ pad2 (getMonth date + 1) +:+ "-" +:+
  pad2 (getDate date).

Definition validFlightTypes : list string := ["domestic"; "international"].
Definition validDates : list string :=
  ["today"; "yesterday"; "tomorrow"; "day_after_tomorrow"].
Definition validDirections : list string := ["arrival"; "departure"].

Definition msgFlightType : string :=
  "Invalid flight type. Use " +:+ dq +:+ "domestic" +:+ dq +:+ " or " +:+
  dq +:+ "international" +:+ dq +:+ ".".
Definition msgDate : string :=
  "Invalid date. Use " +:+ dq +:+ "today" +:+ dq +:+ ", " +:+
  dq +:+ "yesterday" +:+ dq +:+ ", " +:+ dq +:+ "tomorrow" +:+ dq +:+ ", or " +:+
  dq +:+ "day_after_tomorrow" +:+ dq +:+ ".".
Definition msgDirection : string :=
  "Invalid flight direction. Use " +:+ dq +:+ "arrival" +:+ dq +:+ " or " +:+
  dq +:+ "departure" +:+ dq +:+ ".".

Definition validateParams (date flightType flightDirection : qval) : Validation :=
  if qTruthy flightType && negb (qIncluded validFlightTypes flightType) then
    Invalid msgFlightType
  else if qTruthy date && negb (qIncluded validDates date) then
    Invalid msgDate
  else if qTruthy flightDirection && negb (qIncluded validDirections flightDirection) then
    Invalid msgDirection
  else Valid.

(** The object returned by the [map] callback of [getFlightData]. *)
Record Flight := {
  id : jsval;
  scheduledTime : jsval;
  estimatedTime : jsval;
  status : Status;
  statusColor : jsval;
  airline : jsval;
  airlineCode : jsval;
  flightNumber : string;
  location : string;
  terminal : string;
  rawStatus : jsval
}.

(** [flight.estimatedTime && flight.estimatedTime !== flight.scheduledTime
     && flight.estimatedTime !== '-'] *)
Definition delayHint (flight : jsval) : result bool :=
  let! est := Val.getProp flight "estimatedTime" in
  let! sched := Val.getProp flight "scheduledTime" in
  OK (Val.truthy est && negb (Val.strictEq est sched) && negb (Val.strictEq est (VStr "-"))).

(** The status block of the callback ([let status = 'on time'; if
    (flight.status) { ... }]). *)
Definition classifyStatus (flight : jsval) : result Status :=
  let! st := Val.getProp flight "status" in
  if Val.truthy st then
    let! statusLower := Val.stringMethod "flight.status" "toLowerCase" Str.toLowerCase st in
    if Str.includes "cancel" statusLower then OK cancelled
    else if Str.includes "delay" statusLower then OK delayed
    else
      let! hint := delayHint flight in
      OK (if hint then delayed else on_time)
  else OK on_time.

(** [flight.airline && flight.airline.toLowerCase().includes('qantas')],
    as the condition of [isT3 ? 'T3' : 'T2'] reads it. *)
Definition isT3 (flight : jsval) : result bool :=
  let! a := Val.getProp flight "airline" in
  if Val.truthy a then
    Val.stringMethod "flight.airline" "toLowerCase"
      (fun s => Str.includes "qantas" (Str.toLowerCase s)) a
  else OK false.

(** [Array.isArray(v) ? v.join(', ') : otherwise]; [otherwise] is
    evaluated only when [v] is no array. *)
Definition joinedOrEmpty (v : jsval) (otherwise : result string) : result string :=
  match v with
  | VArr items => Val.join ", " items
  | _ => otherwise
  end.

(** The callback of [data.flightData.map]. *)
Definition processFlight (flight : jsval) : result Flight :=
  let! status := classifyStatus flight in
  let! isT3 := isT3 flight in
  let! destinations := Val.getProp flight "destinations" in
  let! origins := Val.getProp flight "origins" in
  let! location := joinedOrEmpty destinations (joinedOrEmpty origins (OK "")) in
  let! flightNumbers := Val.getProp flight "flightNumbers" in
  let! flightNumber := joinedOrEmpty flightNumbers (OK "") in
  let! id := Val.getProp flight "id" in
  let! scheduledTime := Val.getProp flight "scheduledTime" in
  let! estimatedTime := Val.getProp flight "estimatedTime" in
  let! statusColor := Val.getProp flight "statusColor" in
  let! airline := Val.getProp flight "airline" in
  let! airlineCode := Val.getProp flight "airlineCode" in
  let! rawStatus := Val.getProp flight "status" in
  OK {| id := id;
        scheduledTime := Val.orElse scheduledTime (VStr "");
        estimatedTime := Val.orElse estimatedTime (VStr "");
        status := status;
        statusColor := Val.orElse statusColor (VStr "");
        airline := Val.orElse airline (VStr "");
        airlineCode := Val.orElse airlineCode (VStr "");
        flightNumber := flightNumber;
        location := location;
        terminal := if isT3 then "T3" else "T2";
        rawStatus := Val.orElse rawStatus (VStr "Unknown") |}.

Definition apiUrl (date : Date) (flightType flightDirection : qval) : string :=
  "https://www.sydneyairport.com.au/_a/flights?filter=&date=" +:+ formatDate date +:+
  "&count=1000&startFrom=0&seq=1&sortColumn=scheduled_time&ascending=true&showAll=true&terminalType="
  +:+ qString flightType +:+ "&flightType=" +:+ qString flightDirection.

(** What [getFlightData] does with [response.data]: the check of its
    shape, the line that logs [`Total flights found:
    ${data.totalFlightCount}`], whose template literal converts the
    count to a string, and the [map]. *)
Definition processResponse (data : jsval) : result (jsval * list Flight) :=
  if negb (Val.truthy data) then Throw (OtherError "Unexpected API response format")
  else
    let! flightData := Val.getProp data "flightData" in
    match flightData with
    | VArr items =>
        let! logged := Val.getProp data "totalFlightCount" in
        let! line := Val.toString logged in
        let! processedData := mapM processFlight items in
        let! totalFlightCount := Val.getProp data "totalFlightCount" in
        OK (totalFlightCount, processedData)
    | _ => Throw (OtherError "Unexpected API response format")
    end.

(** [const [hour] = flight.scheduledTime.split(':')] and [parseInt] of
    [hour].  The call is the right-hand side of an array destructuring,
    and that is how the TypeError of calling what is no function is
    worded there. *)
Definition flightHour (flight : Flight) : result (option Z) :=
  match scheduledTime flight with
  | VStr s => OK (parseHour s)
  | VUndef => Throw (TypeError "Cannot read properties of undefined (reading 'split')")
  | VNull => Throw (TypeError "Cannot read properties of null (reading 'split')")
  | _ =>
      Throw (TypeError
               "flight.scheduledTime.split is not a function or its return value is not iterable")
  end.

(** The [forEach] that fills [flightCountByHour]. *)
Definition countByHour (flights : list Flight) : result (gmap Z HourBucket) :=
  foldM (fun m flight =>
           let! h := flightHour flight in
           OK (tally m h (String.eqb (terminal flight) "T3")))
        flights ∅.

Record Metadata := { processed_at : string; version : string; source : string }.

Record Report := {
  airport : string;
  date : string;
  flight_type : qval;
  flight_direction : qval;
  total_flights : jsval;
  flight_count : list (string * HourBucket);
  flight_statuses : StatusCounts;
  peak_hours : PeakHours;
  airlines : list jsval;
  locations : list string;
  sample_flights : list Flight;
  metadata : Metadata
}.

(** [peak_hours] once the loop over the hours has run:
    [maxFlights || 0] and [minFlights !== Infinity ? minFlights : 0]. *)
Definition peakHours (s : Scan) : PeakHours :=
  {| max_flights :=
       {| hour := hourKey (maxHour s);
          count := Fin (if maxFlights s =? 0 then 0 else maxFlights s) |};
     lowest_flights :=
       {| hour := hourKey (minHour s);
          count := match minFlights s with
                   | Infinity => Fin 0
                   | Fin n => Fin n
                   end |} |}.

(** The report, given the buckets that the [forEach] filled. *)
Definition assembleReport (dateToFetch : Date) (flightType flightDirection : qval)
  (totalFlights : jsval) (flights : list Flight) (now : string)
  (flightCountByHour : gmap Z HourBucket) : Report :=
  let flightStatuses := countStatuses status flights in
  let airlines := filter (fun v => Val.truthy v) (Val.unique Val.strictEq (map airline flights) []) in
  let locations :=
    filter (fun s => negb (String.eqb s "")) (Val.unique String.eqb (map location flights) []) in
  let s := scanHours flightCountByHour in
  {| airport := "Sydney Airport";
     date := formatDate dateToFetch;
     flight_type := flightType;
     flight_direction := flightDirection;
     total_flights := totalFlights;
     flight_count := flight_count_of s;
     flight_statuses := flightStatuses;
     peak_hours := peakHours s;
     airlines := airlines;
     locations := locations;
     sample_flights := take 5 flights;
     metadata := {| processed_at := now; version := "1.0";
                    source := "sydney_airport_api" |} |}.

(** The handler from [const flightStatuses = ...] to [res.json]; the
    only statement of it that can throw is the [split] of the [forEach]. *)
Definition buildReport (dateToFetch : Date) (flightType flightDirection : qval)
  (totalFlights : jsval) (flights : list Flight) (now : string) : result Report :=
  let! flightCountByHour := countByHour flights in
  OK (assembleReport dateToFetch flightType flightDirection totalFlights flights now
        flightCountByHour).

Inductive Response :=
  | Status200 (report : Report)
  | Status400 (error : string)
  | Status500 (error message timestamp : string).

Section Handler.

(** [response.data] of [axios.get(url, ...)], or its rejection (network
    failure, timeout, error status). *)
Variable httpGet : string -> result jsval.
(** [new Date()] when the request arrives and when the report is stamped. *)
Variable today : Date.
Variable now : string.
(** [d.setDate(d.getDate() + k)] *)
Variable addDays : Date -> Z -> Date.

(** [getFlightData], with the list of the URLs it requested. *)
Definition getFlightData (date : Date) (flightType flightDirection : qval)
  : result (jsval * list Flight) * list string :=
  let url := apiUrl date flightType flightDirection in
  (let! data := httpGet url in processResponse data, [url]).

Definition dateToFetch (date : qval) : Date :=
  if qIs date "yesterday" then addDays today (-1)
  else if qIs date "tomorrow" then addDays today 1
  else if qIs date "day_after_tomorrow" then addDays today 2
  else today.

(** [app.get('/api/flights', ...)]: the response and the URLs requested. *)
Definition handler (query : Query) : Response * list string :=
  let date := default (QStr "today") (q_date query) in
  let flightType := default (QStr "domestic") (q_flightType query) in
  let flightDirection := default (QStr "departure") (q_flightDirection query) in
  match validateParams date flightType flightDirection with
  | Invalid message => (Status400 message, [])
  | Valid =>
      let d := dateToFetch date in
      let (fetched, requests) := getFlightData d flightType flightDirection in
      let outcome :=
        let! r := fetched in
        buildReport d flightType flightDirection (fst r) (snd r) now in
      (match outcome with
       | OK report => Status200 report
       | Throw e =>
           Status500 "Failed to fetch flight data"
             (if String.eqb (message e) "" then "Unknown error" else message e) now
       end, requests)
  end.

End Handler.

End Api.

(** ** The page-scraping version *)

Module Dom.

(** [formatDate]: YYYY/MM/DD *)
Definition formatDate (date : Date) : string :=
  pretty (getFullYear date) +:+ "/" +:+ pad2 (getMonth date + 1) +:+ "/" +:+
  pad2 (getDate date).

Definition validFlightTypes : list string := ["domestic"; "international"].
Definition validDates : list string :=
  ["today"; "yesterday"; "tomorrow"; "day_after_tomorrow"].

Definition validateParams (date flightType : qval) : Validation :=
  if qTruthy flightType && negb (qIncluded validFlightTypes flightType) then
    Invalid Api.msgFlightType
  else if qTruthy date && negb (qIncluded validDates date) then
    Invalid Api.msgDate
  else Valid.

(** The element [.status]: its text and its classes. *)
Record StatusElement := { textContent : string; classList : list string }.

(** A [.flight-card] as the selectors of the extraction see it: the text
    of each element that [querySelector] finds ([None]: no such element),
    the [.status-container] with its [.status] child, and whether a
    [.delayed-time-small] element exists. *)
Record Card := {
  scheduledTimeElement : option string;
  flightNumberElement : option string;
  originElement : option string;
  statusContainer : option (option StatusElement);
  delayedTimeSmall : bool;
  airlineElement : option string
}.

Record Flight := {
  scheduledTime : string;
  status : Status;
  airline : string;
  flightNumber : string;
  origin : string;
  rawStatus : string
}.

(** [statusContainer ? statusContainer.querySelector('.status') : null] *)
Definition statusElement (card : Card) : option StatusElement :=
  match statusContainer card with
  | Some child => child
  | None => None
  end.

Definition hasClass (el : StatusElement) (c : string) : bool :=
  existsb (String.eqb c) (classList el).

(** The status block ([let status = 'on time'; if (statusElement) { ... }]). *)
Definition classifyStatus (card : Card) : Status :=
  match statusElement card with
  | Some el =>
      let statusText := Str.toLowerCase (Str.trim (textContent el)) in
      let hasRedClass := hasClass el "red" in
      if Str.includes "cancelled" statusText || hasRedClass then cancelled
      else if Str.includes "delayed" statusText || hasClass el "amber"
              || delayedTimeSmall card then delayed
      else on_time
  | None => on_time
  end.

(** The body of the [try] block; no DOM call of it throws on a card. *)
Definition processCard (card : Card) : result Flight :=
  OK {| scheduledTime := from_option Str.trim "" (scheduledTimeElement card);
        status := classifyStatus card;
        airline := from_option (fun t => Str.toLowerCase (Str.trim t)) "" (airlineElement card);
        flightNumber := from_option Str.trim "" (flightNumberElement card);
        origin := from_option Str.trim "" (originElement card);
        rawStatus := from_option (fun el => Str.trim (textContent el)) "Unknown"
                       (statusElement card) |}.

(** [flightCards.forEach(card => { try { body } catch (err) { log } })]:
    a card whose body throws pushes nothing. *)
Definition forEachCard {C F} (body : C -> result F) (flightCards : list C) : list F :=
  fold_left (fun flights card =>
               match body card with
               | OK flight => flights ++ [flight]
               | Throw _ => flights
               end)
            flightCards [].

(** The callback of [page.evaluate]. *)
Definition extractFlights (flightCards : list Card) : list Flight :=
  forEachCard processCard flightCards.

Definition isT3 (flight : Flight) : bool := Str.includes "qantas" (airline flight).

(** The [forEach] that fills [flightCountByHour]. *)
Definition countByHour (flightData : list Flight) : gmap Z HourBucket :=
  fold_left (fun m flight => tally m (parseHour (scheduledTime flight)) (isT3 flight))
            flightData ∅.

Record Metadata := { processed_at : string; version : string }.

Record Report := {
  airport : string;
  date : string;
  flight_type : qval;
  total_flights : nat;
  flight_count : list (string * HourBucket);
  flight_statuses : StatusCounts;
  peak_hours : PeakHours;
  airlines : list string;
  origins : list string;
  sample_flights : list Flight;
  metadata : Metadata
}.

(** [peak_hours] once the loop over the hours has run: [maxFlights] and
    [minFlights] as they are. *)
Definition peakHours (s : Scan) : PeakHours :=
  {| max_flights := {| hour := hourKey (maxHour s); count := Fin (maxFlights s) |};
     lowest_flights := {| hour := hourKey (minHour s); count := minFlights s |} |}.

(** The handler from [const flightStatuses = ...] to [res.json]. *)
Definition buildReport (dateToFetch : Date) (flightType : qval)
  (flightData : list Flight) (now : string) : Report :=
  let flightStatuses := countStatuses status flightData in
  let nonEmpty := filter (fun s => negb (String.eqb s "")) in
  let airlines := nonEmpty (Val.unique String.eqb (map airline flightData) []) in
  let origins := nonEmpty (Val.unique String.eqb (map origin flightData) []) in
  let s := scanHours (countByHour flightData) in
  {| airport := "Sydney Airport";
     date := formatDate dateToFetch;
     flight_type := flightType;
     total_flights := length flightData;
     flight_count := flight_count_of s;
     flight_statuses := flightStatuses;
     peak_hours := peakHours s;
     airlines := airlines;
     origins := origins;
     sample_flights := take 5 flightData;
     metadata := {| processed_at := now; version := "1.1" |} |}.

Inductive Response :=
  | Status200 (report : Report)
  | Status400 (error : string)
  | Status500 (error message timestamp : string).

Section Handler.

(** The browser session of [getFlightTimes], from [puppeteer.launch] to
    [browser.close()]: the [.flight-card] elements that [page.evaluate]
    finds on the page at [url], in document order, when every step
    succeeds, and otherwise the error that [getFlightTimes] rethrows (of
    the launch, of the navigation, of the wait for the first card, of
    [page.evaluate] or of the closing of the browser).  The wait for the
    first card succeeds only on a page that has a card. *)
Variable loadCards : string -> result (list Card).
Variable today : Date.
Variable now : string.
Variable addDays : Date -> Z -> Date.

Definition pageUrl (date : Date) (flightType : qval) : string :=
  let terminalType := if qIs flightType "domestic" then "domestic" else "international" in
  "https://www.sydneyairport.com.au/flights/?query=&flightType=arrival&terminalType="
  +:+ terminalType +:+ "&date=" +:+ formatDate date +:+
  "&sortColumn=scheduled_time&ascending=true&showAll=true".

(** [getFlightTimes], with the list of the pages it loaded. *)
Definition getFlightTimes (date : Date) (flightType : qval)
  : result (list Flight) * list string :=
  let url := pageUrl date flightType in
  (let! flightCards := loadCards url in OK (extractFlights flightCards), [url]).

Definition dateToFetch (date : qval) : Date :=
  if qIs date "yesterday" then addDays today (-1)
  else if qIs date "tomorrow" then addDays today 1
  else if qIs date "day_after_tomorrow" then addDays today 2
  else today.

(** [app.get('/api/flights', ...)]: the response and the pages loaded.
    Only [date] and [flightType] are read from the query. *)
Definition handler (query : Query) : Response * list string :=
  let date := default (QStr "today") (q_date query) in
  let flightType := default (QStr "domestic") (q_flightType query) in
  match validateParams date flightType with
  | Invalid message => (Status400 message, [])
  | Valid =>
      let d := dateToFetch date in
      let (fetched, loads) := getFlightTimes d flightType in
      (match fetched with
       | OK flightData => Status200 (buildReport d flightType flightData now)
       | Throw e => Status500 "Failed to fetch flight data" (message e) now
       end, loads)
  end.

End Handler.

End Dom.

(** ** Vocabulary of the statements *)

(** [needle] occurs in [s] up to the case of the letters of [s]. *)
Definition ci_contains (needle s : string) : Prop :=
  ∃ pre mid suf, s = pre +:+ mid +:+ suf ∧ Str.toLowerCase mid = needle.

(** [needle] occurs in [s] as it is. *)
Definition contains (needle s : string) : Prop :=
  ∃ pre suf, s = pre +:+ needle +:+ suf.

(** The last character of [n] exists and is no white space. *)
Fixpoint endsBlack (n : string) : bool :=
  match n with
  | EmptyString => false
  | String c EmptyString => negb (Str.isWhiteSpace c)
  | String _ r => endsBlack r
  end.

Definition startsBlack (n : string) : bool :=
  match n with
  | EmptyString => false
  | String c _ => negb (Str.isWhiteSpace c)
  end.

(** The [status] of a raw record is a text when the record has one: it is
    missing, [null], empty, otherwise falsy, or a string. *)
Definition textOrAbsent (v : jsval) : Prop :=
  Val.truthy v = true → ∃ s, v = VStr s.

(** A card that shows only an airline, and a raw record that carries only one. *)
Definition cardOfAirline (text : string) : Dom.Card :=
  {| Dom.scheduledTimeElement := None; Dom.flightNumberElement := None;
     Dom.originElement := None; Dom.statusContainer := None;
     Dom.delayedTimeSmall := false; Dom.airlineElement := Some text |}.

Definition recordOfAirline (text : string) : jsval := VObj [("airline", VStr text)].

(** A card that shows only a status element with the given text and classes. *)
Definition cardOfStatus (text : string) (classes : list string) : Dom.Card :=
  {| Dom.scheduledTimeElement := None; Dom.flightNumberElement := None;
     Dom.originElement := None;
     Dom.statusContainer :=
       Some (Some {| Dom.textContent := text; Dom.classList := classes |});
     Dom.delayedTimeSmall := false; Dom.airlineElement := None |}.

(** Raw records of the API: one with an empty status text and one with
    none, both with an estimated time that differs from the scheduled
    time; one that is cancelled; one that is delayed by its estimated
    time only. *)
Definition lateEmptyStatus : jsval :=
  VObj [("status", VStr ""); ("scheduledTime", VStr "10:00");
        ("estimatedTime", VStr "10:30")].
Definition lateNoStatus : jsval :=
  VObj [("scheduledTime", VStr "10:00"); ("estimatedTime", VStr "10:30")].
Definition goodCancelled : jsval :=
  VObj [("status", VStr "Cancelled"); ("scheduledTime", VStr "10:00")].
Definition lateBoarding : jsval :=
  VObj [("status", VStr "Boarding"); ("scheduledTime", VStr "10:00");
        ("estimatedTime", VStr "10:30")].

(** ** Vocabulary of the aggregation statements *)

(** The hours that the report emits. *)
Definition inRange (h : Z) : bool := (0 <=? h)%Z && (h <? 24)%Z.

(** The three fates of a parsed hour: NaN, one of 0..23, another integer. *)
Definition isNaN (h : option Z) : bool :=
  match h with None => true | Some _ => false end.
Definition isInside (h : option Z) : bool :=
  match h with Some h => inRange h | None => false end.
Definition isOutside (h : option Z) : bool :=
  match h with Some h => negb (inRange h) | None => false end.

(** The [forEach] of both handlers, on flights of which [key] gives the
    parsed hour and the T3 test. *)
Definition tallyOf {F} (key : F → option Z * bool) (flights : list F)
  (m : gmap Z HourBucket) : gmap Z HourBucket :=
  fold_left (fun m flight => tally m (key flight).1 (key flight).2) flights m.

(** The sum of [total] over the emitted buckets. *)
Definition sumTotals (flight_count : list (string * HourBucket)) : nat :=
  sum_list_with (fun entry => total entry.2) flight_count.

(** What the loop over the hours emits for [hour]. *)
Definition emitted (m : gmap Z HourBucket) (hour : nat) : string * HourBucket :=
  (hourKey hour, default zeroBucket (m !! Z.of_nat hour)).

Definition countOf (c : StatusCounts) (s : Status) : nat :=
  match s with
  | on_time => n_on_time c
  | cancelled => n_cancelled c
  | delayed => n_delayed c
  end.

Definition domKey (flight : Dom.Flight) : option Z * bool :=
  (parseHour (Dom.scheduledTime flight), Dom.isT3 flight).

(** The hour and the T3 test of each flight of the API version, or the
    first exception of [split]. *)
Definition apiHits (flights : list Api.Flight) : result (list (option Z * bool)) :=
  mapM (fun flight =>
          let! h := Api.flightHour flight in
          OK (h, String.eqb (Api.terminal flight) "T3"))
       flights.

(** [P] holds of the hour of a flight of the API version ([false] when
    [split] throws). *)
Definition hourIs (P : option Z → bool) (h : result (option Z)) : bool :=
  match h with
  | OK h => P h
  | Throw _ => false
  end.

(** How many flights have an hour of which [P] holds. *)
Definition domCount (P : option Z → bool) (flights : list Dom.Flight) : nat :=
  length (filter (fun flight => P (parseHour (Dom.scheduledTime flight))) flights).

Definition apiCount (P : option Z → bool) (flights : list Api.Flight) : nat :=
  length (filter (fun flight => hourIs P (Api.flightHour flight)) flights).

(** ** Sample data of the statements *)

Definition aDate : Date := {| getFullYear := 2024; getMonth := 0; getDate := 5 |}.

(** A flight of the page version as [processCard] builds it. *)
Definition domFlight (time airline : string) (status : Status) : Dom.Flight :=
  {| Dom.scheduledTime := time; Dom.status := status; Dom.airline := airline;
     Dom.flightNumber := ""; Dom.origin := ""; Dom.rawStatus := "Unknown" |}.

(** A flight of the API version as [processFlight] builds it. *)
Definition apiFlight (time airline : string) (status : Status) : Api.Flight :=
  {| Api.id := VUndef; Api.scheduledTime := VStr time; Api.estimatedTime := VStr "";
     Api.status := status; Api.statusColor := VStr ""; Api.airline := VStr airline;
     Api.airlineCode := VStr ""; Api.flightNumber := ""; Api.location := "";
     Api.terminal :=
       if Str.includes "qantas" (Str.toLowerCase airline) then "T3" else "T2";
     Api.rawStatus := VStr "Unknown" |}.


(** A query parameter that validation refuses: truthy and not one of the
    accepted values. *)
Definition refused (valid : list string) (q : qval) : bool :=
  qTruthy q && negb (qIncluded valid q).

(** The parameters of a query once the defaults are filled in. *)
Definition dateOf (query : Query) : qval := default (QStr "today") (q_date query).
Definition flightTypeOf (query : Query) : qval :=
  default (QStr "domestic") (q_flightType query).
Definition flightDirectionOf (query : Query) : qval :=
  default (QStr "departure") (q_flightDirection query).

Definition noQuery : Query :=
  {| q_date := None; q_flightType := None; q_flightDirection := None |}.

(** A payload of two records; the airline of the first is an object and
    not a text. *)
Definition goodRecord : jsval :=
  VObj [("id", VNum 2); ("scheduledTime", VStr "09:40"); ("status", VStr "Delayed");
        ("airline", VStr "Jetstar"); ("flightNumbers", VArr [VStr "JQ501"]);
        ("destinations", VArr [VStr "Melbourne"])].
Definition oddRecord : jsval :=
  VObj [("id", VNum 1); ("scheduledTime", VStr "09:15"); ("status", VStr "On Time");
        ("airline", VObj [("name", VStr "Qantas")]); ("flightNumbers", VArr [VStr "QF401"]);
        ("destinations", VArr [VStr "Melbourne"])].
Definition oddPayload : jsval :=
  VObj [("totalFlightCount", VNum 2); ("flightData", VArr [oddRecord; goodRecord])].

(** What a body that may throw contributes to the list of flights. *)
Definition kept {C F} (body : C → result F) (card : C) : option F :=
  match body card with
  | OK flight => Some flight
  | Throw _ => None
  end.

(** The three flights of the worked scenario. *)
Definition scenarioPage : list Dom.Flight :=
  [domFlight "09:15" "qantas" on_time; domFlight "09:40" "jetstar" delayed;
   domFlight "14:05" "qantas" cancelled].

Definition scenarioApi : list Api.Flight :=
  [apiFlight "09:15" "qantas" on_time; apiFlight "09:40" "jetstar" delayed;
   apiFlight "14:05" "qantas" cancelled].

(** ** Vocabulary of the further properties *)

(** The hour and the T3 test of a flight of the API version whose
    scheduled time is a string. *)
Definition apiKey (flight : Api.Flight) : option Z * bool :=
  (match Api.scheduledTime flight with
   | VStr s => parseHour s
   | _ => None
   end,
   String.eqb (Api.terminal flight) "T3").

(** The counts of the flights whose hour parses to [k]: those that fail
    the T3 test, those that pass it, all of them. *)
Definition bucketAt {F} (key : F → option Z * bool) (flights : list F) (k : Z)
  : HourBucket :=
  {| T2 := length (filter (fun f => (key f).1 = Some k ∧ (key f).2 = false) flights);
     T3 := length (filter (fun f => (key f).1 = Some k ∧ (key f).2 = true) flights);
     total := length (filter (fun f => (key f).1 = Some k) flights) |}.

Definition addBucket (a b : HourBucket) : HourBucket :=
  {| T2 := T2 a + T2 b; T3 := T3 a + T3 b; total := total a + total b |}.

(** The number of flights at the hour [h] of the day. *)
Definition flightsAt {F} (key : F → option Z * bool) (flights : list F) (h : nat) : nat :=
  total (bucketAt key flights (Z.of_nat h)).

(** [flightCountByHour[hour]?.total || 0] *)
Definition hourTotal (m : gmap Z HourBucket) (hour : nat) : nat :=
  from_option total 0 (m !! Z.of_nat hour).

(** The loop over the hours, stopped before [n]. *)
Definition scanUpTo (m : gmap Z HourBucket) (n : nat) : Scan :=
  fold_left (scanHour m) (seq 0 n) scanInit.

(** [v] is [null] or [undefined]. *)
Definition nullish (v : jsval) : bool :=
  match v with VUndef | VNull => true | _ => false end.

(** The value of [v.k] when [v] is neither [null] nor [undefined]. *)
Definition propOf (v : jsval) (k : string) : jsval :=
  match v with
  | VObj fields => Val.assoc k fields
  | _ => VUndef
  end.

(** The properties of a raw record that [processFlight] reads. *)
Definition readKeys : list string :=
  ["status"; "estimatedTime"; "scheduledTime"; "airline"; "destinations"; "origins";
   "flightNumbers"; "id"; "statusColor"; "airlineCode"].

(** The flight of a record that has none of them. *)
Definition blankFlight : Api.Flight :=
  {| Api.id := VUndef; Api.scheduledTime := VStr ""; Api.estimatedTime := VStr "";
     Api.status := on_time; Api.statusColor := VStr ""; Api.airline := VStr "";
     Api.airlineCode := VStr ""; Api.flightNumber := ""; Api.location := "";
     Api.terminal := "T2"; Api.rawStatus := VStr "Unknown" |}.

(** The values that [String(v)] converts: those with no object that has
    a [toString] property of its own, be it the value or an element of
    its arrays.  The properties of an object are not looked at. *)
Fixpoint printable (v : jsval) : bool :=
  match v with
  | VArr items => forallb printable items
  | VObj fields => negb (bool_decide ("toString" ∈ map fst fields))
  | _ => true
  end.

(** [x] occurs in [l] and [y] occurs after it. *)
Definition before {A} (x y : A) (l : list A) : Prop :=
  ∃ l1 l2 l3, l = l1 ++ x :: l2 ++ y :: l3.

(** [x] occurs in [l] and [y] does not occur before that occurrence. *)
Definition firstBefore {A} (x y : A) (l : list A) : Prop :=
  ∃ l1 l2, l = l1 ++ x :: l2 ∧ y ∉ l1.

(** [out] lists the non-empty texts of [texts], each once, in the order
    in which they first occur in [texts]. *)
Definition firstOccurrences (texts out : list string) : Prop :=
  NoDup out
  ∧ (∀ x, x ∈ out ↔ x ≠ EmptyString ∧ x ∈ texts)
  ∧ (∀ x y, before x y out → firstBefore x y texts).

(** A value that [x || ''] can have: the empty string or a truthy value. *)
Definition defaulted (v : jsval) : Prop := v = VStr "" ∨ Val.truthy v = true.

(** What the handlers request for a query that passes validation. *)
Definition apiRequest (today : Date) (addDays : Date → Z → Date) (query : Query) : string :=
  Api.apiUrl (Api.dateToFetch today addDays (dateOf query)) (flightTypeOf query)
    (flightDirectionOf query).

Definition pageRequest (today : Date) (addDays : Date → Z → Date) (query : Query) : string :=
  Dom.pageUrl (Dom.dateToFetch today addDays (dateOf query)) (flightTypeOf query).

(** [error.message || 'Unknown error'] *)
Definition messageOr (e : Error) : string :=
  if String.eqb (message e) "" then "Unknown error" else message e.

(** The scheduled time of a flight is a string. *)
Definition textTime (flight : Api.Flight) : Prop :=
  ∃ s, Api.scheduledTime flight = VStr s.
(** * Properties *)

(** ** Strings *)

Lemma startsWith_spec n s : Str.startsWith n s = true ↔ ∃ suf, s = n +:+ suf.
Proof.
  revert s. induction n as [|a n IH]; intros s; simpl.
  - split; [eauto | done].
  - destruct s as [|b s].
    + split; [done | intros [suf H]; discriminate].
    + rewrite andb_true_iff, Ascii.eqb_eq, IH. split.
      * intros [-> [suf ->]]. eauto.
      * intros [suf H]. injection H as -> ->. eauto.
Qed.

Lemma includes_spec n s : Str.includes n s = true ↔ contains n s.
Proof.
  unfold contains. induction s as [|c s IH]; simpl.
  - rewrite orb_false_r, startsWith_spec. split.
    + intros [suf H]. exists EmptyString, suf. done.
    + intros [[|? pre] [suf H]]; [eauto | discriminate].
  - rewrite orb_true_iff, startsWith_spec, IH. split.
    + intros [[suf H] | [pre [suf H]]].
      * exists EmptyString, suf. done.
      * exists (String c pre), suf. simpl. by rewrite H.
    + intros [[|c' pre] [suf H]]; simpl in H.
      * left. eauto.
      * right. injection H as -> ->. eauto.
Qed.

Lemma toLowerCase_app a b :
  Str.toLowerCase (a +:+ b) = Str.toLowerCase a +:+ Str.toLowerCase b.
Proof. induction a as [|c a IH]; simpl; [done | by rewrite IH]. Qed.

Lemma toLowerCase_split s a b :
  Str.toLowerCase s = a +:+ b →
  ∃ a' b', s = a' +:+ b' ∧ Str.toLowerCase a' = a ∧ Str.toLowerCase b' = b.
Proof.
  revert s. induction a as [|c a IH]; intros s H; simpl in H.
  - exists EmptyString, s. done.
  - destruct s as [|d s]; [discriminate |]. simpl in H. injection H as Hc H.
    destruct (IH _ H) as (a' & b' & -> & Ha & Hb).
    exists (String d a'), b'. simpl. by rewrite Hc, Ha.
Qed.

Lemma includes_lower_ci n s :
  Str.includes n (Str.toLowerCase s) = true ↔ ci_contains n s.
Proof.
  rewrite includes_spec. unfold contains, ci_contains. split.
  - intros (pre & suf & H).
    apply toLowerCase_split in H as (pre' & r & -> & _ & H).
    apply toLowerCase_split in H as (mid & suf' & -> & Hm & _). eauto.
  - intros (pre & mid & suf & -> & <-).
    exists (Str.toLowerCase pre), (Str.toLowerCase suf).
    by rewrite !toLowerCase_app.
Qed.

Lemma isWhiteSpace_lowerChar c : Str.isWhiteSpace (Str.lowerChar c) = Str.isWhiteSpace c.
Proof. by destruct c as [[] [] [] [] [] [] [] []]. Qed.

Lemma trimStart_lower s : Str.trimStart (Str.toLowerCase s) = Str.toLowerCase (Str.trimStart s).
Proof.
  induction s as [|c s IH]; simpl; [done |].
  rewrite isWhiteSpace_lowerChar. by destruct (Str.isWhiteSpace c).
Qed.

Lemma trimEnd_cons c s :
  Str.trimEnd (String c s) =
  match Str.trimEnd s with
  | EmptyString => if Str.isWhiteSpace c then EmptyString else String c EmptyString
  | r => String c r
  end.
Proof. done. Qed.

Lemma trimEnd_lower s : Str.trimEnd (Str.toLowerCase s) = Str.toLowerCase (Str.trimEnd s).
Proof.
  induction s as [|c s IH]; [done |].
  change (Str.toLowerCase (String c s)) with (String (Str.lowerChar c) (Str.toLowerCase s)).
  rewrite !trimEnd_cons, IH, isWhiteSpace_lowerChar.
  destruct (Str.trimEnd s); simpl; [by destruct (Str.isWhiteSpace c) | done].
Qed.

Lemma trim_lower s : Str.trim (Str.toLowerCase s) = Str.toLowerCase (Str.trim s).
Proof. unfold Str.trim. by rewrite trimStart_lower, trimEnd_lower. Qed.

Lemma includes_trimStart n s :
  startsBlack n = true → Str.includes n (Str.trimStart s) = Str.includes n s.
Proof.
  intros Hn. induction s as [|c s IH]; [done |].
  simpl Str.trimStart. destruct (Str.isWhiteSpace c) eqn:Hc; [| done].
  rewrite IH. simpl. destruct n as [|a n]; [done |]. simpl in *.
  destruct (Ascii.eqb_spec a c) as [-> |]; [| done].
  by rewrite Hc in Hn.
Qed.

Lemma startsWith_trimEnd n s :
  endsBlack n = true → Str.startsWith n (Str.trimEnd s) = Str.startsWith n s.
Proof.
  revert n. induction s as [|c s IH]; intros n Hn; [done |].
  destruct n as [|a n]; [done |].
  rewrite trimEnd_cons.
  assert (Hrest : n = EmptyString ∨ endsBlack n = true).
  { destruct n; [by left | by right]. }
  destruct (Str.trimEnd s) as [|d r] eqn:Ht.
  - destruct (Str.isWhiteSpace c) eqn:Hc; simpl.
    + destruct Hrest as [-> | Hr].
      * simpl in Hn. destruct (Ascii.eqb_spec a c) as [-> |]; [| done].
        by rewrite Hc in Hn.
      * rewrite <- (IH n Hr). destruct n; [done |]. simpl. by rewrite andb_false_r.
    + destruct Hrest as [-> | Hr]; [done |].
      by rewrite <- (IH n Hr).
  - simpl. destruct Hrest as [-> | Hr]; [done |].
    by rewrite <- (IH n Hr).
Qed.

Lemma includes_trimEnd n s :
  endsBlack n = true → Str.includes n (Str.trimEnd s) = Str.includes n s.
Proof.
  intros Hn. induction s as [|c s IH]; [done |].
  assert (Hne : Str.startsWith n EmptyString = false) by by destruct n.
  simpl Str.includes at 2. rewrite <- IH, <- (startsWith_trimEnd n (String c s) Hn).
  rewrite trimEnd_cons.
  destruct (Str.trimEnd s) as [|d r] eqn:Ht.
  - destruct (Str.isWhiteSpace c); simpl; by rewrite ?Hne, ?orb_false_r.
  - done.
Qed.

Lemma includes_trim n s :
  startsBlack n = true → endsBlack n = true →
  Str.includes n (Str.trim s) = Str.includes n s.
Proof.
  intros H1 H2. unfold Str.trim. by rewrite includes_trimEnd, includes_trimStart.
Qed.

(** ** The status classifier and the terminal rule *)

Tactic Notation "inv_bind" hyp(H) "as" ident(x) ident(E) :=
  match type of H with
  | bind ?r _ = OK _ => destruct r as [x|] eqn:E; simpl in H; [| discriminate H]
  end.

Lemma getProp_obj fields k : Val.getProp (VObj fields) k = OK (Val.assoc k fields).
Proof. done. Qed.

Lemma getProp_twice flight k1 k2 v :
  Val.getProp flight k1 = OK v → ∃ w, Val.getProp flight k2 = OK w.
Proof. destruct flight; simpl; intros; try discriminate; eauto. Qed.

Lemma stringMethod_ok {A} e m (f : string → A) v y :
  Val.stringMethod e m f v = OK y → ∃ s, v = VStr s ∧ y = f s.
Proof. destruct v; simpl; intros H; try discriminate. injection H as <-. eauto. Qed.

Lemma delayHint_spec flight est sched :
  Val.getProp flight "estimatedTime" = OK est →
  Val.getProp flight "scheduledTime" = OK sched →
  Api.delayHint flight =
  OK (Val.truthy est && negb (Val.strictEq est sched) && negb (Val.strictEq est (VStr "-"))).
Proof. unfold Api.delayHint. by intros -> ->. Qed.

Lemma delayHint_total flight v k :
  Val.getProp flight k = OK v → ∃ b, Api.delayHint flight = OK b.
Proof.
  intros H.
  destruct (getProp_twice _ _ "estimatedTime" _ H) as [est He].
  destruct (getProp_twice _ _ "scheduledTime" _ H) as [sched Hs].
  rewrite (delayHint_spec _ _ _ He Hs). eauto.
Qed.

(** The API classifier, rule by rule, on a record with a status text. *)
Lemma api_classify_text flight s :
  Val.getProp flight "status" = OK (VStr s) → s ≠ EmptyString →
  Api.classifyStatus flight =
  if Str.includes "cancel" (Str.toLowerCase s) then OK cancelled
  else if Str.includes "delay" (Str.toLowerCase s) then OK delayed
  else let! hint := Api.delayHint flight in OK (if hint then delayed else on_time).
Proof.
  intros H Hs. unfold Api.classifyStatus. rewrite H. simpl.
  destruct (String.eqb_spec s ""); [done | done].
Qed.

Lemma api_classify_falsy flight st :
  Val.getProp flight "status" = OK st → Val.truthy st = false →
  Api.classifyStatus flight = OK on_time.
Proof. intros H Ht. unfold Api.classifyStatus. rewrite H. simpl. by rewrite Ht. Qed.

Lemma truthy_VStr s : Val.truthy (VStr s) = true ↔ s ≠ EmptyString.
Proof. simpl. destruct (String.eqb_spec s ""); naive_solver. Qed.

Lemma api_classify_cancelled flight :
  Api.classifyStatus flight = OK cancelled ↔
  ∃ s, Val.getProp flight "status" = OK (VStr s) ∧ ci_contains "cancel" s.
Proof.
  split.
  - unfold Api.classifyStatus. intros H. inv_bind H as st Est.
    destruct (Val.truthy st) eqn:Ht; [| discriminate].
    inv_bind H as low Elow. apply stringMethod_ok in Elow as (s & -> & ->).
    exists s. split; [done |]. apply includes_lower_ci.
    destruct (Str.includes "cancel" (Str.toLowerCase s)); [done |].
    destruct (Str.includes "delay" (Str.toLowerCase s)); [discriminate |].
    inv_bind H as hint Eh. by destruct hint.
  - intros (s & H & Hc). apply includes_lower_ci in Hc.
    rewrite (api_classify_text _ _ H), Hc; [done |].
    intros ->. discriminate.
Qed.

Lemma dom_classify_cancelled card :
  Dom.classifyStatus card = cancelled ↔
  ∃ el, Dom.statusElement card = Some el ∧
        (contains "cancelled" (Str.toLowerCase (Str.trim (Dom.textContent el)))
         ∨ Dom.hasClass el "red" = true).
Proof.
  unfold Dom.classifyStatus. destruct (Dom.statusElement card) as [el|].
  - split.
    + intros H. exists el. split; [done |].
      destruct (Str.includes "cancelled" _) eqn:Hi; [left; by apply includes_spec |].
      destruct (Dom.hasClass el "red"); [by right |].
      simpl in H. by destruct (_ || Dom.delayedTimeSmall card).
    + intros (el' & [= <-] & [Hc | Hr]).
      * apply includes_spec in Hc. by rewrite Hc.
      * by rewrite Hr, orb_true_r.
  - split; [done | by intros (? & ? & _)].
Qed.

Lemma processFlight_inv flight f :
  Api.processFlight flight = OK f →
  ∃ t a sched,
    Api.classifyStatus flight = OK (Api.status f) ∧
    Api.isT3 flight = OK t ∧
    Val.getProp flight "airline" = OK a ∧
    Val.getProp flight "scheduledTime" = OK sched ∧
    Api.terminal f = (if t then "T3" else "T2") ∧
    Api.airline f = Val.orElse a (VStr "") ∧
    Api.scheduledTime f = Val.orElse sched (VStr "").
Proof.
  unfold Api.processFlight. intros H.
  inv_bind H as st Est. inv_bind H as t Et.
  inv_bind H as dests Ed. inv_bind H as origs Eo. inv_bind H as loc El.
  inv_bind H as nums En. inv_bind H as num Enum.
  inv_bind H as i Ei. inv_bind H as sched Es. inv_bind H as est Ee.
  inv_bind H as col Ec. inv_bind H as a Ea. inv_bind H as code Eac.
  inv_bind H as raw Er. injection H as <-. simpl. by exists t, a, sched.
Qed.

Lemma api_isT3_spec flight t a :
  Api.isT3 flight = OK t → Val.getProp flight "airline" = OK a →
  ∃ text, Val.orElse a (VStr "") = VStr text ∧ t = Str.includes "qantas" (Str.toLowerCase text).
Proof.
  unfold Api.isT3, Val.orElse. intros H Ha. rewrite Ha in H. simpl in H.
  destruct (Val.truthy a) eqn:Ht.
  - apply stringMethod_ok in H as (s & -> & ->). eauto.
  - injection H as <-. by exists EmptyString.
Qed.

(** C6: the terminal is T3 exactly when the airline text contains "qantas"
    up to case, and T2 otherwise.  In the API version this is the
    [terminal] field of every flight that [processFlight] returns, whose
    airline is then a text; in the page version it is the test [isT3] that
    selects the bucket counter, on the airline text of the card (empty when
    the card shows none).  "Qantas Airways" and "QANTAS" give T3 and
    "Jetstar" gives T2 in both. *)
Theorem terminal_qantas_rule :
  (∀ flight f, Api.processFlight flight = OK f →
     ∃ text, Api.airline f = VStr text ∧
       (Api.terminal f = "T3" ↔ ci_contains "qantas" text) ∧
       (Api.terminal f = "T2" ↔ ¬ ci_contains "qantas" text))
  ∧ (∀ card f, Dom.processCard card = OK f →
       (Dom.isT3 f = true ↔ ci_contains "qantas" (default "" (Dom.airlineElement card))) ∧
       (Dom.isT3 f = false ↔ ¬ ci_contains "qantas" (default "" (Dom.airlineElement card))))
  ∧ (∀ text, text = "Qantas Airways" ∨ text = "QANTAS" →
       (∃ f, Api.processFlight (recordOfAirline text) = OK f ∧ Api.terminal f = "T3") ∧
       (∃ f, Dom.processCard (cardOfAirline text) = OK f ∧ Dom.isT3 f = true))
  ∧ (∃ f, Api.processFlight (recordOfAirline "Jetstar") = OK f ∧ Api.terminal f = "T2")
  ∧ (∃ f, Dom.processCard (cardOfAirline "Jetstar") = OK f ∧ Dom.isT3 f = false).
Proof.
  split; [| split; [| split; [| split]]].
  - intros flight f H.
    destruct (processFlight_inv _ _ H) as (t & a & sched & _ & Ht & Ha & _ & Hterm & Hair & _).
    destruct (api_isT3_spec _ _ _ Ht Ha) as (text & Htext & ->).
    exists text. split; [congruence |].
    rewrite Hterm, <- includes_lower_ci.
    destruct (Str.includes "qantas" (Str.toLowerCase text)); split; split; naive_solver.
  - intros card f [= <-]. unfold Dom.isT3. simpl.
    assert (Str.includes "qantas"
              (from_option (fun t => Str.toLowerCase (Str.trim t)) "" (Dom.airlineElement card))
            = Str.includes "qantas" (Str.toLowerCase (default "" (Dom.airlineElement card)))) as ->.
    { destruct (Dom.airlineElement card) as [t|]; simpl; [| done].
      by rewrite <- trim_lower, includes_trim. }
    rewrite <- includes_lower_ci.
    destruct (Str.includes "qantas" _); split; split; naive_solver.
  - intros text [-> | ->]; split; eexists; split; reflexivity.
  - eexists; split; reflexivity.
  - eexists; split; reflexivity.
Qed.

Lemma terminal_qantas_rule_witness :
  (∃ text, VStr "Qantas Link" = VStr text ∧
     ("T3" = "T3" ↔ ci_contains "qantas" text) ∧ ("T3" = "T2" ↔ ¬ ci_contains "qantas" text))
  ∧ (true = true ↔ ci_contains "qantas" " Virgin/QANTAS ").
Proof.
  split.
  - exact (proj1 terminal_qantas_rule (recordOfAirline "Qantas Link") _ eq_refl).
  - exact (proj1 (proj1 (proj2 terminal_qantas_rule) (cardOfAirline " Virgin/QANTAS ") _ eq_refl)).
Defined.

(** C5, amended: each version has its own cancelled rule, tried before
    its delayed rule.  API version: a record whose status text contains
    "cancel" up to case is cancelled, and a record without a statusColor
    is cancelled only then.  Page version: a card is cancelled exactly
    when it has a status element whose trimmed, lowercased text contains
    "cancelled" or whose classes include 'red'. *)
Theorem cancelled_rule :
  (∀ flight s,
     Val.getProp flight "status" = OK (VStr s) → ci_contains "cancel" s →
     Api.classifyStatus flight = OK cancelled)
  ∧ (∀ flight color,
       Val.getProp flight "statusColor" = OK color → Val.truthy color = false →
       Api.classifyStatus flight = OK cancelled →
       ∃ s, Val.getProp flight "status" = OK (VStr s) ∧ ci_contains "cancel" s)
  ∧ (∀ card, Dom.classifyStatus card = cancelled ↔
       ∃ el, Dom.statusElement card = Some el ∧
         (contains "cancelled" (Str.toLowerCase (Str.trim (Dom.textContent el)))
          ∨ Dom.hasClass el "red" = true)).
Proof.
  split; [| split].
  - intros flight s Hs Hc. apply api_classify_cancelled. eauto.
  - intros flight color _ _ H. by apply api_classify_cancelled.
  - apply dom_classify_cancelled.
Qed.

Lemma cancelled_rule_witness :
  Api.classifyStatus (VObj [("status", VStr "CANCELLED - see airline")]) = OK cancelled
  ∧ (∃ s, Val.getProp goodCancelled "status" = OK (VStr s) ∧ ci_contains "cancel" s).
Proof.
  split.
  - apply (proj1 cancelled_rule _ "CANCELLED - see airline"); [reflexivity |].
    apply includes_lower_ci. reflexivity.
  - apply (proj1 (proj2 cancelled_rule) goodCancelled VUndef); reflexivity.
Defined.

(** C5 fails as stated: the text "Cancel" contains "cancel", yet the page
    version classifies a card with that status text and no class on
    time. *)
Lemma cancelled_rule_counterexample :
  Str.includes "cancel" (Str.toLowerCase "Cancel") = true
  ∧ Dom.hasClass {| Dom.textContent := "Cancel"; Dom.classList := [] |} "red" = false
  ∧ Dom.classifyStatus (cardOfStatus "Cancel" []) = on_time.
Proof. by repeat split. Qed.

(** C3, amended: in the API version, a raw record with a non-empty
    status text that does not contain "cancel" up to case, and with no
    statusColor, is delayed when the text contains "delay" up to case or
    the delay hint holds (the estimated time is truthy, differs from the
    scheduled time and is not "-").  A record whose status is missing or
    empty, and that has no statusColor, is on time whatever its estimated
    time: the hint is read under [if (flight.status)] only. *)
Theorem delayed_rule_api :
  (∀ flight s est sched color,
     Val.getProp flight "status" = OK (VStr s) → s ≠ EmptyString →
     Val.getProp flight "estimatedTime" = OK est →
     Val.getProp flight "scheduledTime" = OK sched →
     Val.getProp flight "statusColor" = OK color → Val.truthy color = false →
     ¬ ci_contains "cancel" s →
     ci_contains "delay" s
     ∨ (Val.truthy est = true ∧ Val.strictEq est sched = false
        ∧ Val.strictEq est (VStr "-") = false) →
     Api.classifyStatus flight = OK delayed)
  ∧ (∀ flight st color,
       Val.getProp flight "status" = OK st → Val.truthy st = false →
       Val.getProp flight "statusColor" = OK color → Val.truthy color = false →
       Api.classifyStatus flight = OK on_time).
Proof.
  split; [| intros flight st color Hst Ht _ _; by apply (api_classify_falsy _ st)].
  intros flight s est sched color Hs Hne He Hsch _ _ Hc Hd.
  rewrite (api_classify_text _ _ Hs Hne), (delayHint_spec _ _ _ He Hsch).
  rewrite <- includes_lower_ci in Hc. rewrite <- includes_lower_ci in Hd.
  destruct (Str.includes "cancel" (Str.toLowerCase s)); [done |].
  destruct (Str.includes "delay" (Str.toLowerCase s)); [done |]. simpl.
  destruct Hd as [Hd | (-> & -> & ->)]; done.
Qed.

Lemma not_ci_contains needle s :
  Str.includes needle (Str.toLowerCase s) = false → ¬ ci_contains needle s.
Proof. intros H Hc. apply includes_lower_ci in Hc. congruence. Qed.

Lemma delayed_rule_api_witness :
  Api.classifyStatus lateBoarding = OK delayed
  ∧ Api.classifyStatus lateNoStatus = OK on_time.
Proof.
  split.
  - apply (proj1 delayed_rule_api lateBoarding "Boarding" (VStr "10:30") (VStr "10:00")
             VUndef);
      [reflexivity | discriminate | reflexivity | reflexivity | reflexivity
      | reflexivity | |].
    + apply not_ci_contains. reflexivity.
    + right. by repeat split.
  - apply (proj2 delayed_rule_api lateNoStatus VUndef VUndef); reflexivity.
Defined.

(** C3 fails as stated: the record with an empty status text, and the
    one with none, match no cancelled rule and have an estimated time
    that differs from the scheduled time and is not "-" (the delay hint
    holds), and both are classified on time. *)
Lemma delayed_rule_api_counterexample :
  Api.delayHint lateEmptyStatus = OK true
  ∧ Api.classifyStatus lateEmptyStatus = OK on_time
  ∧ Api.delayHint lateNoStatus = OK true
  ∧ Api.classifyStatus lateNoStatus = OK on_time.
Proof. by repeat split. Qed.

(** C7, amended: classification returns one of the three statuses and
    does not throw on a record of the expected shape.  In the API version,
    for every raw record whose status is a text or absent
    ([textOrAbsent]), the result is a status; it is on time when the
    status is missing or empty and the record has no statusColor.  In the
    page version, for every card, the result is a status; it is on time
    when the card has no status element, and when the status text is
    empty and neither a class nor a delayed-time element marks the card.
    Both classifiers are functions of the record alone, so a record has
    one status. *)
Theorem classification_total :
  (∀ flight st, Val.getProp flight "status" = OK st → textOrAbsent st →
     ∃ status, Api.classifyStatus flight = OK status ∧
       (status = on_time ∨ status = delayed ∨ status = cancelled))
  ∧ (∀ flight st color,
       Val.getProp flight "status" = OK st → Val.truthy st = false →
       Val.getProp flight "statusColor" = OK color → Val.truthy color = false →
       Api.classifyStatus flight = OK on_time)
  ∧ (∀ card,
       (Dom.classifyStatus card = on_time ∨ Dom.classifyStatus card = delayed
        ∨ Dom.classifyStatus card = cancelled) ∧
       (Dom.statusElement card = None → Dom.classifyStatus card = on_time) ∧
       (∀ el, Dom.statusElement card = Some el →
          Str.trim (Dom.textContent el) = EmptyString →
          Dom.hasClass el "red" = false → Dom.hasClass el "amber" = false →
          Dom.delayedTimeSmall card = false →
          Dom.classifyStatus card = on_time)).
Proof.
  split; [| split].
  - intros flight st Hst Htext. destruct (Val.truthy st) eqn:Ht.
    + destruct (Htext Ht) as [s ->]. apply truthy_VStr in Ht.
      rewrite (api_classify_text _ _ Hst Ht).
      destruct (delayHint_total _ _ _ Hst) as [b ->]. simpl.
      destruct (Str.includes "cancel" _); [naive_solver |].
      destruct (Str.includes "delay" _); [naive_solver |].
      destruct b; naive_solver.
    + rewrite (api_classify_falsy _ _ Hst Ht). naive_solver.
  - intros flight st color Hst Ht _ _. by apply (api_classify_falsy _ st).
  - intros card. split; [| split].
    + destruct (Dom.classifyStatus card); naive_solver.
    + unfold Dom.classifyStatus. by intros ->.
    + unfold Dom.classifyStatus. intros el -> -> -> -> ->. done.
Qed.

(** C7 fails as stated on a raw record whose status is truthy and not a
    text: [toLowerCase] is no function of a number or of an object, and
    the API version throws. *)
Lemma classification_total_counterexample :
  Api.classifyStatus (VObj [("status", VNum 404)])
  = Throw (TypeError "flight.status.toLowerCase is not a function")
  ∧ Api.classifyStatus (VObj [("status", VObj [("text", VStr "Delayed")])])
    = Throw (TypeError "flight.status.toLowerCase is not a function").
Proof. by split. Qed.

Lemma classification_total_witness :
  (∃ status, Api.classifyStatus lateBoarding = OK status ∧
     (status = on_time ∨ status = delayed ∨ status = cancelled))
  ∧ Api.classifyStatus lateNoStatus = OK on_time
  ∧ Dom.classifyStatus (cardOfAirline "jetstar") = on_time.
Proof.
  split; [| split].
  - apply (proj1 classification_total lateBoarding (VStr "Boarding")); [reflexivity |].
    intros _. by exists "Boarding".
  - apply (proj1 (proj2 classification_total) lateNoStatus VUndef VUndef); reflexivity.
  - apply (proj2 (proj2 classification_total) (cardOfAirline "jetstar")). reflexivity.
Defined.

(** ** The hour buckets *)

Lemma bump_lookup_ne m h t k : h ≠ k → bump m h t !! k = m !! k.
Proof. intros. unfold bump. by rewrite lookup_insert_ne. Qed.

Lemma bump_lookup_eq m h t :
  bump m h t !! h =
  Some {| T2 := T2 (default zeroBucket (m !! h)) + (if t then 0 else 1);
          T3 := T3 (default zeroBucket (m !! h)) + (if t then 1 else 0);
          total := total (default zeroBucket (m !! h)) + 1 |}.
Proof.
  unfold bump. rewrite lookup_insert_eq. destruct t; simpl; do 2 f_equal; lia.
Qed.

Lemma bump_comm m h1 t1 h2 t2 :
  bump (bump m h1 t1) h2 t2 = bump (bump m h2 t2) h1 t1.
Proof.
  apply map_eq. intros k.
  destruct (decide (h1 = h2)) as [-> | Hne].
  - destruct (decide (h2 = k)) as [-> | Hk].
    + rewrite !bump_lookup_eq. simpl. destruct t1, t2; simpl; do 2 f_equal; lia.
    + by rewrite !bump_lookup_ne.
  - destruct (decide (h1 = k)) as [-> | Hk1].
    + rewrite (bump_lookup_ne _ h2) by done. rewrite !bump_lookup_eq.
      by rewrite (bump_lookup_ne _ h2).
    + destruct (decide (h2 = k)) as [-> | Hk2].
      * rewrite (bump_lookup_ne _ h1 _ k) by done. rewrite !bump_lookup_eq.
        by rewrite (bump_lookup_ne _ h1).
      * by rewrite !bump_lookup_ne.
Qed.

Lemma tally_comm m a ta b tb :
  tally (tally m a ta) b tb = tally (tally m b tb) a ta.
Proof. destruct a, b; simpl; auto using bump_comm. Qed.

Section Tally.

Context {F : Type} (key : F → option Z * bool).

Lemma tallyOf_cons f l m :
  tallyOf key (f :: l) m = tallyOf key l (tally m (key f).1 (key f).2).
Proof. done. Qed.

Lemma tallyOf_app l1 l2 m :
  tallyOf key (l1 ++ l2) m = tallyOf key l2 (tallyOf key l1 m).
Proof. apply fold_left_app. Qed.

(** The buckets do not depend on the order of the flights. *)
Lemma tallyOf_perm l l' m : l ≡ₚ l' → tallyOf key l m = tallyOf key l' m.
Proof.
  intros Hp. revert m. induction Hp as [| x l l' _ IH | x y l | l l' l'' _ IH1 _ IH2];
    intros m.
  - done.
  - rewrite !tallyOf_cons. apply IH.
  - rewrite !tallyOf_cons. by rewrite tally_comm.
  - by rewrite IH1.
Qed.

(** A flight changes no bucket but the one of its hour. *)
Lemma tallyOf_lookup_frame l m k :
  Forall (fun f => (key f).1 ≠ Some k) l → tallyOf key l m !! k = m !! k.
Proof.
  intros Hl. revert m. induction Hl as [| f l Hf _ IH]; intros m; [done |].
  rewrite tallyOf_cons, IH. destruct (key f).1 as [h|]; simpl; [| done].
  apply bump_lookup_ne. congruence.
Qed.

End Tally.

(** ** The loop over the hours *)

Lemma scanHour_flight_count m s hour :
  flight_count_of (scanHour m s hour) = flight_count_of s ++ [emitted m hour].
Proof.
  unfold scanHour. simpl.
  destruct (maxFlights s <? _); simpl; destruct (ltNum _ _ && _); done.
Qed.

Lemma scan_flight_count m hours s :
  flight_count_of (fold_left (scanHour m) hours s) =
  flight_count_of s ++ map (emitted m) hours.
Proof.
  revert s. induction hours as [| hour hours IH]; intros s; simpl.
  - by rewrite app_nil_r.
  - by rewrite IH, scanHour_flight_count, <- app_assoc.
Qed.

(** All 24 hours are emitted, in order, each with its bucket or zeros. *)
Lemma scanHours_flight_count m :
  flight_count_of (scanHours m) = map (emitted m) (seq 0 24).
Proof. unfold scanHours. by rewrite scan_flight_count. Qed.

(** The loop reads the buckets 0..23 only. *)
Lemma scanHours_ext m m' :
  (∀ hour, hour < 24 → m !! Z.of_nat hour = m' !! Z.of_nat hour) →
  scanHours m = scanHours m'.
Proof.
  intros H. unfold scanHours. generalize scanInit.
  assert (Hl : Forall (fun hour => hour < 24) (seq 0 24)).
  { apply Forall_forall. intros x Hx%elem_of_seq. lia. }
  induction Hl as [| hour hours Hh _ IH]; intros s; simpl; [done |].
  rewrite <- IH. f_equal. unfold scanHour. by rewrite (H hour Hh).
Qed.

Lemma sumTotals_emitted m hours :
  sumTotals (map (emitted m) hours) =
  sum_list_with (fun hour => total (default zeroBucket (m !! Z.of_nat hour))) hours.
Proof. unfold sumTotals. induction hours; simpl; [done | by f_equal]. Qed.

Lemma sum_bump_out m h t hours :
  Forall (fun hour => Z.of_nat hour ≠ h) hours →
  sumTotals (map (emitted (bump m h t)) hours) = sumTotals (map (emitted m) hours).
Proof.
  rewrite !sumTotals_emitted. induction 1 as [| hour hours Hh _ IH]; simpl; [done |].
  rewrite IH, bump_lookup_ne; done.
Qed.

Lemma sum_bump_in m t hours hour :
  NoDup hours → hour ∈ hours →
  sumTotals (map (emitted (bump m (Z.of_nat hour) t)) hours)
  = S (sumTotals (map (emitted m) hours)).
Proof.
  intros Hnd Hin. induction Hnd as [| x hours Hx Hnd IH].
  - by apply elem_of_nil in Hin.
  - change (map ?f (x :: hours)) with (f x :: map f hours).
    unfold sumTotals in *. simpl.
    destruct (decide (x = hour)) as [-> | Hne].
    + rewrite bump_lookup_eq. simpl.
      fold (sumTotals (map (emitted (bump m (Z.of_nat hour) t)) hours)).
      rewrite sum_bump_out; [unfold sumTotals; lia |].
      apply Forall_forall. intros y Hy ?. assert (y = hour) by lia. by subst.
    + rewrite bump_lookup_ne by lia. rewrite IH; [lia |].
      apply elem_of_cons in Hin as [-> | Hin]; done.
Qed.

Lemma sum_bump m h t :
  sumTotals (map (emitted (bump m h t)) (seq 0 24))
  = sumTotals (map (emitted m) (seq 0 24)) + (if inRange h then 1 else 0).
Proof.
  destruct (inRange h) eqn:Hr; unfold inRange in Hr.
  - apply andb_true_iff in Hr as [H0%Z.leb_le H1%Z.ltb_lt].
    rewrite <- (Z2Nat.id h H0), sum_bump_in; [lia | apply NoDup_seq |].
    apply elem_of_seq. lia.
  - rewrite sum_bump_out; [lia |]. apply Forall_forall. intros y Hy%elem_of_seq <-.
    apply andb_false_iff in Hr as [H%Z.leb_gt | H%Z.ltb_ge]; lia.
Qed.

Section Counting.

Context {F : Type} (key : F → option Z * bool).

Lemma count_cons (P : option Z → bool) f (l : list F) :
  length (filter (fun f => P (key f).1) (f :: l))
  = (if P (key f).1 then 1 else 0) + length (filter (fun f => P (key f).1) l).
Proof. rewrite filter_cons. destruct (P (key f).1); by case_decide. Qed.

(** The emitted totals add up to the number of flights with an hour in
    0..23, whatever the buckets held before. *)
Lemma sum_tallyOf l m :
  sumTotals (map (emitted (tallyOf key l m)) (seq 0 24))
  = sumTotals (map (emitted m) (seq 0 24))
    + length (filter (fun f => isInside (key f).1) l).
Proof.
  revert m. induction l as [| f l IH]; intros m; [simpl; lia |].
  rewrite tallyOf_cons, IH, count_cons.
  destruct (key f).1 as [h|]; cbn [tally isInside]; [rewrite sum_bump |]; lia.
Qed.

(** Every flight has exactly one of the three fates. *)
Lemma count_partition (l : list F) :
  length l = length (filter (fun f => isNaN (key f).1) l)
             + length (filter (fun f => isInside (key f).1) l)
             + length (filter (fun f => isOutside (key f).1) l).
Proof.
  induction l as [| f l IH]; [done |].
  rewrite !count_cons. simpl. rewrite IH.
  destruct (key f).1 as [h|]; simpl; [destruct (inRange h) |]; simpl; lia.
Qed.

End Counting.

Lemma sum_emitted_empty : sumTotals (map (emitted ∅) (seq 0 24)) = 0.
Proof. done. Qed.

(** ** Status counts *)

Lemma countStatuses_perm {F} (status : F → Status) l l' :
  l ≡ₚ l' → countStatuses status l = countStatuses status l'.
Proof. intros Hp. unfold countStatuses. by rewrite Hp. Qed.

Lemma countStatuses_insert {F} (status : F → Status) l1 f l2 s :
  countOf (countStatuses status (l1 ++ f :: l2)) s
  = (if Status_eqb (status f) s then 1 else 0)
    + countOf (countStatuses status (l1 ++ l2)) s.
Proof.
  assert (Hp : l1 ++ f :: l2 ≡ₚ f :: (l1 ++ l2)) by by rewrite Permutation_middle.
  rewrite (countStatuses_perm _ _ _ Hp). unfold countStatuses.
  destruct s; simpl; rewrite filter_cons; destruct (status f); simpl; done.
Qed.

(** ** The reports *)

Lemma dom_countByHour l : Dom.countByHour l = tallyOf domKey l ∅.
Proof. done. Qed.

Lemma dom_flight_count d ft l now :
  Dom.flight_count (Dom.buildReport d ft l now)
  = map (emitted (Dom.countByHour l)) (seq 0 24).
Proof. simpl. apply scanHours_flight_count. Qed.

Lemma dom_count_key P l :
  domCount P l = length (filter (fun f => P (domKey f).1) l).
Proof. done. Qed.

Lemma api_foldM_hits l m :
  foldM (fun m flight =>
           let! h := Api.flightHour flight in
           OK (tally m h (String.eqb (Api.terminal flight) "T3"))) l m
  = let! hs := apiHits l in OK (tallyOf id hs m).
Proof.
  revert m. induction l as [| f l IH]; intros m; [done |].
  unfold apiHits. simpl. destruct (Api.flightHour f) as [h|e]; simpl; [| done].
  rewrite IH. unfold apiHits. by destruct (mapM _ l).
Qed.

Lemma api_countByHour l :
  Api.countByHour l = let! hs := apiHits l in OK (tallyOf id hs ∅).
Proof. apply api_foldM_hits. Qed.

Lemma api_buildReport_hits d ft fd totalFlights l now :
  Api.buildReport d ft fd totalFlights l now
  = let! hs := apiHits l in
    OK (Api.assembleReport d ft fd totalFlights l now (tallyOf id hs ∅)).
Proof. unfold Api.buildReport. rewrite api_countByHour. by destruct (apiHits l). Qed.

Lemma apiHits_cons f l hs :
  apiHits (f :: l) = OK hs ↔
  ∃ h hs', Api.flightHour f = OK h ∧ apiHits l = OK hs'
           ∧ hs = (h, String.eqb (Api.terminal f) "T3") :: hs'.
Proof.
  unfold apiHits. simpl. destruct (Api.flightHour f) as [h|e]; simpl.
  - destruct (mapM _ l) as [hs'|e]; simpl.
    + split; [intros [= <-]; eauto | intros (? & ? & [= <-] & [= <-] & ->); done].
    + split; [done | by intros (? & ? & _ & ? & _)].
  - split; [done | by intros (? & ? & ? & _)].
Qed.

(** A permuted list of flights gives the same hours, permuted, and throws
    if the list does. *)
Lemma apiHits_perm l l' hs :
  l ≡ₚ l' → apiHits l = OK hs → ∃ hs', apiHits l' = OK hs' ∧ hs ≡ₚ hs'.
Proof.
  intros Hp. revert hs.
  induction Hp as [| x l l' _ IH | x y l | l l' l'' _ IH1 _ IH2]; intros hs H.
  - eauto.
  - apply apiHits_cons in H as (h & hs0 & Hh & H0 & ->).
    destruct (IH _ H0) as (hs1 & H1 & Hp1).
    eexists. split; [apply apiHits_cons; eauto |]. by constructor.
  - apply apiHits_cons in H as (h1 & hs1 & Hh1 & H & ->).
    apply apiHits_cons in H as (h2 & hs2 & Hh2 & H & ->).
    eexists. split; [apply apiHits_cons; do 2 eexists; split; [done |]; split;
                      [apply apiHits_cons; eauto | done] |].
    apply perm_swap.
  - destruct (IH1 _ H) as (hs1 & H1 & Hp1). destruct (IH2 _ H1) as (hs2 & H2 & Hp2).
    exists hs2. split; [done | by etrans].
Qed.

Lemma apiHits_total l :
  Forall (fun f => ∃ s, Api.scheduledTime f = VStr s) l → ∃ hs, apiHits l = OK hs.
Proof.
  induction 1 as [| f l [s Hs] _ [hs IH]]; [by exists [] |].
  eexists. apply apiHits_cons. do 2 eexists. split; [| split; [done | done]].
  unfold Api.flightHour. by rewrite Hs.
Qed.

Lemma apiHits_count P l hs :
  apiHits l = OK hs →
  apiCount P l = length (filter (fun x : option Z * bool => P x.1) hs)
  ∧ length l = length hs.
Proof.
  revert hs. induction l as [| f l IH]; intros hs H.
  - injection H as <-. done.
  - apply apiHits_cons in H as (h & hs' & Hh & H & ->).
    destruct (IH _ H) as [IH1 IH2]. unfold apiCount in *.
    rewrite !filter_cons, Hh. simpl. split; [| by rewrite IH2].
    destruct (P h); simpl; by rewrite IH1.
Qed.

Lemma tallyOf_insert {F} (key : F → option Z * bool) l1 f l2 m :
  tallyOf key (l1 ++ f :: l2) m
  = tally (tallyOf key (l1 ++ l2) m) (key f).1 (key f).2.
Proof.
  assert (Hp : l1 ++ f :: l2 ≡ₚ (l1 ++ l2) ++ [f]).
  { by rewrite <- Permutation_middle, Permutation_cons_append. }
  by rewrite (tallyOf_perm key _ _ m Hp), tallyOf_app.
Qed.

Lemma outside_not_emitted h hour : inRange h = false → hour < 24 → h ≠ Z.of_nat hour.
Proof.
  unfold inRange. intros Hr Hh ->.
  apply andb_false_iff in Hr as [H%Z.leb_gt | H%Z.ltb_ge]; lia.
Qed.

(** A bucket outside 0..23 is invisible to the loop over the hours. *)
Lemma scanHours_bump_outside m h t :
  inRange h = false → scanHours (bump m h t) = scanHours m.
Proof.
  intros Hr. apply scanHours_ext. intros hour Hh.
  apply bump_lookup_ne. by apply outside_not_emitted.
Qed.

Lemma bump_total_pos m h t :
  ∃ b, bump m h t !! h = Some b ∧ 1 ≤ total b.
Proof. eexists. split; [apply bump_lookup_eq |]. simpl. lia. Qed.

(** C2, amended: the totals of the 24 emitted buckets, the flights whose
    hour does not parse and the flights whose hour parses outside 0..23
    add up to the number of flights.  That number is [total_flights] in
    the page version; in the API version [total_flights] is the
    [totalFlightCount] of the payload.  The API version builds a report
    whenever every scheduled time is a string. *)
Theorem round_trip_totals :
  (∀ d ft l now,
     sumTotals (Dom.flight_count (Dom.buildReport d ft l now))
     + domCount isNaN l + domCount isOutside l
     = Dom.total_flights (Dom.buildReport d ft l now)
     ∧ Dom.total_flights (Dom.buildReport d ft l now) = length l)
  ∧ (∀ d ft fd totalFlights l now r,
       Api.buildReport d ft fd totalFlights l now = OK r →
       sumTotals (Api.flight_count r) + apiCount isNaN l + apiCount isOutside l = length l
       ∧ Api.total_flights r = totalFlights)
  ∧ (∀ d ft fd totalFlights l now,
       Forall (fun f => ∃ s, Api.scheduledTime f = VStr s) l →
       ∃ r, Api.buildReport d ft fd totalFlights l now = OK r).
Proof.
  split; [| split].
  - intros d ft l now. split; [| done].
    rewrite dom_flight_count, dom_countByHour, (sum_tallyOf domKey), sum_emitted_empty.
    rewrite !dom_count_key. simpl Dom.total_flights.
    rewrite (count_partition domKey l). lia.
  - intros d ft fd totalFlights l now r H. rewrite api_buildReport_hits in H.
    destruct (apiHits l) as [hs|] eqn:Hhs; [| discriminate]. injection H as <-.
    split; [| done]. simpl Api.flight_count.
    rewrite scanHours_flight_count, (sum_tallyOf id), sum_emitted_empty.
    destruct (apiHits_count isNaN _ _ Hhs) as [-> ->].
    destruct (apiHits_count isOutside _ _ Hhs) as [-> _].
    rewrite (count_partition id hs). simpl. lia.
  - intros d ft fd totalFlights l now Hl. destruct (apiHits_total _ Hl) as [hs Hhs].
    rewrite api_buildReport_hits, Hhs. eauto.
Qed.

Lemma round_trip_totals_witness :
  (sumTotals (Api.flight_count
                (Api.assembleReport aDate (QStr "domestic") (QStr "arrival") (VNum 1200)
                   [apiFlight "09:15" "qantas" on_time; apiFlight "25:10" "jetstar" delayed]
                   "" (tallyOf id [(Some 9%Z, true); (Some 25%Z, false)] ∅)))
   + apiCount isNaN [apiFlight "09:15" "qantas" on_time; apiFlight "25:10" "jetstar" delayed]
   + apiCount isOutside [apiFlight "09:15" "qantas" on_time; apiFlight "25:10" "jetstar" delayed]
   = 2
   ∧ VNum 1200 = VNum 1200)
  ∧ ∃ r, Api.buildReport aDate (QStr "domestic") (QStr "arrival") (VNum 1200)
           [apiFlight "09:15" "qantas" on_time] "" = OK r.
Proof.
  split.
  - exact (proj1 (proj2 round_trip_totals) aDate (QStr "domestic") (QStr "arrival")
             (VNum 1200)
             [apiFlight "09:15" "qantas" on_time; apiFlight "25:10" "jetstar" delayed]
             "" _ eq_refl).
  - apply (proj2 (proj2 round_trip_totals)). repeat constructor. by eexists.
Defined.

(** C2 fails as stated.  Page version: one flight scheduled at "25:10"
    parses to hour 25; the 24 emitted totals add up to 0 and no flight
    fails to parse, yet [total_flights] is 1.  API version: one flight at
    "09:15" in a payload whose [totalFlightCount] is 1200; the emitted
    totals add up to 1 and no flight fails to parse, yet [total_flights]
    is 1200. *)
Lemma round_trip_totals_counterexample :
  sumTotals (Dom.flight_count
               (Dom.buildReport aDate (QStr "domestic") [domFlight "25:10" "jetstar" on_time] ""))
  = 0
  ∧ domCount isNaN [domFlight "25:10" "jetstar" on_time] = 0
  ∧ Dom.total_flights
      (Dom.buildReport aDate (QStr "domestic") [domFlight "25:10" "jetstar" on_time] "")
    = 1
  ∧ (∃ r, Api.buildReport aDate (QStr "domestic") (QStr "arrival") (VNum 1200)
            [apiFlight "09:15" "qantas" on_time] "" = OK r
          ∧ sumTotals (Api.flight_count r) = 1
          ∧ apiCount isNaN [apiFlight "09:15" "qantas" on_time] = 0
          ∧ Api.total_flights r = VNum 1200).
Proof.
  repeat split. eexists. split; [reflexivity |]. repeat split.
Qed.

(** C8: permuting the list of flights changes neither the status counts
    nor any of the 24 emitted buckets (their keys, T2, T3 and total),
    while [sample_flights] is the first five flights of the list in the
    order given.  In the API version a report of the one list comes with
    a report of the other. *)
Theorem aggregation_order_invariant :
  (∀ d ft now l l', l ≡ₚ l' →
     Dom.flight_statuses (Dom.buildReport d ft l' now)
     = Dom.flight_statuses (Dom.buildReport d ft l now)
     ∧ Dom.flight_count (Dom.buildReport d ft l' now)
       = Dom.flight_count (Dom.buildReport d ft l now)
     ∧ Dom.sample_flights (Dom.buildReport d ft l now) = take 5 l
     ∧ Dom.sample_flights (Dom.buildReport d ft l' now) = take 5 l')
  ∧ (∀ d ft fd totalFlights now l l' r, l ≡ₚ l' →
       Api.buildReport d ft fd totalFlights l now = OK r →
       ∃ r', Api.buildReport d ft fd totalFlights l' now = OK r'
             ∧ Api.flight_statuses r' = Api.flight_statuses r
             ∧ Api.flight_count r' = Api.flight_count r
             ∧ Api.sample_flights r = take 5 l
             ∧ Api.sample_flights r' = take 5 l').
Proof.
  split.
  - intros d ft now l l' Hp. repeat split.
    + simpl. symmetry. by apply countStatuses_perm.
    + rewrite !dom_flight_count, !dom_countByHour.
      by rewrite (tallyOf_perm domKey l l' ∅ Hp).
  - intros d ft fd totalFlights now l l' r Hp H. rewrite api_buildReport_hits in H.
    destruct (apiHits l) as [hs|] eqn:Hhs; [| discriminate]. injection H as <-.
    destruct (apiHits_perm _ _ _ Hp Hhs) as (hs' & Hhs' & Hph).
    eexists. split; [by rewrite api_buildReport_hits, Hhs' |]. repeat split.
    + simpl. symmetry. by apply countStatuses_perm.
    + simpl. by rewrite (tallyOf_perm id hs hs' ∅ Hph).
Qed.

Lemma aggregation_order_invariant_witness :
  (Dom.flight_statuses
     (Dom.buildReport aDate (QStr "domestic")
        [domFlight "14:05" "qantas" cancelled; domFlight "09:15" "jetstar" delayed] "")
   = Dom.flight_statuses
       (Dom.buildReport aDate (QStr "domestic")
          [domFlight "09:15" "jetstar" delayed; domFlight "14:05" "qantas" cancelled] "")
   ∧ Dom.flight_count
       (Dom.buildReport aDate (QStr "domestic")
          [domFlight "14:05" "qantas" cancelled; domFlight "09:15" "jetstar" delayed] "")
     = Dom.flight_count
         (Dom.buildReport aDate (QStr "domestic")
            [domFlight "09:15" "jetstar" delayed; domFlight "14:05" "qantas" cancelled] "")
   ∧ Dom.sample_flights
       (Dom.buildReport aDate (QStr "domestic")
          [domFlight "09:15" "jetstar" delayed; domFlight "14:05" "qantas" cancelled] "")
     = take 5 [domFlight "09:15" "jetstar" delayed; domFlight "14:05" "qantas" cancelled]
   ∧ Dom.sample_flights
       (Dom.buildReport aDate (QStr "domestic")
          [domFlight "14:05" "qantas" cancelled; domFlight "09:15" "jetstar" delayed] "")
     = take 5 [domFlight "14:05" "qantas" cancelled; domFlight "09:15" "jetstar" delayed])
  ∧ ∃ r', Api.buildReport aDate (QStr "domestic") (QStr "arrival") (VNum 2)
            [apiFlight "14:05" "qantas" cancelled; apiFlight "09:15" "jetstar" delayed] ""
          = OK r'.
Proof.
  split.
  - apply (proj1 aggregation_order_invariant). apply perm_swap.
  - destruct (proj2 aggregation_order_invariant aDate (QStr "domestic") (QStr "arrival")
                (VNum 2) ""
                [apiFlight "09:15" "jetstar" delayed; apiFlight "14:05" "qantas" cancelled]
                [apiFlight "14:05" "qantas" cancelled; apiFlight "09:15" "jetstar" delayed]
                _ (perm_swap _ _ _) eq_refl) as (r' & H & _).
    by exists r'.
Defined.

(** C10: a flight whose scheduled time parses to an hour outside 0..23
    is tallied in the bucket of that hour, which the report never reads:
    [flight_count] and [peak_hours] are those of the list without the
    flight, while the count of the flight's status is one more. *)
Theorem out_of_range_hour_hidden :
  (∀ d ft now l1 f l2 h,
     parseHour (Dom.scheduledTime f) = Some h → inRange h = false →
     (∃ b, Dom.countByHour (l1 ++ f :: l2) !! h = Some b ∧ 1 ≤ total b)
     ∧ Dom.flight_count (Dom.buildReport d ft (l1 ++ f :: l2) now)
       = Dom.flight_count (Dom.buildReport d ft (l1 ++ l2) now)
     ∧ Dom.peak_hours (Dom.buildReport d ft (l1 ++ f :: l2) now)
       = Dom.peak_hours (Dom.buildReport d ft (l1 ++ l2) now)
     ∧ ∀ s, countOf (Dom.flight_statuses (Dom.buildReport d ft (l1 ++ f :: l2) now)) s
            = (if Status_eqb (Dom.status f) s then 1 else 0)
              + countOf (Dom.flight_statuses (Dom.buildReport d ft (l1 ++ l2) now)) s)
  ∧ (∀ d ft fd totalFlights now l1 f l2 h r,
       Api.flightHour f = OK (Some h) → inRange h = false →
       Api.buildReport d ft fd totalFlights (l1 ++ f :: l2) now = OK r →
       (∃ m b, Api.countByHour (l1 ++ f :: l2) = OK m ∧ m !! h = Some b ∧ 1 ≤ total b)
       ∧ ∃ r', Api.buildReport d ft fd totalFlights (l1 ++ l2) now = OK r'
               ∧ Api.flight_count r = Api.flight_count r'
               ∧ Api.peak_hours r = Api.peak_hours r'
               ∧ ∀ s, countOf (Api.flight_statuses r) s
                      = (if Status_eqb (Api.status f) s then 1 else 0)
                        + countOf (Api.flight_statuses r') s).
Proof.
  split.
  - intros d ft now l1 f l2 h Hh Hr.
    assert (Hm : Dom.countByHour (l1 ++ f :: l2)
                 = bump (Dom.countByHour (l1 ++ l2)) h (Dom.isT3 f)).
    { rewrite !dom_countByHour, tallyOf_insert. unfold domKey. simpl. by rewrite Hh. }
    split; [rewrite Hm; apply bump_total_pos |].
    split; [| split].
    + simpl. by rewrite Hm, scanHours_bump_outside.
    + simpl. by rewrite Hm, scanHours_bump_outside.
    + intros s. simpl. apply countStatuses_insert.
  - intros d ft fd totalFlights now l1 f l2 h r Hh Hr H.
    rewrite api_buildReport_hits in H.
    destruct (apiHits (l1 ++ f :: l2)) as [hs|] eqn:Hhs; [| discriminate].
    injection H as <-.
    assert (Hp : l1 ++ f :: l2 ≡ₚ f :: (l1 ++ l2)) by by rewrite Permutation_middle.
    destruct (apiHits_perm _ _ _ Hp Hhs) as (hs' & Hhs' & Hph).
    apply apiHits_cons in Hhs' as (h' & hs0 & Hh' & Hhs0 & ->).
    rewrite Hh in Hh'. injection Hh' as <-.
    assert (Hm : tallyOf id hs ∅
                 = bump (tallyOf id hs0 ∅) h (String.eqb (Api.terminal f) "T3")).
    { rewrite (tallyOf_perm id _ _ ∅ Hph).
      apply (tallyOf_insert id [] (Some h, String.eqb (Api.terminal f) "T3") hs0 ∅). }
    split.
    + exists (tallyOf id hs ∅). rewrite api_countByHour, Hhs.
      destruct (bump_total_pos (tallyOf id hs0 ∅) h (String.eqb (Api.terminal f) "T3"))
        as (b & Hb & Hpos).
      exists b. simpl. rewrite Hm. by repeat split.
    + eexists. split; [by rewrite api_buildReport_hits, Hhs0 |].
      split; [| split].
      * simpl. by rewrite Hm, scanHours_bump_outside.
      * simpl. by rewrite Hm, scanHours_bump_outside.
      * intros s. simpl. apply countStatuses_insert.
Qed.

Lemma out_of_range_hour_hidden_witness :
  (∃ b, Dom.countByHour
          ([domFlight "09:15" "qantas" on_time] ++ domFlight "25:10" "jetstar" delayed :: [])
        !! 25%Z = Some b ∧ 1 ≤ total b)
  ∧ Dom.flight_count
      (Dom.buildReport aDate (QStr "domestic")
         ([domFlight "09:15" "qantas" on_time] ++ domFlight "25:10" "jetstar" delayed :: []) "")
    = Dom.flight_count
        (Dom.buildReport aDate (QStr "domestic") ([domFlight "09:15" "qantas" on_time] ++ []) "").
Proof.
  destruct (proj1 out_of_range_hour_hidden aDate (QStr "domestic") ""
              [domFlight "09:15" "qantas" on_time] (domFlight "25:10" "jetstar" delayed) []
              25%Z eq_refl eq_refl) as (H1 & H2 & _).
  exact (conj H1 H2).
Defined.

(** ** Errors *)

Lemma forEachCard_from {C F} (body : C → result F) cards acc :
  fold_left (fun flights card =>
               match body card with
               | OK flight => flights ++ [flight]
               | Throw _ => flights
               end) cards acc
  = acc ++ omap (kept body) cards.
Proof.
  revert acc. induction cards as [| card cards IH]; intros acc; simpl.
  - by rewrite app_nil_r.
  - rewrite IH. unfold kept. destruct (body card); simpl; [| done].
    by rewrite <- app_assoc.
Qed.

Lemma forEachCard_kept {C F} (body : C → result F) cards :
  Dom.forEachCard body cards = omap (kept body) cards.
Proof. apply (forEachCard_from body cards []). Qed.

(** C4, evaluated.  In the page version a card whose body throws adds
    nothing and the other cards are kept, in order, whatever the body is.
    In the API version the callback of [map] has no [try]: on the
    payload [oddPayload], whose first record has an object as airline,
    [toLowerCase] throws, no flight of the payload is returned and the
    handler answers 500 with the message of that exception, although the
    second record alone is processed to a flight. *)
Theorem per_record_error_isolation today now addDays :
  (∀ (C F : Type) (body : C → result F) cards,
     Dom.forEachCard body cards = omap (kept body) cards)
  ∧ Api.processFlight oddRecord
    = Throw (TypeError "flight.airline.toLowerCase is not a function")
  ∧ (∃ flight, Api.processFlight goodRecord = OK flight)
  ∧ Api.processResponse oddPayload
    = Throw (TypeError "flight.airline.toLowerCase is not a function")
  ∧ Api.handler (fun _ => OK oddPayload) today now addDays noQuery
    = (Api.Status500 "Failed to fetch flight data"
         "flight.airline.toLowerCase is not a function" now,
       [Api.apiUrl today (QStr "domestic") (QStr "departure")]).
Proof.
  split; [intros; apply forEachCard_kept |].
  split; [reflexivity |]. split; [eexists; reflexivity |]. split; reflexivity.
Qed.

Lemma api_validate_refused date ft fd :
  refused Api.validFlightTypes ft || refused Api.validDates date
  || refused Api.validDirections fd = true →
  ∃ msg, Api.validateParams date ft fd = Invalid msg
         ∧ (msg = Api.msgFlightType ∨ msg = Api.msgDate ∨ msg = Api.msgDirection).
Proof.
  unfold Api.validateParams, refused. intros H.
  destruct (qTruthy ft && _); [eauto |].
  destruct (qTruthy date && _); [eauto |].
  destruct (qTruthy fd && _); [eauto | done].
Qed.

Lemma api_validate_accepted date ft fd :
  refused Api.validFlightTypes ft || refused Api.validDates date
  || refused Api.validDirections fd = false →
  Api.validateParams date ft fd = Valid.
Proof.
  unfold Api.validateParams, refused. intros H.
  destruct (qTruthy ft && _); [done |].
  destruct (qTruthy date && _); [done |].
  by destruct (qTruthy fd && _).
Qed.

Lemma dom_validate_refused date ft :
  refused Dom.validFlightTypes ft || refused Dom.validDates date = true →
  ∃ msg, Dom.validateParams date ft = Invalid msg
         ∧ (msg = Api.msgFlightType ∨ msg = Api.msgDate).
Proof.
  unfold Dom.validateParams, refused. intros H.
  destruct (qTruthy ft && _); [eauto |].
  destruct (qTruthy date && _); [eauto | done].
Qed.

Lemma dom_validate_accepted date ft :
  refused Dom.validFlightTypes ft || refused Dom.validDates date = false →
  Dom.validateParams date ft = Valid.
Proof.
  unfold Dom.validateParams, refused. intros H.
  destruct (qTruthy ft && _); [done |].
  by destruct (qTruthy date && _).
Qed.

(** C9, amended: a request is answered 400 with one of the messages of
    [validateParams], and nothing is requested or loaded, exactly when a
    parameter that the version reads is truthy and outside its set: date,
    flightType and flightDirection in the API version, date and
    flightType in the page version, which does not read flightDirection.
    An empty parameter passes validation; every request that passes makes
    one acquisition. *)
Theorem invalid_parameter_rejected :
  (∀ httpGet today now addDays query,
     (refused Api.validFlightTypes (flightTypeOf query)
      || refused Api.validDates (dateOf query)
      || refused Api.validDirections (flightDirectionOf query) = true →
      ∃ msg, Api.handler httpGet today now addDays query = (Api.Status400 msg, [])
             ∧ (msg = Api.msgFlightType ∨ msg = Api.msgDate ∨ msg = Api.msgDirection))
     ∧ (refused Api.validFlightTypes (flightTypeOf query)
        || refused Api.validDates (dateOf query)
        || refused Api.validDirections (flightDirectionOf query) = false →
        ∃ response url,
          Api.handler httpGet today now addDays query = (response, [url])
          ∧ ∀ msg, response ≠ Api.Status400 msg))
  ∧ (∀ loadCards today now addDays query,
       (refused Dom.validFlightTypes (flightTypeOf query)
        || refused Dom.validDates (dateOf query) = true →
        ∃ msg, Dom.handler loadCards today now addDays query = (Dom.Status400 msg, [])
               ∧ (msg = Api.msgFlightType ∨ msg = Api.msgDate))
       ∧ (refused Dom.validFlightTypes (flightTypeOf query)
          || refused Dom.validDates (dateOf query) = false →
          ∃ response url,
            Dom.handler loadCards today now addDays query = (response, [url])
            ∧ ∀ msg, response ≠ Dom.Status400 msg)).
Proof.
  split.
  - intros httpGet today now addDays query. unfold Api.handler.
    fold (dateOf query) (flightTypeOf query) (flightDirectionOf query). split; intros H.
    + destruct (api_validate_refused _ _ _ H) as (msg & -> & Hmsg). eauto.
    + rewrite (api_validate_accepted _ _ _ H). unfold Api.getFlightData.
      do 2 eexists. split; [reflexivity |]. intros msg. by destruct (bind _ _).
  - intros loadCards today now addDays query. unfold Dom.handler.
    fold (dateOf query) (flightTypeOf query). split; intros H.
    + destruct (dom_validate_refused _ _ H) as (msg & -> & Hmsg). eauto.
    + rewrite (dom_validate_accepted _ _ H). unfold Dom.getFlightTimes.
      do 2 eexists. split; [reflexivity |]. intros msg. by destruct (bind _ _).
Qed.

Lemma invalid_parameter_rejected_witness :
  (∃ msg,
     Api.handler (fun _ => OK oddPayload) aDate "" (fun d _ => d)
       {| q_date := None; q_flightType := Some (QStr "domestic2");
          q_flightDirection := None |}
     = (Api.Status400 msg, [])
     ∧ (msg = Api.msgFlightType ∨ msg = Api.msgDate ∨ msg = Api.msgDirection))
  ∧ (∃ msg,
       Dom.handler (fun _ => OK [cardOfAirline "Jetstar"]) aDate "" (fun d _ => d)
         {| q_date := Some (QStr "next week"); q_flightType := None;
            q_flightDirection := None |}
       = (Dom.Status400 msg, [])
       ∧ (msg = Api.msgFlightType ∨ msg = Api.msgDate)).
Proof.
  split.
  - apply (proj1 (proj1 invalid_parameter_rejected (fun _ => OK oddPayload) aDate ""
                    (fun d _ => d)
                    {| q_date := None; q_flightType := Some (QStr "domestic2");
                       q_flightDirection := None |})).
    reflexivity.
  - apply (proj1 (proj2 invalid_parameter_rejected (fun _ => OK [cardOfAirline "Jetstar"])
                    aDate ""
                    (fun d _ => d)
                    {| q_date := Some (QStr "next week"); q_flightType := None;
                       q_flightDirection := None |})).
    reflexivity.
Defined.

(** C9 fails as stated.  The page version answers 200 to a request whose
    flightDirection is "sideways", after loading the page; the API
    version answers 200 to a request whose flightType is the empty
    string, after requesting the data. *)
Lemma invalid_parameter_rejected_counterexample :
  qIncluded Api.validDirections (QStr "sideways") = false
  ∧ (∃ report url,
       Dom.handler (fun _ => OK [cardOfAirline "Jetstar"]) aDate "" (fun d _ => d)
         {| q_date := None; q_flightType := None;
            q_flightDirection := Some (QStr "sideways") |}
       = (Dom.Status200 report, [url]))
  ∧ qIncluded Api.validFlightTypes (QStr "") = false
  ∧ (∃ report url,
       Api.handler (fun _ => OK (VObj [("totalFlightCount", VNum 0); ("flightData", VArr [])]))
         aDate "" (fun d _ => d)
         {| q_date := None; q_flightType := Some (QStr "");
            q_flightDirection := None |}
       = (Api.Status200 report, [url])).
Proof.
  split; [reflexivity |]. split; [do 2 eexists; reflexivity |].
  split; [reflexivity |]. do 2 eexists; reflexivity.
Qed.

(** ** Worked examples *)

Example parseInt_examples :
  Str.parseInt "09" = Some 9%Z ∧ Str.parseInt " -12ab" = Some (-12)%Z
  ∧ Str.parseInt "" = None ∧ Str.parseInt "-" = None ∧ Str.parseInt "0x1A" = Some 0%Z
  ∧ parseHour "18:25" = Some 18%Z ∧ parseHour "" = None ∧ parseHour ":30" = None.
Proof. by repeat split. Qed.

Example string_examples :
  Str.split ":" "09:15" = ["09"; "15"] ∧ Str.split ":" "" = [""]
  ∧ Str.trim "  On Time " = "On Time"
  ∧ Str.toLowerCase "Qantas AirWAYS" = "qantas airways"
  ∧ Val.join ", " [VStr "MEL"; VNull; VNum 3] = OK "MEL, , 3"
  ∧ Val.join ", " [VArr [VNum 1; VNull; VArr [VStr "a"; VStr "b"]]; VObj [("gate", VNum 4)]]
    = OK "1,,a,b, [object Object]"
  ∧ Val.join ", " [VStr "MEL"; VObj [("toString", VNull)]]
    = Throw (TypeError "Cannot convert object to primitive value")
  ∧ Api.formatDate aDate = "2024-01-05" ∧ Dom.formatDate aDate = "2024/01/05".
Proof. by repeat split. Qed.

(** Three flights: two at 9 (one of each terminal), one at 14. *)
Example scenario_page :
  nth 9 (Dom.flight_count (Dom.buildReport aDate (QStr "domestic") scenarioPage ""))
      ("", zeroBucket)
  = ("9-10", {| T2 := 1; T3 := 1; total := 2 |})
  ∧ nth 14 (Dom.flight_count (Dom.buildReport aDate (QStr "domestic") scenarioPage ""))
        ("", zeroBucket)
    = ("14-15", {| T2 := 0; T3 := 1; total := 1 |})
  ∧ Dom.flight_statuses (Dom.buildReport aDate (QStr "domestic") scenarioPage "")
    = {| n_on_time := 1; n_cancelled := 1; n_delayed := 1 |}
  ∧ Dom.peak_hours (Dom.buildReport aDate (QStr "domestic") scenarioPage "")
    = {| max_flights := {| hour := "9-10"; count := Fin 2 |};
         lowest_flights := {| hour := "14-15"; count := Fin 1 |} |}.
Proof. by repeat split. Qed.

Example scenario_api :
  ∃ r, Api.buildReport aDate (QStr "domestic") (QStr "departure") (VNum 3) scenarioApi ""
       = OK r
       ∧ nth 9 (Api.flight_count r) ("", zeroBucket)
         = ("9-10", {| T2 := 1; T3 := 1; total := 2 |})
       ∧ Api.flight_statuses r = {| n_on_time := 1; n_cancelled := 1; n_delayed := 1 |}
       ∧ Api.peak_hours r
         = {| max_flights := {| hour := "9-10"; count := Fin 2 |};
              lowest_flights := {| hour := "14-15"; count := Fin 1 |} |}.
Proof. eexists. by repeat split. Qed.

(** The page version answers 200 whenever the page loads: no card can
    fail the request. *)
Lemma dom_handler_loaded loadCards today now addDays query cards :
  Dom.validateParams (dateOf query) (flightTypeOf query) = Valid →
  loadCards (Dom.pageUrl (Dom.dateToFetch today addDays (dateOf query)) (flightTypeOf query))
  = OK cards →
  ∃ report, fst (Dom.handler loadCards today now addDays query) = Dom.Status200 report.
Proof.
  intros Hv Hl. unfold Dom.handler. fold (dateOf query) (flightTypeOf query).
  rewrite Hv. unfold Dom.getFlightTimes. rewrite Hl. simpl. eauto.
Qed.

(** * Further properties *)

(** ** What a bucket holds *)

Section Buckets.

Context {F : Type} (key : F → option Z * bool).

Lemma bucketAt_cons f l k :
  bucketAt key (f :: l) k
  = addBucket (match (key f).1 with
               | Some h => if decide (h = k)
                           then if (key f).2 then {| T2 := 0; T3 := 1; total := 1 |}
                                else {| T2 := 1; T3 := 0; total := 1 |}
                           else zeroBucket
               | None => zeroBucket
               end)
              (bucketAt key l k).
Proof.
  unfold bucketAt, addBucket. rewrite !filter_cons.
  destruct (key f) as [[h|] t]; simpl.
  - destruct (decide (h = k)) as [-> | Hne].
    + destruct t; simpl; repeat case_decide; simpl; try done; intuition congruence.
    + repeat case_decide; simpl; try done; intuition congruence.
  - repeat case_decide; simpl; try done; intuition congruence.
Qed.

(** The buckets after the flights are the buckets before them plus the
    counts of the flights. *)
Lemma tallyOf_bucket l m k :
  default zeroBucket (tallyOf key l m !! k)
  = addBucket (default zeroBucket (m !! k)) (bucketAt key l k).
Proof.
  revert m. induction l as [| f l IH]; intros m.
  - change (tallyOf key [] m) with m.
    destruct (default zeroBucket (m !! k)). unfold addBucket, bucketAt.
    rewrite !filter_nil. simpl. f_equal; lia.
  - rewrite tallyOf_cons, IH, bucketAt_cons.
    destruct (key f) as [[h|] t]; simpl.
    + destruct (decide (h = k)) as [-> | Hne].
      * rewrite bump_lookup_eq. unfold addBucket. destruct t; simpl; f_equal; lia.
      * rewrite bump_lookup_ne by done. unfold addBucket. simpl. f_equal; lia.
    + unfold addBucket. simpl. f_equal; lia.
Qed.

Lemma tallyOf_empty_bucket l k :
  default zeroBucket (tallyOf key l ∅ !! k) = bucketAt key l k.
Proof. rewrite tallyOf_bucket, lookup_empty. done. Qed.

(** Every bucket of the map has counted a flight. *)
Lemma tallyOf_positive l m :
  (∀ k b, m !! k = Some b → 1 ≤ total b) →
  ∀ k b, tallyOf key l m !! k = Some b → 1 ≤ total b.
Proof.
  revert m. induction l as [| f l IH]; intros m Hm; [done |].
  rewrite tallyOf_cons. apply IH. intros k b.
  destruct (key f).1 as [h|]; simpl; [| apply Hm].
  destruct (decide (h = k)) as [-> | Hne].
  - rewrite bump_lookup_eq. intros [= <-]. simpl. lia.
  - rewrite bump_lookup_ne by done. apply Hm.
Qed.

Lemma bucketAt_split l k :
  T2 (bucketAt key l k) + T3 (bucketAt key l k) = total (bucketAt key l k).
Proof.
  induction l as [| f l IH]; [done |].
  rewrite bucketAt_cons. destruct (key f) as [[h|] t]; simpl in *; [| lia].
  destruct (decide (h = k)); [destruct t |]; simpl; lia.
Qed.

Lemma tallyOf_lookup l k b :
  tallyOf key l ∅ !! k = Some b → b = bucketAt key l k ∧ 1 ≤ total b.
Proof.
  intros H. split.
  - by rewrite <- tallyOf_empty_bucket, H.
  - eapply (tallyOf_positive l ∅); [| done]. intros ? ?. by rewrite lookup_empty.
Qed.

Lemma tallyOf_lookup_None l k :
  tallyOf key l ∅ !! k = None ↔ total (bucketAt key l k) = 0.
Proof.
  split.
  - intros H. by rewrite <- tallyOf_empty_bucket, H.
  - intros H. destruct (tallyOf key l ∅ !! k) as [b|] eqn:E; [| done].
    apply tallyOf_lookup in E as [-> Hpos]. lia.
Qed.

Lemma hourTotal_tallyOf l h :
  hourTotal (tallyOf key l ∅) h = flightsAt key l h.
Proof.
  unfold hourTotal, flightsAt. rewrite <- tallyOf_empty_bucket.
  by destruct (tallyOf key l ∅ !! Z.of_nat h).
Qed.

Lemma emitted_tallyOf l h :
  emitted (tallyOf key l ∅) h = (hourKey h, bucketAt key l (Z.of_nat h)).
Proof. unfold emitted. by rewrite tallyOf_empty_bucket. Qed.

End Buckets.

(** ** The peak and the trough of the loop over the hours *)

Lemma scanUpTo_S m n : scanUpTo m (S n) = scanHour m (scanUpTo m n) n.
Proof. unfold scanUpTo. by rewrite seq_S, fold_left_app. Qed.

Lemma scanHour_max m s h :
  maxFlights (scanHour m s h)
  = (if maxFlights s <? hourTotal m h then hourTotal m h else maxFlights s)
  ∧ maxHour (scanHour m s h)
    = (if maxFlights s <? hourTotal m h then h else maxHour s).
Proof.
  unfold scanHour, hourTotal. simpl.
  destruct (maxFlights s <? _); simpl; destruct (ltNum _ _ && _); done.
Qed.

Lemma scanHour_min m s h :
  minFlights (scanHour m s h)
  = (if ltNum (hourTotal m h) (minFlights s) && (0 <? hourTotal m h)
     then Fin (hourTotal m h) else minFlights s)
  ∧ minHour (scanHour m s h)
    = (if ltNum (hourTotal m h) (minFlights s) && (0 <? hourTotal m h)
       then h else minHour s).
Proof.
  unfold scanHour, hourTotal. simpl.
  destruct (maxFlights s <? _); simpl; destruct (ltNum _ _ && _); done.
Qed.

(** After the hours below [n]: the maximum so far and the first hour that
    reaches it (hour 0 while every total is 0). *)
Lemma scanUpTo_max m n :
  (∀ h, h < n → hourTotal m h ≤ maxFlights (scanUpTo m n))
  ∧ (maxFlights (scanUpTo m n) = 0 ∧ maxHour (scanUpTo m n) = 0
     ∨ maxHour (scanUpTo m n) < n
       ∧ hourTotal m (maxHour (scanUpTo m n)) = maxFlights (scanUpTo m n)
       ∧ 0 < maxFlights (scanUpTo m n))
  ∧ (∀ h, h < maxHour (scanUpTo m n) → hourTotal m h < maxFlights (scanUpTo m n)).
Proof.
  induction n as [| n (Hle & Hat & Hfirst)].
  - simpl. split; [intros; lia |]. split; [by left | intros; lia].
  - rewrite scanUpTo_S. destruct (scanHour_max m (scanUpTo m n) n) as [-> ->].
    destruct (Nat.ltb_spec (maxFlights (scanUpTo m n)) (hourTotal m n)) as [Hlt | Hge].
    + split; [| split].
      * intros h Hh. destruct (decide (h = n)) as [-> |]; [lia |].
        specialize (Hle h). lia.
      * right. lia.
      * intros h Hh. specialize (Hle h). lia.
    + split; [| split].
      * intros h Hh. destruct (decide (h = n)) as [-> |]; [lia |].
        specialize (Hle h). lia.
      * destruct Hat as [? | ?]; [by left | right; lia].
      * done.
Qed.

(** After the hours below [n]: the least positive total so far and the
    first hour that has it, or [Infinity] and hour 0 while every total
    is 0. *)
Lemma scanUpTo_min m n :
  match minFlights (scanUpTo m n) with
  | Infinity => minHour (scanUpTo m n) = 0 ∧ ∀ h, h < n → hourTotal m h = 0
  | Fin c =>
      0 < c ∧ minHour (scanUpTo m n) < n
      ∧ hourTotal m (minHour (scanUpTo m n)) = c
      ∧ (∀ h, h < n → 0 < hourTotal m h → c ≤ hourTotal m h)
      ∧ (∀ h, h < minHour (scanUpTo m n) → 0 < hourTotal m h → c < hourTotal m h)
  end.
Proof.
  induction n as [| n IH].
  - simpl. split; [done | intros; lia].
  - rewrite scanUpTo_S. destruct (scanHour_min m (scanUpTo m n) n) as [-> ->].
    destruct (minFlights (scanUpTo m n)) as [c|]; simpl.
    + destruct IH as (Hc & Hh & Hat & Hle & Hfirst).
      destruct (Nat.ltb_spec (hourTotal m n) c) as [Hlt | Hge]; simpl.
      * destruct (Nat.ltb_spec 0 (hourTotal m n)) as [Hpos | Hz]; simpl.
        -- repeat split; try lia.
           ++ intros h Hn Hp. destruct (decide (h = n)) as [-> |]; [lia |].
              specialize (Hle h). lia.
           ++ intros h Hn Hp. specialize (Hle h). lia.
        -- repeat split; try lia; [| done].
           intros h Hn Hp. destruct (decide (h = n)) as [-> |]; [lia |].
           apply Hle; [lia | done].
      * repeat split; try lia; [| done].
        intros h Hn Hp. destruct (decide (h = n)) as [-> |]; [lia |].
        apply Hle; [lia | done].
    + destruct IH as (Hh & Hz).
      destruct (Nat.ltb_spec 0 (hourTotal m n)) as [Hpos | Hzero]; simpl.
      * repeat split; try lia.
        -- intros h Hn Hp. destruct (decide (h = n)) as [-> |]; [lia |].
           specialize (Hz h). lia.
        -- intros h Hn Hp. specialize (Hz h). lia.
      * split; [done |]. intros h Hn. destruct (decide (h = n)) as [-> |]; [lia |].
        apply Hz. lia.
Qed.

Lemma scanHours_upTo m : scanHours m = scanUpTo m 24.
Proof. unfold scanHours, scanUpTo. reflexivity. Qed.

(** ** The report of the API version, when there is one *)

Lemma tallyOf_map {F} (key : F → option Z * bool) l m :
  tallyOf id (map key l) m = tallyOf key l m.
Proof. revert m. induction l as [| f l IH]; intros m; [done |]. apply IH. Qed.

Lemma flightHour_ok f h :
  Api.flightHour f = OK h ↔ ∃ s, Api.scheduledTime f = VStr s ∧ h = parseHour s.
Proof.
  unfold Api.flightHour. split.
  - intros H. destruct (Api.scheduledTime f) as [| | | |s| |]; try discriminate.
    injection H as <-. eauto.
  - by intros (s & -> & ->).
Qed.

Lemma apiHits_map l hs :
  apiHits l = OK hs ↔
  Forall (fun f => ∃ s, Api.scheduledTime f = VStr s) l ∧ hs = map apiKey l.
Proof.
  revert hs. induction l as [| f l IH]; intros hs.
  - split; [intros [= <-]; by split | by intros [_ ->]].
  - rewrite apiHits_cons. split.
    + intros (h & hs' & Hh & Hhs & ->). apply IH in Hhs as [Hl ->].
      apply flightHour_ok in Hh as (s & Hs & ->).
      split; [constructor; eauto |]. simpl. unfold apiKey at 2. by rewrite Hs.
    + intros [Hl ->]. apply Forall_cons in Hl as [[s Hs] Hl].
      exists (parseHour s), (map apiKey l). split; [apply flightHour_ok; eauto |].
      split; [by apply IH |]. simpl. unfold apiKey at 1. by rewrite Hs.
Qed.

Lemma api_report d ft fd totalFlights l now r :
  Api.buildReport d ft fd totalFlights l now = OK r ↔
  Forall (fun f => ∃ s, Api.scheduledTime f = VStr s) l
  ∧ r = Api.assembleReport d ft fd totalFlights l now (tallyOf apiKey l ∅).
Proof.
  rewrite api_buildReport_hits. split.
  - intros H. destruct (apiHits l) as [hs|] eqn:Hhs; [| discriminate].
    apply apiHits_map in Hhs as [Hl ->]. injection H as <-.
    by rewrite tallyOf_map.
  - intros [Hl ->].
    assert (Hhs : apiHits l = OK (map apiKey l)) by by apply apiHits_map.
    rewrite Hhs. simpl. by rewrite tallyOf_map.
Qed.

Lemma api_flight_count d ft fd totalFlights l now m :
  Api.flight_count (Api.assembleReport d ft fd totalFlights l now m)
  = map (emitted m) (seq 0 24).
Proof. simpl. apply scanHours_flight_count. Qed.

Lemma emitted_lookup m h :
  h < 24 → map (emitted m) (seq 0 24) !! h = Some (emitted m h).
Proof.
  intros Hh. rewrite list_lookup_fmap, lookup_seq_lt by done. done.
Qed.

Lemma hourKeys_NoDup m : NoDup (map fst (map (emitted m) (seq 0 24))).
Proof.
  rewrite map_map. simpl.
  apply (bool_decide_unpack (NoDup (map hourKey (seq 0 24)))). by vm_compute.
Qed.

(** X1: every report lists the 24 hours under pairwise different keys,
    and the entry of hour [h] holds the number of flights whose scheduled
    time parses to [h]: those that fail the T3 test under T2, those that
    pass it under T3, and all of them under total = T2 + T3. *)
Theorem hour_bucket_contents :
  (∀ d ft l now h, h < 24 →
     Dom.flight_count (Dom.buildReport d ft l now) !! h
     = Some (hourKey h, bucketAt domKey l (Z.of_nat h))
     ∧ T2 (bucketAt domKey l (Z.of_nat h)) + T3 (bucketAt domKey l (Z.of_nat h))
       = total (bucketAt domKey l (Z.of_nat h))
     ∧ length (Dom.flight_count (Dom.buildReport d ft l now)) = 24
     ∧ NoDup (map fst (Dom.flight_count (Dom.buildReport d ft l now))))
  ∧ (∀ d ft fd totalFlights l now r h,
       Api.buildReport d ft fd totalFlights l now = OK r → h < 24 →
       Api.flight_count r !! h = Some (hourKey h, bucketAt apiKey l (Z.of_nat h))
       ∧ T2 (bucketAt apiKey l (Z.of_nat h)) + T3 (bucketAt apiKey l (Z.of_nat h))
         = total (bucketAt apiKey l (Z.of_nat h))
       ∧ length (Api.flight_count r) = 24
       ∧ NoDup (map fst (Api.flight_count r))).
Proof.
  split.
  - intros d ft l now h Hh. rewrite dom_flight_count, dom_countByHour.
    rewrite (emitted_lookup _ _ Hh), emitted_tallyOf.
    split; [done |]. split; [apply bucketAt_split |].
    split; [by rewrite length_map, length_seq | apply hourKeys_NoDup].
  - intros d ft fd totalFlights l now r h Hr Hh. apply api_report in Hr as [_ ->].
    rewrite api_flight_count, (emitted_lookup _ _ Hh), emitted_tallyOf.
    split; [done |]. split; [apply bucketAt_split |].
    split; [by rewrite length_map, length_seq | apply hourKeys_NoDup].
Qed.

Lemma hour_bucket_contents_witness :
  Dom.flight_count (Dom.buildReport aDate (QStr "domestic") scenarioPage "") !! 9
  = Some (hourKey 9, bucketAt domKey scenarioPage 9%Z)
  ∧ Api.flight_count
      (Api.assembleReport aDate (QStr "domestic") (QStr "departure") (VNum 3)
         scenarioApi "" (tallyOf apiKey scenarioApi ∅)) !! 14
    = Some (hourKey 14, bucketAt apiKey scenarioApi 14%Z).
Proof.
  split.
  - apply (proj1 hour_bucket_contents aDate (QStr "domestic") scenarioPage "" 9). lia.
  - apply (proj2 hour_bucket_contents aDate (QStr "domestic") (QStr "departure") (VNum 3)
             scenarioApi "" _ 14 eq_refl). lia.
Defined.

Section Peaks.

Context {F : Type} (key : F → option Z * bool).

Lemma scan_peak l :
  maxHour (scanHours (tallyOf key l ∅)) < 24
  ∧ maxFlights (scanHours (tallyOf key l ∅))
    = flightsAt key l (maxHour (scanHours (tallyOf key l ∅)))
  ∧ (∀ h, h < 24 →
       flightsAt key l h ≤ flightsAt key l (maxHour (scanHours (tallyOf key l ∅))))
  ∧ (∀ h, h < maxHour (scanHours (tallyOf key l ∅)) →
       flightsAt key l h < flightsAt key l (maxHour (scanHours (tallyOf key l ∅)))).
Proof.
  rewrite scanHours_upTo.
  destruct (scanUpTo_max (tallyOf key l ∅) 24) as (Hle & Hat & Hfirst).
  assert (Heq : maxFlights (scanUpTo (tallyOf key l ∅) 24)
                = hourTotal (tallyOf key l ∅) (maxHour (scanUpTo (tallyOf key l ∅) 24))).
  { destruct Hat as [[H0 Hh] | (_ & H & _)]; [| done].
    rewrite Hh. specialize (Hle 0). lia. }
  rewrite <- !hourTotal_tallyOf, <- Heq.
  split; [destruct Hat as [[_ ->] | [? _]]; lia |]. split; [done |].
  split; intros h Hh; rewrite <- hourTotal_tallyOf; auto.
Qed.

Lemma scan_trough l :
  match minFlights (scanHours (tallyOf key l ∅)) with
  | Infinity =>
      minHour (scanHours (tallyOf key l ∅)) = 0 ∧ ∀ h, h < 24 → flightsAt key l h = 0
  | Fin c =>
      0 < c ∧ minHour (scanHours (tallyOf key l ∅)) < 24
      ∧ c = flightsAt key l (minHour (scanHours (tallyOf key l ∅)))
      ∧ (∀ h, h < 24 → 0 < flightsAt key l h → c ≤ flightsAt key l h)
      ∧ (∀ h, h < minHour (scanHours (tallyOf key l ∅)) →
           0 < flightsAt key l h → c < flightsAt key l h)
  end.
Proof.
  rewrite scanHours_upTo.
  pose proof (scanUpTo_min (tallyOf key l ∅) 24) as H.
  destruct (minFlights (scanUpTo (tallyOf key l ∅) 24)) as [c|].
  - destruct H as (Hc & Hh & Hat & Hle & Hfirst).
    repeat split; try done.
    + by rewrite <- hourTotal_tallyOf.
    + intros h Hh'. rewrite <- hourTotal_tallyOf. by apply Hle.
    + intros h Hh'. rewrite <- hourTotal_tallyOf. by apply Hfirst.
  - destruct H as [Hh Hz]. split; [done |].
    intros h Hh'. rewrite <- hourTotal_tallyOf. by apply Hz.
Qed.

End Peaks.

Lemma api_max_count n : (if n =? 0 then 0 else n) = n.
Proof. by destruct n. Qed.

(** X2: the peak of a report is the first of the hours 0..23 with the
    most flights: its count is the number of flights of that hour, no
    hour has more, and every earlier hour has fewer.  With no flight in
    0..23 it is hour 0 with the count 0. *)
Theorem peak_is_first_maximum :
  (∀ d ft l now,
     ∃ hmax, hmax < 24
       ∧ max_flights (Dom.peak_hours (Dom.buildReport d ft l now))
         = {| hour := hourKey hmax; count := Fin (flightsAt domKey l hmax) |}
       ∧ (∀ h, h < 24 → flightsAt domKey l h ≤ flightsAt domKey l hmax)
       ∧ (∀ h, h < hmax → flightsAt domKey l h < flightsAt domKey l hmax))
  ∧ (∀ d ft fd totalFlights l now r,
       Api.buildReport d ft fd totalFlights l now = OK r →
       ∃ hmax, hmax < 24
         ∧ max_flights (Api.peak_hours r)
           = {| hour := hourKey hmax; count := Fin (flightsAt apiKey l hmax) |}
         ∧ (∀ h, h < 24 → flightsAt apiKey l h ≤ flightsAt apiKey l hmax)
         ∧ (∀ h, h < hmax → flightsAt apiKey l h < flightsAt apiKey l hmax)).
Proof.
  split.
  - intros d ft l now. destruct (scan_peak domKey l) as (Hh & Hc & Hle & Hfirst).
    exists (maxHour (scanHours (tallyOf domKey l ∅))).
    split; [done |]. split; [| by split].
    simpl. rewrite dom_countByHour. by rewrite Hc.
  - intros d ft fd totalFlights l now r Hr. apply api_report in Hr as [_ ->].
    destruct (scan_peak apiKey l) as (Hh & Hc & Hle & Hfirst).
    exists (maxHour (scanHours (tallyOf apiKey l ∅))).
    split; [done |]. split; [| by split].
    simpl. by rewrite api_max_count, Hc.
Qed.

Lemma peak_is_first_maximum_witness :
  ∃ hmax, hmax < 24
    ∧ max_flights
        (Api.peak_hours
           (Api.assembleReport aDate (QStr "domestic") (QStr "departure") (VNum 3)
              scenarioApi "" (tallyOf apiKey scenarioApi ∅)))
      = {| hour := hourKey hmax; count := Fin (flightsAt apiKey scenarioApi hmax) |}
    ∧ (∀ h, h < 24 → flightsAt apiKey scenarioApi h ≤ flightsAt apiKey scenarioApi hmax)
    ∧ (∀ h, h < hmax → flightsAt apiKey scenarioApi h < flightsAt apiKey scenarioApi hmax).
Proof.
  exact (proj2 peak_is_first_maximum aDate (QStr "domestic") (QStr "departure") (VNum 3)
           scenarioApi "" _ eq_refl).
Defined.

(** X3: the trough of a report is the first of the hours 0..23 with the
    fewest flights among the hours that have any: its count is positive,
    no hour with flights has fewer, and every earlier hour with flights
    has more.  With no flight in 0..23 it is hour 0, with the count
    [Infinity] in the page version and 0 in the API version. *)
Theorem trough_is_first_least_positive :
  (∀ d ft l now,
     ((∀ h, h < 24 → flightsAt domKey l h = 0) →
      lowest_flights (Dom.peak_hours (Dom.buildReport d ft l now))
      = {| hour := hourKey 0; count := Infinity |})
     ∧ (∀ h0, h0 < 24 → 0 < flightsAt domKey l h0 →
        ∃ hmin, hmin < 24
          ∧ lowest_flights (Dom.peak_hours (Dom.buildReport d ft l now))
            = {| hour := hourKey hmin; count := Fin (flightsAt domKey l hmin) |}
          ∧ 0 < flightsAt domKey l hmin
          ∧ (∀ h, h < 24 → 0 < flightsAt domKey l h →
               flightsAt domKey l hmin ≤ flightsAt domKey l h)
          ∧ (∀ h, h < hmin → 0 < flightsAt domKey l h →
               flightsAt domKey l hmin < flightsAt domKey l h)))
  ∧ (∀ d ft fd totalFlights l now r,
       Api.buildReport d ft fd totalFlights l now = OK r →
       ((∀ h, h < 24 → flightsAt apiKey l h = 0) →
        lowest_flights (Api.peak_hours r) = {| hour := hourKey 0; count := Fin 0 |})
       ∧ (∀ h0, h0 < 24 → 0 < flightsAt apiKey l h0 →
          ∃ hmin, hmin < 24
            ∧ lowest_flights (Api.peak_hours r)
              = {| hour := hourKey hmin; count := Fin (flightsAt apiKey l hmin) |}
            ∧ 0 < flightsAt apiKey l hmin
            ∧ (∀ h, h < 24 → 0 < flightsAt apiKey l h →
                 flightsAt apiKey l hmin ≤ flightsAt apiKey l h)
            ∧ (∀ h, h < hmin → 0 < flightsAt apiKey l h →
                 flightsAt apiKey l hmin < flightsAt apiKey l h))).
Proof.
  split.
  - intros d ft l now. pose proof (scan_trough domKey l) as H.
    simpl. rewrite dom_countByHour.
    destruct (minFlights (scanHours (tallyOf domKey l ∅))) as [c|].
    + destruct H as (Hc & Hh & -> & Hle & Hfirst). split.
      * intros Hz. specialize (Hz _ Hh). lia.
      * intros h0 _ _. exists (minHour (scanHours (tallyOf domKey l ∅))). by repeat split.
    + destruct H as [-> Hz]. split; [done |].
      intros h0 Hh0 Hpos. specialize (Hz _ Hh0). lia.
  - intros d ft fd totalFlights l now r Hr. apply api_report in Hr as [_ ->].
    pose proof (scan_trough apiKey l) as H. simpl.
    destruct (minFlights (scanHours (tallyOf apiKey l ∅))) as [c|].
    + destruct H as (Hc & Hh & -> & Hle & Hfirst). split.
      * intros Hz. specialize (Hz _ Hh). lia.
      * intros h0 _ _. exists (minHour (scanHours (tallyOf apiKey l ∅))). by repeat split.
    + destruct H as [-> Hz]. split; [done |].
      intros h0 Hh0 Hpos. specialize (Hz _ Hh0). lia.
Qed.

Lemma trough_is_first_least_positive_witness :
  (∃ hmin, hmin < 24
     ∧ lowest_flights (Dom.peak_hours (Dom.buildReport aDate (QStr "domestic") scenarioPage ""))
       = {| hour := hourKey hmin; count := Fin (flightsAt domKey scenarioPage hmin) |}
     ∧ 0 < flightsAt domKey scenarioPage hmin
     ∧ (∀ h, h < 24 → 0 < flightsAt domKey scenarioPage h →
          flightsAt domKey scenarioPage hmin ≤ flightsAt domKey scenarioPage h)
     ∧ (∀ h, h < hmin → 0 < flightsAt domKey scenarioPage h →
          flightsAt domKey scenarioPage hmin < flightsAt domKey scenarioPage h))
  ∧ lowest_flights
      (Dom.peak_hours
         (Dom.buildReport aDate (QStr "domestic") [domFlight "" "jetstar" on_time] ""))
    = {| hour := hourKey 0; count := Infinity |}.
Proof.
  split.
  - apply (proj2 (proj1 trough_is_first_least_positive aDate (QStr "domestic")
                    scenarioPage "") 9); [lia |].
    unfold flightsAt. vm_compute. lia.
  - apply (proj1 (proj1 trough_is_first_least_positive aDate (QStr "domestic")
                    [domFlight "" "jetstar" on_time] "")).
    intros h Hh. reflexivity.
Defined.

(** ** Counts *)

Lemma countStatuses_sum {F} (status : F → Status) l :
  n_on_time (countStatuses status l) + n_cancelled (countStatuses status l)
  + n_delayed (countStatuses status l) = length l.
Proof.
  unfold countStatuses. simpl. induction l as [| f l IH]; [done |].
  rewrite !filter_cons. destruct (status f); simpl; lia.
Qed.

(** X4: every flight is counted under exactly one status: the three
    status counts of a report add up to the number of flights, which is
    [total_flights] in the page version. *)
Theorem status_counts_add_up :
  (∀ d ft l now,
     n_on_time (Dom.flight_statuses (Dom.buildReport d ft l now))
     + n_cancelled (Dom.flight_statuses (Dom.buildReport d ft l now))
     + n_delayed (Dom.flight_statuses (Dom.buildReport d ft l now))
     = Dom.total_flights (Dom.buildReport d ft l now))
  ∧ (∀ d ft fd totalFlights l now r,
       Api.buildReport d ft fd totalFlights l now = OK r →
       n_on_time (Api.flight_statuses r) + n_cancelled (Api.flight_statuses r)
       + n_delayed (Api.flight_statuses r) = length l).
Proof.
  split.
  - intros. apply countStatuses_sum.
  - intros d ft fd totalFlights l now r Hr. apply api_report in Hr as [_ ->].
    apply countStatuses_sum.
Qed.

Lemma status_counts_add_up_witness :
  n_on_time
    (Api.flight_statuses
       (Api.assembleReport aDate (QStr "domestic") (QStr "departure") (VNum 3)
          scenarioApi "" (tallyOf apiKey scenarioApi ∅)))
  + n_cancelled
      (Api.flight_statuses
         (Api.assembleReport aDate (QStr "domestic") (QStr "departure") (VNum 3)
            scenarioApi "" (tallyOf apiKey scenarioApi ∅)))
  + n_delayed
      (Api.flight_statuses
         (Api.assembleReport aDate (QStr "domestic") (QStr "departure") (VNum 3)
            scenarioApi "" (tallyOf apiKey scenarioApi ∅)))
  = length scenarioApi.
Proof.
  exact (proj2 status_counts_add_up aDate (QStr "domestic") (QStr "departure") (VNum 3)
           scenarioApi "" _ eq_refl).
Defined.

Lemma api_countByHour_key l m :
  Api.countByHour l = OK m → m = tallyOf apiKey l ∅.
Proof.
  rewrite api_countByHour. intros H.
  destruct (apiHits l) as [hs|] eqn:Hhs; [| discriminate].
  apply apiHits_map in Hhs as [_ ->]. injection H as <-. apply tallyOf_map.
Qed.

(** X5: the map that the [forEach] fills has a bucket for an hour,
    inside 0..23 or not, exactly when a flight parses to that hour; the
    bucket then holds the counts of those flights, its total is at least
    1 and equals T2 + T3. *)
Theorem bucket_exists_iff_flight :
  (∀ l k,
     (Dom.countByHour l !! k = None ↔ total (bucketAt domKey l k) = 0)
     ∧ ∀ b, Dom.countByHour l !! k = Some b →
            b = bucketAt domKey l k ∧ 1 ≤ total b ∧ T2 b + T3 b = total b)
  ∧ (∀ l m k,
       Api.countByHour l = OK m →
       (m !! k = None ↔ total (bucketAt apiKey l k) = 0)
       ∧ ∀ b, m !! k = Some b →
              b = bucketAt apiKey l k ∧ 1 ≤ total b ∧ T2 b + T3 b = total b).
Proof.
  split.
  - intros l k. rewrite dom_countByHour. split; [apply tallyOf_lookup_None |].
    intros b Hb. apply tallyOf_lookup in Hb as [-> Hpos].
    split; [done |]. split; [done | apply bucketAt_split].
  - intros l m k Hm. apply api_countByHour_key in Hm as ->.
    split; [apply tallyOf_lookup_None |].
    intros b Hb. apply tallyOf_lookup in Hb as [-> Hpos].
    split; [done |]. split; [done | apply bucketAt_split].
Qed.

Lemma bucket_exists_iff_flight_witness :
  tallyOf apiKey scenarioApi ∅ !! 25%Z = None ↔ total (bucketAt apiKey scenarioApi 25%Z) = 0.
Proof.
  exact (proj1 (proj2 bucket_exists_iff_flight scenarioApi _ 25%Z eq_refl)).
Defined.

(** X6: a flight whose scheduled time does not parse to an hour (an
    empty time, a text with no leading digit) fills no bucket: the map of
    the buckets, [flight_count] and [peak_hours] are those of the list
    without the flight, while the count of its status, and
    [total_flights] in the page version, is one more. *)
Theorem unparsable_time_only_counted :
  (∀ d ft now l1 f l2,
     parseHour (Dom.scheduledTime f) = None →
     Dom.countByHour (l1 ++ f :: l2) = Dom.countByHour (l1 ++ l2)
     ∧ Dom.flight_count (Dom.buildReport d ft (l1 ++ f :: l2) now)
       = Dom.flight_count (Dom.buildReport d ft (l1 ++ l2) now)
     ∧ Dom.peak_hours (Dom.buildReport d ft (l1 ++ f :: l2) now)
       = Dom.peak_hours (Dom.buildReport d ft (l1 ++ l2) now)
     ∧ Dom.total_flights (Dom.buildReport d ft (l1 ++ f :: l2) now)
       = S (Dom.total_flights (Dom.buildReport d ft (l1 ++ l2) now))
     ∧ ∀ s, countOf (Dom.flight_statuses (Dom.buildReport d ft (l1 ++ f :: l2) now)) s
            = (if Status_eqb (Dom.status f) s then 1 else 0)
              + countOf (Dom.flight_statuses (Dom.buildReport d ft (l1 ++ l2) now)) s)
  ∧ (∀ d ft fd totalFlights now l1 f l2 r,
       Api.flightHour f = OK None →
       Api.buildReport d ft fd totalFlights (l1 ++ f :: l2) now = OK r →
       ∃ r', Api.buildReport d ft fd totalFlights (l1 ++ l2) now = OK r'
             ∧ Api.flight_count r = Api.flight_count r'
             ∧ Api.peak_hours r = Api.peak_hours r'
             ∧ ∀ s, countOf (Api.flight_statuses r) s
                    = (if Status_eqb (Api.status f) s then 1 else 0)
                      + countOf (Api.flight_statuses r') s).
Proof.
  split.
  - intros d ft now l1 f l2 Hf.
    assert (Hm : Dom.countByHour (l1 ++ f :: l2) = Dom.countByHour (l1 ++ l2)).
    { rewrite !dom_countByHour, tallyOf_insert. unfold domKey. simpl. by rewrite Hf. }
    split; [done |]. simpl. rewrite Hm. split; [done |]. split; [done |].
    split; [rewrite !length_app; simpl; lia |].
    intros s. apply countStatuses_insert.
  - intros d ft fd totalFlights now l1 f l2 r Hf Hr.
    apply api_report in Hr as [Hl ->].
    assert (Hl' : Forall (fun f => ∃ s, Api.scheduledTime f = VStr s) (l1 ++ l2)).
    { apply Forall_app in Hl as [H1 H2]. apply Forall_cons in H2 as [_ H2].
      by apply Forall_app. }
    eexists. split; [apply api_report; by split |].
    assert (Hm : tallyOf apiKey (l1 ++ f :: l2) ∅ = tallyOf apiKey (l1 ++ l2) ∅).
    { rewrite tallyOf_insert. apply flightHour_ok in Hf as (s & Hs & Hn).
      unfold apiKey at 2 3. rewrite Hs, <- Hn. done. }
    simpl. rewrite Hm. split; [done |]. split; [done |].
    intros s. apply countStatuses_insert.
Qed.

Lemma unparsable_time_only_counted_witness :
  Dom.countByHour ([domFlight "09:15" "qantas" on_time] ++ domFlight "" "jetstar" delayed :: [])
  = Dom.countByHour ([domFlight "09:15" "qantas" on_time] ++ [])
  ∧ Dom.total_flights
      (Dom.buildReport aDate (QStr "domestic")
         ([domFlight "09:15" "qantas" on_time] ++ domFlight "" "jetstar" delayed :: []) "")
    = S (Dom.total_flights
           (Dom.buildReport aDate (QStr "domestic")
              ([domFlight "09:15" "qantas" on_time] ++ []) "")).
Proof.
  destruct (proj1 unparsable_time_only_counted aDate (QStr "domestic") ""
              [domFlight "09:15" "qantas" on_time] (domFlight "" "jetstar" delayed) []
              eq_refl) as (H1 & _ & _ & H2 & _).
  exact (conj H1 H2).
Defined.

(** ** The lists of airlines, origins and locations *)

Lemma existsb_eqb_elem (x : string) seen :
  existsb (String.eqb x) seen = true ↔ x ∈ seen.
Proof.
  induction seen as [| y seen IH]; simpl.
  - split; [done | by intros ?%elem_of_nil].
  - rewrite orb_true_iff, String.eqb_eq, IH, elem_of_cons. done.
Qed.

Lemma unique_elem l seen (x : string) :
  x ∈ Val.unique String.eqb l seen ↔ x ∈ l ∧ x ∉ seen.
Proof.
  revert seen. induction l as [| y l IH]; intros seen; simpl.
  - split; [by intros ?%elem_of_nil | by intros [?%elem_of_nil _]].
  - destruct (existsb (String.eqb y) seen) eqn:E.
    + apply existsb_eqb_elem in E. rewrite IH, elem_of_cons.
      split; [intros [? ?]; auto | intros [[-> | ?] ?]; [done | auto]].
    + assert (y ∉ seen) by (intros ?%existsb_eqb_elem; congruence).
      rewrite !elem_of_cons, IH, elem_of_cons.
      destruct (decide (x = y)) as [-> |]; intuition congruence.
Qed.

Lemma unique_NoDup l seen : NoDup (Val.unique String.eqb l seen).
Proof.
  revert seen. induction l as [| y l IH]; intros seen; simpl; [constructor |].
  destruct (existsb (String.eqb y) seen); [apply IH |].
  constructor; [| apply IH]. rewrite unique_elem, elem_of_cons. intros [_ H]. auto.
Qed.

Lemma unique_sublist l seen : Val.unique String.eqb l seen `sublist_of` l.
Proof.
  revert seen. induction l as [| y l IH]; intros seen; simpl; [constructor |].
  destruct (existsb (String.eqb y) seen).
  - apply sublist_cons, IH.
  - apply sublist_skip, IH.
Qed.

Lemma before_sublist {A} (x y : A) l : before x y l ↔ [x; y] `sublist_of` l.
Proof.
  unfold before. rewrite sublist_cons_l. split.
  - intros (l1 & l2 & l3 & ->). exists l1, (l2 ++ y :: l3). split; [done |].
    apply singleton_sublist_l. rewrite elem_of_app, elem_of_cons. auto.
  - intros (k1 & k2 & -> & H%singleton_sublist_l).
    apply list_elem_of_split in H as (l2 & l3 & ->). eauto.
Qed.

Lemma before_elem {A} (x y : A) l : before x y l → x ∈ l ∧ y ∈ l.
Proof.
  intros (l1 & l2 & l3 & ->). rewrite !elem_of_app, !elem_of_cons, !elem_of_app,
    !elem_of_cons. auto 10.
Qed.

Lemma firstBefore_cons {A} (a x y : A) l :
  y ≠ a → firstBefore x y l → firstBefore x y (a :: l).
Proof.
  intros Hy (l1 & l2 & -> & Hn). exists (a :: l1), l2. split; [done |].
  rewrite not_elem_of_cons. done.
Qed.

Lemma unique_before l seen (x y : string) :
  before x y (Val.unique String.eqb l seen) → firstBefore x y l.
Proof.
  revert seen. induction l as [| a l IH]; intros seen; simpl.
  - intros [_ H%elem_of_nil]%before_elem. done.
  - destruct (existsb (String.eqb a) seen) eqn:E.
    + intros H. apply existsb_eqb_elem in E.
      destruct (before_elem _ _ _ H) as [_ [_ Hy]%unique_elem].
      apply firstBefore_cons; [congruence | by eapply IH].
    + intros H. pose proof H as Hb.
      apply before_sublist, sublist_cons_r in H as [H | (l' & [= <- <-] & H)].
      * apply before_sublist in H.
        destruct (before_elem _ _ _ H) as [_ [_ Hy]%unique_elem].
        apply firstBefore_cons; [| by eapply IH].
        intros ->. apply Hy. by left.
      * exists [], l. split; [done | apply not_elem_of_nil].
Qed.

Lemma firstBefore_antisym {A} (x y : A) l :
  firstBefore x y l → firstBefore y x l → x = y.
Proof.
  intros (l1 & l2 & -> & Hy) (k1 & k2 & Hk & Hx).
  revert k1 Hk Hx. induction l1 as [| c l1 IH]; intros k1 Hk Hx.
  - destruct k1 as [| c k1]; simpl in Hk; [congruence |].
    injection Hk as <- _. destruct Hx. by left.
  - destruct k1 as [| c' k1]; simpl in Hk.
    + injection Hk as -> _. destruct Hy. by left.
    + injection Hk as <- Hk. apply (IH ltac:(by intros ?; apply Hy; right) k1 Hk).
      intros ?. apply Hx. by right.
Qed.

(** Two lists without duplicates that hold the same elements, both in
    the order of first occurrence in [texts], are equal. *)
Lemma first_occurrence_order_unique {A} `{!EqDecision A} (texts u v : list A) :
  NoDup u → NoDup v → (∀ x, x ∈ u ↔ x ∈ v) →
  (∀ x y, before x y u → firstBefore x y texts) →
  (∀ x y, before x y v → firstBefore x y texts) →
  u = v.
Proof.
  revert v. induction u as [| a u IH]; intros v Hu Hv Hm Hbu Hbv.
  - destruct v as [| b v]; [done |]. exfalso.
    eapply elem_of_nil, Hm. by left.
  - destruct v as [| b v].
    { exfalso. eapply elem_of_nil, Hm. by left. }
    apply NoDup_cons in Hu as [Hau Hu]. apply NoDup_cons in Hv as [Hbv' Hv].
    assert (a = b) as <-.
    { destruct (decide (a = b)) as [| Hne]; [done |].
      assert (a ∈ v) as Hav.
      { assert (a ∈ b :: v) as [? | ?]%elem_of_cons by (apply Hm; by left); done. }
      assert (b ∈ u) as Hbu'.
      { assert (b ∈ a :: u) as [? | ?]%elem_of_cons by (apply Hm; by left);
          [congruence | done]. }
      apply (firstBefore_antisym a b texts).
      - apply Hbu, before_sublist, sublist_skip. by apply singleton_sublist_l.
      - apply Hbv, before_sublist, sublist_skip. by apply singleton_sublist_l. }
    f_equal. apply IH; try done.
    + intros x. split; intros Hx.
      * assert (x ∈ a :: v) as [-> | ?]%elem_of_cons by (apply Hm; by right); done.
      * assert (x ∈ a :: u) as [-> | ?]%elem_of_cons by (apply Hm; by right); done.
    + intros x y H. apply Hbu, before_sublist, sublist_cons. by apply before_sublist.
    + intros x y H. apply Hbv, before_sublist, sublist_cons. by apply before_sublist.
Qed.

(** The list that [[...new Set(texts)].filter(Boolean)] builds. *)
Lemma distinct_texts texts :
  let out := filter (fun s => negb (String.eqb s "")) (Val.unique String.eqb texts []) in
  out `sublist_of` texts
  ∧ firstOccurrences texts out
  ∧ (∀ u, firstOccurrences texts u → u = out).
Proof.
  simpl.
  set (out := filter (fun s => negb (String.eqb s "")) (Val.unique String.eqb texts [])).
  assert (Hocc : firstOccurrences texts out).
  { split; [apply NoDup_filter, unique_NoDup |]. split.
    - intros x. unfold out. rewrite list_elem_of_filter, unique_elem.
      destruct (String.eqb_spec x ""); simpl; split.
      + by intros [[] _].
      + by intros [? _].
      + intros [_ [? _]]. done.
      + intros [_ ?]. split; [done |]. split; [done | by intros ?%elem_of_nil].
    - intros x y H. apply (unique_before texts []).
      apply before_sublist. etrans; [by apply before_sublist | apply sublist_filter]. }
  split; [etrans; [apply sublist_filter | apply unique_sublist] |].
  split; [done |].
  intros u (Hu & Hm & Hb). destruct Hocc as (Ho & Hmo & Hbo).
  apply (first_occurrence_order_unique texts); try done.
  intros x. by rewrite Hm, Hmo.
Qed.

(** X7: the airlines and origins of a page report, and the locations of
    an API report, list the non-empty texts of the flights, each once,
    in the order in which they first occur among the flights: the list
    has no duplicate, holds exactly the non-empty texts of the flights,
    and when a text comes before another in it, it occurs among the
    flights before any occurrence of the other.  It is the only list of
    which this holds, and a sublist of the flights' texts. *)
Theorem distinct_lists_of_report :
  (∀ d ft l now,
     (Dom.airlines (Dom.buildReport d ft l now) `sublist_of` map Dom.airline l
      ∧ firstOccurrences (map Dom.airline l) (Dom.airlines (Dom.buildReport d ft l now))
      ∧ ∀ u, firstOccurrences (map Dom.airline l) u
             → u = Dom.airlines (Dom.buildReport d ft l now))
     ∧ (Dom.origins (Dom.buildReport d ft l now) `sublist_of` map Dom.origin l
        ∧ firstOccurrences (map Dom.origin l) (Dom.origins (Dom.buildReport d ft l now))
        ∧ ∀ u, firstOccurrences (map Dom.origin l) u
               → u = Dom.origins (Dom.buildReport d ft l now)))
  ∧ (∀ d ft fd totalFlights l now m,
       Api.locations (Api.assembleReport d ft fd totalFlights l now m)
       `sublist_of` map Api.location l
       ∧ firstOccurrences (map Api.location l)
           (Api.locations (Api.assembleReport d ft fd totalFlights l now m))
       ∧ ∀ u, firstOccurrences (map Api.location l) u
              → u = Api.locations (Api.assembleReport d ft fd totalFlights l now m)).
Proof.
  split; [intros d ft l now; split | intros d ft fd totalFlights l now m].
  - apply (distinct_texts (map Dom.airline l)).
  - apply (distinct_texts (map Dom.origin l)).
  - apply (distinct_texts (map Api.location l)).
Qed.

Lemma distinct_lists_of_report_witness :
  ["qantas"; "jetstar"]
  = Dom.airlines (Dom.buildReport aDate (QStr "domestic") scenarioPage "").
Proof.
  apply (proj1 distinct_lists_of_report aDate (QStr "domestic") scenarioPage "").
  split.
  { apply NoDup_cons. split; [| apply NoDup_singleton].
    rewrite elem_of_cons, elem_of_nil. by intros [? | []]. }
  split.
  - intros x. simpl. rewrite !elem_of_cons, !elem_of_nil.
    split.
    + intros [-> | [-> | []]]; (split; [done | auto]).
    + intros [_ [-> | [-> | [-> | []]]]]; auto.
  - intros x y (l1 & l2 & l3 & H).
    destruct l1 as [| a [| b [| c l1]]]; simpl in H.
    + injection H as <- H. destruct l2 as [| b [| c l2]]; simpl in H.
      * injection H as <- _. exists [], ["jetstar"; "qantas"].
        split; [done | apply not_elem_of_nil].
      * by destruct l3.
      * by destruct l2.
    + injection H as _ H. by destruct l2.
    + by destruct l2.
    + by destruct l1.
Defined.

(** ** The transformation of a raw record *)

Lemma getProp_propOf flight k :
  nullish flight = false → Val.getProp flight k = OK (propOf flight k).
Proof. by destruct flight. Qed.

Lemma getProp_nullish flight k v :
  Val.getProp flight k = OK v → nullish flight = false ∧ v = propOf flight k.
Proof. destruct flight; simpl; intros [= <-] || intros [=]; done. Qed.

Lemma getProp_throws flight k :
  nullish flight = true → ∃ e, Val.getProp flight k = Throw e.
Proof. destruct flight; simpl; intros [=]; eauto. Qed.

Lemma textOrAbsent_cases v :
  textOrAbsent v ↔ Val.truthy v = false ∨ ∃ s, v = VStr s.
Proof.
  unfold textOrAbsent. split.
  - intros H. destruct (Val.truthy v); [right; auto | by left].
  - intros [H | H] Ht; [congruence | done].
Qed.

Lemma stringMethod_text {A} e m (f : string → A) v :
  Val.truthy v = true →
  (∃ y, Val.stringMethod e m f v = OK y) ↔ ∃ s, v = VStr s.
Proof.
  intros Ht. split.
  - intros [y (s & -> & _)%stringMethod_ok]. eauto.
  - intros [s ->]. simpl. eauto.
Qed.

Lemma api_classify_ok flight :
  nullish flight = false →
  (∃ st, Api.classifyStatus flight = OK st) ↔ textOrAbsent (propOf flight "status").
Proof.
  intros Hn. unfold Api.classifyStatus, Api.delayHint.
  rewrite !getProp_propOf by done. simpl.
  destruct (Val.truthy (propOf flight "status")) eqn:Ht.
  - rewrite textOrAbsent_cases. split.
    + intros [st H]. inv_bind H as low El. apply stringMethod_ok in El as (s & -> & _).
      eauto.
    + intros [? | [s Hs]]; [congruence |]. rewrite Hs. simpl.
      destruct (Str.includes "cancel" _); [eauto |].
      destruct (Str.includes "delay" _); eauto.
  - split; [intros _ ?; congruence | eauto].
Qed.

Lemma api_isT3_ok flight :
  nullish flight = false →
  (∃ t, Api.isT3 flight = OK t) ↔ textOrAbsent (propOf flight "airline").
Proof.
  intros Hn. unfold Api.isT3. rewrite getProp_propOf by done. simpl.
  destruct (Val.truthy (propOf flight "airline")) eqn:Ht.
  - rewrite stringMethod_text by done. unfold textOrAbsent. rewrite Ht. naive_solver.
  - split; [intros _ ?; congruence | eauto].
Qed.

(** *** Conversion to a string *)

Lemma jsval_induction (P : jsval → Prop) :
  P VUndef → P VNull → (∀ b, P (VBool b)) → (∀ n, P (VNum n)) → (∀ s, P (VStr s)) →
  (∀ items, Forall P items → P (VArr items)) → (∀ fields, P (VObj fields)) →
  ∀ v, P v.
Proof.
  intros HU HN HB HZ HS HA HO. fix IH 1.
  intros [| |b|n|s|items|fields];
    [exact HU | exact HN | apply HB | apply HZ | apply HS | | apply HO].
  apply HA. induction items as [| x items IHitems]; constructor; [apply IH | exact IHitems].
Qed.

Lemma hasOwn_elem k fields : Val.hasOwn k fields = bool_decide (k ∈ map fst fields).
Proof.
  unfold Val.hasOwn. induction fields as [| [k' v] fields IH]; simpl; [done |].
  rewrite IH. destruct (String.eqb_spec k k') as [-> | Hk].
  - symmetry. apply bool_decide_eq_true. by left.
  - simpl. apply bool_decide_ext. rewrite elem_of_cons.
    split; [by right | by intros [? | ?]].
Qed.

Lemma toString_VArr items :
  Val.toString (VArr items)
  = let! texts := mapM Val.elementText items in OK (Val.joinStrings "," texts).
Proof. done. Qed.

Lemma elementText_printable x :
  (if printable x then ∃ s, Val.toString x = OK s
   else Val.toString x = Throw (TypeError "Cannot convert object to primitive value")) →
  if printable x then ∃ s, Val.elementText x = OK s
  else Val.elementText x = Throw (TypeError "Cannot convert object to primitive value").
Proof. destruct x; simpl; eauto. Qed.

Lemma mapM_printable items :
  Forall (fun x => if printable x then ∃ s, Val.elementText x = OK s
                   else Val.elementText x
                        = Throw (TypeError "Cannot convert object to primitive value"))
         items →
  if forallb printable items then ∃ texts, mapM Val.elementText items = OK texts
  else mapM Val.elementText items
       = Throw (TypeError "Cannot convert object to primitive value").
Proof.
  induction 1 as [| x items Hx _ IH]; cbn [forallb mapM]; [eauto |].
  destruct (printable x).
  - destruct Hx as [s ->]. cbn [bind andb].
    destruct (forallb printable items).
    + destruct IH as [texts ->]. simpl. eauto.
    + by rewrite IH.
  - by rewrite Hx.
Qed.

Lemma toString_printable v :
  if printable v then ∃ s, Val.toString v = OK s
  else Val.toString v = Throw (TypeError "Cannot convert object to primitive value").
Proof.
  induction v as [| |b|n|s|items IH|fields] using jsval_induction;
    try (simpl; eauto; fail).
  - rewrite toString_VArr. cbn [printable].
    assert (H := mapM_printable items).
    destruct (forallb printable items).
    + destruct H as [texts ->]; [| simpl; eauto].
      eapply Forall_impl; [exact IH |]. apply elementText_printable.
    + rewrite H; [done |].
      eapply Forall_impl; [exact IH |]. apply elementText_printable.
  - cbn [printable Val.toString]. rewrite hasOwn_elem.
    destruct (bool_decide _); simpl; eauto.
Qed.

Lemma join_printable sep items :
  if forallb printable items then ∃ s, Val.join sep items = OK s
  else Val.join sep items = Throw (TypeError "Cannot convert object to primitive value").
Proof.
  unfold Val.join. assert (H := mapM_printable items).
  destruct (forallb printable items).
  - destruct H as [texts ->]; [| simpl; eauto].
    apply Forall_forall. intros x _. apply elementText_printable, toString_printable.
  - rewrite H; [done |].
    apply Forall_forall. intros x _. apply elementText_printable, toString_printable.
Qed.

Lemma join_ok sep items :
  (∃ s, Val.join sep items = OK s) ↔ forallb printable items = true.
Proof.
  assert (H := join_printable sep items). destruct (forallb printable items).
  - done.
  - rewrite H. split; [by intros [? ?] | done].
Qed.

Lemma toString_ok v : (∃ s, Val.toString v = OK s) ↔ printable v = true.
Proof.
  assert (H := toString_printable v). destruct (printable v).
  - done.
  - rewrite H. split; [by intros [? ?] | done].
Qed.

Lemma join_texts sep texts :
  Val.join sep (map VStr texts) = OK (Val.joinStrings sep texts).
Proof.
  unfold Val.join.
  assert (H : mapM Val.elementText (map VStr texts) = OK texts).
  { induction texts as [| t texts IH]; simpl; [done |]. by rewrite IH. }
  by rewrite H.
Qed.

(** *** The callback of the map *)

Lemma processFlight_unfold flight :
  nullish flight = false →
  Api.processFlight flight
  = let! status := Api.classifyStatus flight in
    let! isT3 := Api.isT3 flight in
    let! location :=
      Api.joinedOrEmpty (propOf flight "destinations")
        (Api.joinedOrEmpty (propOf flight "origins") (OK "")) in
    let! flightNumber := Api.joinedOrEmpty (propOf flight "flightNumbers") (OK "") in
    OK {| Api.id := propOf flight "id";
          Api.scheduledTime := Val.orElse (propOf flight "scheduledTime") (VStr "");
          Api.estimatedTime := Val.orElse (propOf flight "estimatedTime") (VStr "");
          Api.status := status;
          Api.statusColor := Val.orElse (propOf flight "statusColor") (VStr "");
          Api.airline := Val.orElse (propOf flight "airline") (VStr "");
          Api.airlineCode := Val.orElse (propOf flight "airlineCode") (VStr "");
          Api.flightNumber := flightNumber;
          Api.location := location;
          Api.terminal := if isT3 then "T3" else "T2";
          Api.rawStatus := Val.orElse (propOf flight "status") (VStr "Unknown") |}.
Proof.
  intros Hn. unfold Api.processFlight. rewrite !getProp_propOf by done.
  destruct (Api.classifyStatus flight); [| done]. simpl.
  destruct (Api.isT3 flight); [| done]. simpl.
  destruct (Api.joinedOrEmpty (propOf flight "destinations") _); [| done]. simpl.
  by destruct (Api.joinedOrEmpty (propOf flight "flightNumbers") _).
Qed.

Lemma processFlight_not_nullish flight f :
  Api.processFlight flight = OK f → nullish flight = false.
Proof.
  destruct (nullish flight) eqn:Hn; [| done]. intros H.
  unfold Api.processFlight, Api.classifyStatus in H.
  destruct (getProp_throws flight "status" Hn) as [e He]. by rewrite He in H.
Qed.

(** The array that [location] joins, if any: the destinations when
    they are an array, and the origins otherwise. *)
Lemma location_ok flight :
  (∃ s, Api.joinedOrEmpty (propOf flight "destinations")
          (Api.joinedOrEmpty (propOf flight "origins") (OK "")) = OK s)
  ↔ (∀ items, propOf flight "destinations" = VArr items → forallb printable items = true)
    ∧ (∀ items, (∀ ds, propOf flight "destinations" ≠ VArr ds) →
         propOf flight "origins" = VArr items → forallb printable items = true).
Proof.
  destruct (propOf flight "destinations") as [| | | | |ds|] eqn:Hd;
    try (destruct (propOf flight "origins") as [| | | | |os|] eqn:Ho; simpl;
         [split; [intros _; split; [done | by intros ? _ ?] | eauto] ..
         | rewrite join_ok; split;
           [intros H; split; [done | by intros items _ [= <-]]
           | intros [_ H]; by apply H]
         | split; [intros _; split; [done | by intros ? _ ?] | eauto]]).
  simpl. rewrite join_ok. split.
  - intros H. split; [by intros items [= <-] |]. intros items Hno. by destruct (Hno ds).
  - intros [H _]. by apply H.
Qed.

Lemma flightNumber_ok flight :
  (∃ s, Api.joinedOrEmpty (propOf flight "flightNumbers") (OK "") = OK s)
  ↔ (∀ items, propOf flight "flightNumbers" = VArr items → forallb printable items = true).
Proof.
  destruct (propOf flight "flightNumbers") as [| | | | |ns|]; simpl;
    try (split; [done | eauto]).
  rewrite join_ok. split; [by intros H items [= <-] | intros H; by apply H].
Qed.

Lemma joinedOrEmpty_cases v (otherwise : result string) :
  (∃ s, otherwise = OK s)
  ∨ otherwise = Throw (TypeError "Cannot convert object to primitive value") →
  (∃ s, Api.joinedOrEmpty v otherwise = OK s)
  ∨ Api.joinedOrEmpty v otherwise
    = Throw (TypeError "Cannot convert object to primitive value").
Proof.
  intros H. destruct v as [| | | | |items|]; try done. simpl.
  assert (Hj := join_printable ", " items).
  destruct (forallb printable items); auto.
Qed.

(** X8: [processFlight] returns a flight exactly for the records that
    are neither [null] nor [undefined], whose status and airline are
    each a text or absent, and whose arrays to join (the destinations,
    or the origins when the destinations are no array, and the flight
    numbers) hold no object with a [toString] property of its own, be it
    an element or an element of a nested array; on every other record it
    throws.  When only an array to join is at fault, the exception is
    the TypeError 'Cannot convert object to primitive value'. *)
Theorem processFlight_succeeds_iff flight :
  ((∃ f, Api.processFlight flight = OK f)
   ↔ nullish flight = false
     ∧ textOrAbsent (propOf flight "status")
     ∧ textOrAbsent (propOf flight "airline")
     ∧ (∀ items, propOf flight "destinations" = VArr items →
          forallb printable items = true)
     ∧ (∀ items, (∀ ds, propOf flight "destinations" ≠ VArr ds) →
          propOf flight "origins" = VArr items → forallb printable items = true)
     ∧ (∀ items, propOf flight "flightNumbers" = VArr items →
          forallb printable items = true))
  ∧ (nullish flight = false →
     textOrAbsent (propOf flight "status") →
     textOrAbsent (propOf flight "airline") →
     ¬ ((∀ items, propOf flight "destinations" = VArr items →
           forallb printable items = true)
        ∧ (∀ items, (∀ ds, propOf flight "destinations" ≠ VArr ds) →
             propOf flight "origins" = VArr items → forallb printable items = true)
        ∧ (∀ items, propOf flight "flightNumbers" = VArr items →
             forallb printable items = true)) →
     Api.processFlight flight
     = Throw (TypeError "Cannot convert object to primitive value")).
Proof.
  split.
  - destruct (nullish flight) eqn:Hn.
    + split; [| by intros [? _]]. intros [f H%processFlight_not_nullish]. congruence.
    + rewrite processFlight_unfold by done.
      rewrite <- api_classify_ok, <- api_isT3_ok by done.
      rewrite <- flightNumber_ok.
      split.
      * intros [f H]. inv_bind H as st Est. inv_bind H as t Et.
        inv_bind H as loc El. inv_bind H as num Enum.
        destruct (proj1 (location_ok flight) (ex_intro _ loc El)) as [H1 H2]. eauto 10.
      * intros (_ & [st ->] & [t ->] & H1 & H2 & [num ->]).
        destruct (proj2 (location_ok flight) (conj H1 H2)) as [loc ->]. simpl. eauto.
  - intros Hn [st Hst]%api_classify_ok [t Ht]%api_isT3_ok Hno; try done.
    rewrite processFlight_unfold, Hst, Ht by done. simpl.
    destruct (joinedOrEmpty_cases (propOf flight "destinations")
                (Api.joinedOrEmpty (propOf flight "origins") (OK "")))
      as [[loc Hloc] | Hloc].
    { apply joinedOrEmpty_cases. eauto. }
    + rewrite Hloc. simpl.
      destruct (joinedOrEmpty_cases (propOf flight "flightNumbers") (OK ""))
        as [[num Hnum] | Hnum]; [eauto | | by rewrite Hnum].
      destruct Hno.
      destruct (proj1 (location_ok flight) (ex_intro _ loc Hloc)) as [H1 H2].
      split; [done |]. split; [done |]. apply flightNumber_ok. eauto.
    + by rewrite Hloc.
Qed.

Lemma processFlight_succeeds_iff_witness :
  Api.processFlight (VObj [("destinations", VArr [VObj [("toString", VNull)]])])
  = Throw (TypeError "Cannot convert object to primitive value").
Proof.
  apply (proj2 (processFlight_succeeds_iff
                  (VObj [("destinations", VArr [VObj [("toString", VNull)]])])));
    [reflexivity | by intros ? | by intros ? |].
  intros [H _]. specialize (H _ eq_refl). discriminate H.
Defined.

Lemma orElse_defaulted v : defaulted (Val.orElse v (VStr "")).
Proof. unfold defaulted, Val.orElse. destruct (Val.truthy v) eqn:E; auto. Qed.

(** X9: a flight that [processFlight] returns has no [null], no
    [undefined] and no other falsy value but the empty string in its
    scheduled time, estimated time, statusColor and airline code; its
    airline is a string, its raw status is truthy ('Unknown' when the
    record has none) and its terminal is 'T2' or 'T3'. *)
Theorem flight_fields_defaulted flight f :
  Api.processFlight flight = OK f →
  defaulted (Api.scheduledTime f) ∧ defaulted (Api.estimatedTime f)
  ∧ defaulted (Api.statusColor f) ∧ defaulted (Api.airlineCode f)
  ∧ (∃ text, Api.airline f = VStr text)
  ∧ Val.truthy (Api.rawStatus f) = true
  ∧ (Val.truthy (propOf flight "status") = false → Api.rawStatus f = VStr "Unknown")
  ∧ (Val.truthy (propOf flight "status") = true → Api.rawStatus f = propOf flight "status")
  ∧ (Api.terminal f = "T2" ∨ Api.terminal f = "T3").
Proof.
  intros H.
  assert (Hn : nullish flight = false) by by eapply processFlight_not_nullish.
  rewrite processFlight_unfold in H by done.
  inv_bind H as st Est. inv_bind H as t Et.
  inv_bind H as loc El. inv_bind H as num Enum. injection H as <-. simpl.
  repeat split; try apply orElse_defaulted.
  - unfold Api.isT3 in Et. rewrite getProp_propOf in Et by done. simpl in Et.
    unfold Val.orElse. destruct (Val.truthy (propOf flight "airline")); [| eauto].
    apply stringMethod_ok in Et as (s & -> & _). eauto.
  - unfold Val.orElse. by destruct (Val.truthy (propOf flight "status")) eqn:E.
  - unfold Val.orElse. by intros ->.
  - unfold Val.orElse. by intros ->.
  - destruct t; auto.
Qed.

Lemma flight_fields_defaulted_witness :
  defaulted (VStr "09:40") ∧ defaulted (VStr "")
  ∧ defaulted (VStr "") ∧ defaulted (VStr "")
  ∧ (∃ text, VStr "Jetstar" = VStr text)
  ∧ Val.truthy (VStr "Delayed") = true
  ∧ (Val.truthy (propOf goodRecord "status") = false → VStr "Delayed" = VStr "Unknown")
  ∧ (Val.truthy (propOf goodRecord "status") = true
     → VStr "Delayed" = propOf goodRecord "status")
  ∧ ("T2" = "T2" ∨ "T2" = "T3").
Proof. exact (flight_fields_defaulted goodRecord _ eq_refl). Defined.

(** X10: a record that has none of the properties that [processFlight]
    reads (an empty object, an object with other properties, a number)
    becomes the blank flight: on time, terminal T2, raw status
    'Unknown', and the empty string everywhere else. *)
Theorem processFlight_blank flight :
  nullish flight = false →
  Forall (fun k => propOf flight k = VUndef) readKeys →
  Api.processFlight flight = OK blankFlight.
Proof.
  intros Hn Hk. rewrite processFlight_unfold by done.
  unfold Api.classifyStatus, Api.isT3, readKeys in *.
  rewrite !getProp_propOf by done.
  repeat (apply Forall_cons in Hk as [-> Hk]). done.
Qed.

Lemma processFlight_blank_witness :
  Api.processFlight (VObj [("gate", VStr "12")]) = OK blankFlight.
Proof.
  apply (processFlight_blank (VObj [("gate", VStr "12")])); [reflexivity |].
  repeat constructor.
Defined.

(** X11: the location of a flight is the join of the destinations as
    soon as the record has an array of destinations, an empty one
    included (the origins are then ignored); it is the join of the
    origins only when destinations is no array, and empty when neither is
    an array.  The flight number is the join of flightNumbers or empty.
    An array of texts is joined with ", ". *)
Theorem location_prefers_destinations flight f :
  Api.processFlight flight = OK f →
  (∀ items, propOf flight "destinations" = VArr items →
     Val.join ", " items = OK (Api.location f))
  ∧ (∀ items, (∀ ds, propOf flight "destinations" ≠ VArr ds) →
       propOf flight "origins" = VArr items → Val.join ", " items = OK (Api.location f))
  ∧ ((∀ ds, propOf flight "destinations" ≠ VArr ds) →
     (∀ os, propOf flight "origins" ≠ VArr os) → Api.location f = EmptyString)
  ∧ (∀ items, propOf flight "flightNumbers" = VArr items →
       Val.join ", " items = OK (Api.flightNumber f))
  ∧ ((∀ ns, propOf flight "flightNumbers" ≠ VArr ns) → Api.flightNumber f = EmptyString)
  ∧ (∀ texts, Val.join ", " (map VStr texts) = OK (Val.joinStrings ", " texts))
  ∧ Val.join ", " [] = OK EmptyString.
Proof.
  intros H.
  assert (Hn : nullish flight = false) by by eapply processFlight_not_nullish.
  rewrite processFlight_unfold in H by done.
  inv_bind H as st Est. inv_bind H as t Et.
  inv_bind H as loc El. inv_bind H as num Enum. injection H as <-. simpl.
  split. { intros items Hd. by rewrite Hd in El. }
  split. { intros items Hd Ho. rewrite Ho in El.
           destruct (propOf flight "destinations") as [| | | | |ds|]; try done.
           by destruct (Hd ds). }
  split. { intros Hd Ho. destruct (propOf flight "destinations") as [| | | | |ds|];
             try (destruct (propOf flight "origins") as [| | | | |os|];
                  [simpl in El; congruence .. | by destruct (Ho os) | simpl in El; congruence]).
           by destruct (Hd ds). }
  split. { intros items Hf. by rewrite Hf in Enum. }
  split. { intros Hf. destruct (propOf flight "flightNumbers") as [| | | | |ns|];
             try (simpl in Enum; congruence).
           by destruct (Hf ns). }
  split; [intros; apply join_texts | done].
Qed.

Lemma location_prefers_destinations_witness :
  Val.join ", " []
  = OK (Api.location
          {| Api.id := VNum 7; Api.scheduledTime := VStr ""; Api.estimatedTime := VStr "";
             Api.status := on_time; Api.statusColor := VStr ""; Api.airline := VStr "";
             Api.airlineCode := VStr ""; Api.flightNumber := "";
             Api.location := ""; Api.terminal := "T2"; Api.rawStatus := VStr "Unknown" |}).
Proof.
  exact (proj1 (location_prefers_destinations
                  (VObj [("id", VNum 7); ("destinations", VArr []);
                         ("origins", VArr [VStr "Perth"])]) _ eq_refl) [] eq_refl).
Defined.

(** ** The payload of the API *)

Lemma mapM_Forall2 {A B} (g : A → result B) l ys :
  mapM g l = OK ys ↔ Forall2 (fun x y => g x = OK y) l ys.
Proof.
  revert ys. induction l as [| x l IH]; intros ys; simpl.
  - split; [intros [= <-]; constructor | by intros ->%Forall2_nil_inv_l].
  - split.
    + intros H. inv_bind H as y Ey. inv_bind H as ys' Eys. injection H as <-.
      constructor; [done | by apply IH].
    + intros (y & ys' & Hy & Hys & ->)%Forall2_cons_inv_l.
      rewrite Hy. simpl. apply IH in Hys. by rewrite Hys.
Qed.

Lemma truthy_not_nullish v : Val.truthy v = true → nullish v = false.
Proof. by destruct v. Qed.

Lemma processResponse_accepts data totalFlights flights :
  Api.processResponse data = OK (totalFlights, flights) ↔
  Val.truthy data = true
  ∧ totalFlights = propOf data "totalFlightCount"
  ∧ printable totalFlights = true
  ∧ ∃ items, propOf data "flightData" = VArr items
             ∧ Forall2 (fun raw f => Api.processFlight raw = OK f) items flights.
Proof.
  unfold Api.processResponse. destruct (Val.truthy data) eqn:Ht; simpl.
  - pose proof (truthy_not_nullish _ Ht) as Hn. rewrite !getProp_propOf by done. simpl.
    split.
    + intros H. destruct (propOf data "flightData") as [| | | | |items|]; try discriminate.
      inv_bind H as line Eline. inv_bind H as fs Efs. injection H as <- <-.
      split; [done |]. split; [done |].
      split; [apply toString_ok; eauto |]. exists items. split; [done |].
      by apply mapM_Forall2.
    + intros (_ & -> & [line Hline]%toString_ok & items & -> & Hfs).
      rewrite Hline. simpl. apply mapM_Forall2 in Hfs. by rewrite Hfs.
  - split; [done | by intros [? _]].
Qed.

Lemma processResponse_refused data :
  Val.truthy data = false ∨ (∀ items, propOf data "flightData" ≠ VArr items) →
  Api.processResponse data = Throw (OtherError "Unexpected API response format").
Proof.
  unfold Api.processResponse. destruct (Val.truthy data) eqn:Ht; simpl; [| done].
  rewrite !getProp_propOf by by apply truthy_not_nullish. simpl.
  intros [? | Hno]; [congruence |].
  destruct (propOf data "flightData") as [| | | | |items|]; try done.
  by destruct (Hno items).
Qed.

Lemma processResponse_unprintable data items :
  Val.truthy data = true → propOf data "flightData" = VArr items →
  printable (propOf data "totalFlightCount") = false →
  Api.processResponse data
  = Throw (TypeError "Cannot convert object to primitive value").
Proof.
  intros Ht Hi Hp. unfold Api.processResponse. rewrite Ht. simpl.
  rewrite !getProp_propOf by by apply truthy_not_nullish. simpl. rewrite Hi.
  assert (H := toString_printable (propOf data "totalFlightCount")).
  rewrite Hp in H. by rewrite H.
Qed.

(** X12: [getFlightData] accepts a payload exactly when it is truthy,
    its flightData is an array of which every record is processed, and
    its totalFlightCount can be converted to a string for the line that
    logs it; the flights are then the processed records, one per record
    and in the order of the payload, and totalFlights is the payload's
    totalFlightCount as it is.  A payload that is falsy, or whose
    flightData is no array, is refused with 'Unexpected API response
    format'; a payload with a flightData array whose totalFlightCount
    cannot be converted fails with 'Cannot convert object to primitive
    value', whatever its records are. *)
Theorem processResponse_spec data :
  (∀ totalFlights flights,
     Api.processResponse data = OK (totalFlights, flights) ↔
     Val.truthy data = true
     ∧ totalFlights = propOf data "totalFlightCount"
     ∧ printable totalFlights = true
     ∧ ∃ items, propOf data "flightData" = VArr items
                ∧ Forall2 (fun raw f => Api.processFlight raw = OK f) items flights)
  ∧ (Val.truthy data = false ∨ (∀ items, propOf data "flightData" ≠ VArr items) →
     Api.processResponse data = Throw (OtherError "Unexpected API response format"))
  ∧ (∀ items,
       Val.truthy data = true → propOf data "flightData" = VArr items →
       printable (propOf data "totalFlightCount") = false →
       Api.processResponse data
       = Throw (TypeError "Cannot convert object to primitive value")).
Proof.
  split; [| split].
  - intros totalFlights flights. apply processResponse_accepts.
  - apply processResponse_refused.
  - apply processResponse_unprintable.
Qed.

Lemma processResponse_spec_witness :
  Api.processResponse (VStr "Service unavailable")
  = Throw (OtherError "Unexpected API response format")
  ∧ Api.processResponse
      (VObj [("totalFlightCount", VObj [("toString", VNull)]); ("flightData", VArr [])])
    = Throw (TypeError "Cannot convert object to primitive value").
Proof.
  split.
  - apply (proj1 (proj2 (processResponse_spec (VStr "Service unavailable")))).
    right. intros items. discriminate.
  - apply (proj2 (proj2 (processResponse_spec
             (VObj [("totalFlightCount", VObj [("toString", VNull)]);
                    ("flightData", VArr [])]))) []); reflexivity.
Defined.

(** ** Failures of a request *)

(** X13: when the parameters pass validation and the acquisition fails,
    the answer is a 500 with the error 'Failed to fetch flight data', the
    message of the failure and the time stamp, after exactly one request
    and with no report.  In the API version the message of a rejected
    request is that of the rejection ('Unknown error' when it has none),
    and the message for a payload that is falsy or has no flightData
    array is 'Unexpected API response format'; in the page version it is
    the message of the error of the browser session. *)
Theorem acquisition_failure_is_500 :
  (∀ httpGet today now addDays query e,
     Api.validateParams (dateOf query) (flightTypeOf query) (flightDirectionOf query)
     = Valid →
     httpGet (apiRequest today addDays query) = Throw e →
     Api.handler httpGet today now addDays query
     = (Api.Status500 "Failed to fetch flight data" (messageOr e) now,
        [apiRequest today addDays query]))
  ∧ (∀ httpGet today now addDays query data,
       Api.validateParams (dateOf query) (flightTypeOf query) (flightDirectionOf query)
       = Valid →
       httpGet (apiRequest today addDays query) = OK data →
       Val.truthy data = false ∨ (∀ items, propOf data "flightData" ≠ VArr items) →
       Api.handler httpGet today now addDays query
       = (Api.Status500 "Failed to fetch flight data" "Unexpected API response format" now,
          [apiRequest today addDays query]))
  ∧ (∀ loadCards today now addDays query e,
       Dom.validateParams (dateOf query) (flightTypeOf query) = Valid →
       loadCards (pageRequest today addDays query) = Throw e →
       Dom.handler loadCards today now addDays query
       = (Dom.Status500 "Failed to fetch flight data" (message e) now,
          [pageRequest today addDays query])).
Proof.
  split; [| split].
  - intros httpGet today now addDays query e Hv He. unfold Api.handler.
    fold (dateOf query) (flightTypeOf query) (flightDirectionOf query).
    rewrite Hv. unfold Api.getFlightData. fold (apiRequest today addDays query).
    by rewrite He.
  - intros httpGet today now addDays query data Hv Hd Hbad. unfold Api.handler.
    fold (dateOf query) (flightTypeOf query) (flightDirectionOf query).
    rewrite Hv. unfold Api.getFlightData. fold (apiRequest today addDays query).
    rewrite Hd. simpl. by rewrite (processResponse_refused _ Hbad).
  - intros loadCards today now addDays query e Hv He. unfold Dom.handler.
    fold (dateOf query) (flightTypeOf query).
    rewrite Hv. unfold Dom.getFlightTimes. fold (pageRequest today addDays query).
    by rewrite He.
Qed.

Lemma acquisition_failure_is_500_witness :
  Api.handler (fun _ => Throw (OtherError "timeout of 30000ms exceeded")) aDate "t"
    (fun d _ => d) noQuery
  = (Api.Status500 "Failed to fetch flight data" "timeout of 30000ms exceeded" "t",
     [apiRequest aDate (fun d _ => d) noQuery])
  ∧ Dom.handler (fun _ => Throw (OtherError "Timeout waiting for flight data")) aDate "t"
      (fun d _ => d) noQuery
    = (Dom.Status500 "Failed to fetch flight data" "Timeout waiting for flight data" "t",
       [pageRequest aDate (fun d _ => d) noQuery]).
Proof.
  split.
  - apply (proj1 acquisition_failure_is_500
             (fun _ => Throw (OtherError "timeout of 30000ms exceeded")) aDate "t"
             (fun d _ => d) noQuery (OtherError "timeout of 30000ms exceeded"));
      reflexivity.
  - apply (proj2 (proj2 acquisition_failure_is_500)
             (fun _ => Throw (OtherError "Timeout waiting for flight data")) aDate "t"
             (fun d _ => d) noQuery (OtherError "Timeout waiting for flight data"));
      reflexivity.
Defined.

Lemma classic_textTime f : textTime f ∨ ¬ textTime f.
Proof.
  unfold textTime. destruct (Api.scheduledTime f); try (right; by intros [? ?]).
  left. eauto.
Qed.

Lemma flightHour_not_text f :
  defaulted (Api.scheduledTime f) → ¬ textTime f →
  Api.flightHour f
  = Throw (TypeError
             "flight.scheduledTime.split is not a function or its return value is not iterable").
Proof.
  unfold defaulted, textTime, Api.flightHour. intros [Hd | Hd] Hn.
  - destruct Hn. eauto.
  - destruct (Api.scheduledTime f); try done. destruct Hn. eauto.
Qed.

Lemma api_foldM_not_text l m :
  Forall (fun f => defaulted (Api.scheduledTime f)) l → ¬ Forall textTime l →
  foldM (fun m flight =>
           let! h := Api.flightHour flight in
           OK (tally m h (String.eqb (Api.terminal flight) "T3"))) l m
  = Throw (TypeError
             "flight.scheduledTime.split is not a function or its return value is not iterable").
Proof.
  intros Hd. revert m. induction Hd as [| f l Hf Hd IH]; intros m Hn.
  - destruct Hn. constructor.
  - simpl. destruct (Api.flightHour f) as [h|e] eqn:Eh.
    + simpl. apply IH. intros Hl. apply Hn. constructor; [| done].
      apply flightHour_ok in Eh as (s & Hs & _). by exists s.
    + simpl. destruct (classic_textTime f) as [Ht | Ht].
      * destruct Ht as [s Hs]. unfold Api.flightHour in Eh. by rewrite Hs in Eh.
      * rewrite (flightHour_not_text f Hf Ht) in Eh. by injection Eh as <-.
Qed.

(** X14: the API version builds a report exactly when every scheduled
    time is a string.  Otherwise, on flights as [processFlight] returns
    them, the [split] of the first flight whose scheduled time is no
    string throws 'flight.scheduledTime.split is not a function or its
    return value is not iterable' and no report is built. *)
Theorem report_needs_text_times d ft fd totalFlights l now :
  ((∃ r, Api.buildReport d ft fd totalFlights l now = OK r) ↔ Forall textTime l)
  ∧ (Forall (fun f => defaulted (Api.scheduledTime f)) l → ¬ Forall textTime l →
     Api.buildReport d ft fd totalFlights l now
     = Throw (TypeError
                "flight.scheduledTime.split is not a function or its return value is not iterable")).
Proof.
  split.
  - split.
    + intros [r Hr]. by apply api_report in Hr as [Hl _].
    + intros Hl. eexists. apply api_report. by split.
  - intros Hd Hn. unfold Api.buildReport, Api.countByHour.
    by rewrite (api_foldM_not_text l ∅ Hd Hn).
Qed.

Lemma report_needs_text_times_witness :
  Api.buildReport aDate (QStr "domestic") (QStr "departure") (VNum 1)
    [{| Api.id := VNum 1; Api.scheduledTime := VNum 915; Api.estimatedTime := VStr "";
        Api.status := on_time; Api.statusColor := VStr ""; Api.airline := VStr "";
        Api.airlineCode := VStr ""; Api.flightNumber := ""; Api.location := "";
        Api.terminal := "T2"; Api.rawStatus := VStr "Unknown" |}] ""
  = Throw (TypeError
             "flight.scheduledTime.split is not a function or its return value is not iterable").
Proof.
  apply (proj2 (report_needs_text_times aDate (QStr "domestic") (QStr "departure") (VNum 1)
                  _ "")).
  - apply Forall_cons. split; [by right | apply Forall_nil_2].
  - intros H. apply Forall_cons in H as [[s Hs] _]. discriminate Hs.
Defined.

(** ** The classifiers, rule by rule *)

(** X15: in the page version a card is delayed exactly when it has a
    status element that does not meet the cancelled rule and whose
    trimmed, lowercased text contains "delayed", or whose classes include
    'amber', or beside which the card has a delayed-time element; it is
    on time exactly when it has no status element or its status element
    meets neither rule.  A delayed-time element on a card without status
    element changes nothing. *)
Theorem page_status_table card :
  (Dom.classifyStatus card = delayed ↔
     ∃ el, Dom.statusElement card = Some el
       ∧ Str.includes "cancelled" (Str.toLowerCase (Str.trim (Dom.textContent el))) = false
       ∧ Dom.hasClass el "red" = false
       ∧ (contains "delayed" (Str.toLowerCase (Str.trim (Dom.textContent el)))
          ∨ Dom.hasClass el "amber" = true ∨ Dom.delayedTimeSmall card = true))
  ∧ (Dom.classifyStatus card = on_time ↔
       Dom.statusElement card = None
       ∨ ∃ el, Dom.statusElement card = Some el
           ∧ Str.includes "cancelled" (Str.toLowerCase (Str.trim (Dom.textContent el)))
             = false
           ∧ Dom.hasClass el "red" = false
           ∧ Str.includes "delayed" (Str.toLowerCase (Str.trim (Dom.textContent el)))
             = false
           ∧ Dom.hasClass el "amber" = false ∧ Dom.delayedTimeSmall card = false).
Proof.
  unfold Dom.classifyStatus. destruct (Dom.statusElement card) as [el|].
  2: { split; split; try done; [by intros (el & ? & _) | auto]. }
  assert (Hd : contains "delayed" (Str.toLowerCase (Str.trim (Dom.textContent el)))
               ↔ Str.includes "delayed" (Str.toLowerCase (Str.trim (Dom.textContent el)))
                 = true) by (symmetry; apply includes_spec).
  destruct (Str.includes "cancelled" _) eqn:Hc; simpl.
  { split; split; intros H; try done.
    - destruct H as (el' & [= <-] & ? & _). congruence.
    - destruct H as [? | (el' & [= <-] & ? & _)]; congruence. }
  destruct (Dom.hasClass el "red") eqn:Hr; simpl.
  { split; split; intros H; try done.
    - destruct H as (el' & [= <-] & _ & ? & _). congruence.
    - destruct H as [? | (el' & [= <-] & _ & ? & _)]; congruence. }
  destruct (Str.includes "delayed" _) eqn:Hi; simpl.
  { split; split; intros H; try done.
    - exists el. rewrite ?Hc, ?Hr, Hd. repeat split; auto.
    - destruct H as [? | (el' & [= <-] & _ & _ & ? & _)]; congruence. }
  destruct (Dom.hasClass el "amber") eqn:Ha; simpl.
  { split; split; intros H; try done.
    - exists el. rewrite ?Hc, ?Hr. repeat split; auto.
    - destruct H as [? | (el' & [= <-] & _ & _ & _ & ? & _)]; congruence. }
  destruct (Dom.delayedTimeSmall card) eqn:Hs; simpl.
  { split; split; intros H; try done.
    - exists el. rewrite ?Hc, ?Hr. repeat split; auto.
    - destruct H as [? | (el' & [= <-] & _ & _ & _ & _ & ?)]; congruence. }
  split; split; intros H; try done.
  - destruct H as (el' & [= <-] & _ & _ & [H | [H | H]]); [| congruence | congruence].
    apply Hd in H. congruence.
  - right. exists el. rewrite ?Hc, ?Hr, ?Hi, ?Ha. repeat split; auto.
Qed.

(** X16: in the API version a record that is neither [null] nor
    [undefined] and whose status is a text or absent is delayed exactly
    when its status text is not empty, does not contain "cancel" up to
    case, and contains "delay" up to case or comes with the delay hint;
    it is on time exactly when its status is missing or empty, or its
    text contains neither word and the delay hint does not hold. *)
Theorem api_status_table flight :
  nullish flight = false → textOrAbsent (propOf flight "status") →
  (Api.classifyStatus flight = OK delayed ↔
     ∃ s, propOf flight "status" = VStr s ∧ s ≠ EmptyString
       ∧ ¬ ci_contains "cancel" s
       ∧ (ci_contains "delay" s ∨ Api.delayHint flight = OK true))
  ∧ (Api.classifyStatus flight = OK on_time ↔
       Val.truthy (propOf flight "status") = false
       ∨ ∃ s, propOf flight "status" = VStr s ∧ s ≠ EmptyString
           ∧ ¬ ci_contains "cancel" s ∧ ¬ ci_contains "delay" s
           ∧ Api.delayHint flight = OK false).
Proof.
  intros Hn Ht.
  pose proof (getProp_propOf flight "status" Hn) as Hst.
  destruct (delayHint_total _ _ _ Hst) as [hint Hh].
  destruct (Val.truthy (propOf flight "status")) eqn:Etr.
  - destruct (Ht Etr) as [s Hs]. rewrite Hs in *. apply truthy_VStr in Etr.
    rewrite (api_classify_text _ _ Hst Etr), Hh. simpl.
    assert (Hc := includes_lower_ci "cancel" s).
    assert (Hd := includes_lower_ci "delay" s).
    destruct (Str.includes "cancel" (Str.toLowerCase s)).
    { split; split; try done.
      - intros (s' & [= <-] & _ & Hnc & _). destruct Hnc. by apply Hc.
      - intros [? | (s' & [= <-] & _ & Hnc & _)]; [done |]. destruct Hnc. by apply Hc. }
    assert (Hnc : ¬ ci_contains "cancel" s) by (intros H%Hc; done).
    destruct (Str.includes "delay" (Str.toLowerCase s)).
    { split; split; try done.
      - intros _. exists s. repeat split; try done. left. by apply Hd.
      - intros [? | (s' & [= <-] & _ & _ & Hnd & _)]; [done |]. destruct Hnd. by apply Hd. }
    assert (Hnd : ¬ ci_contains "delay" s) by (intros H%Hd; done).
    destruct hint; split; split; try done.
    + intros _. exists s. repeat split; try done. by right.
    + intros [? | (s' & [= <-] & _ & _ & _ & ?)]; done.
    + intros (s' & [= <-] & _ & _ & [? | ?]); done.
    + intros _. right. exists s. by repeat split.
  - rewrite (api_classify_falsy _ _ Hst Etr). split; split; try done.
    + intros (s & Hs & Hne & _). rewrite Hs in Etr. exfalso. apply Hne.
      simpl in Etr. by destruct (String.eqb_spec s "").
    + auto.
Qed.

Lemma api_status_table_witness :
  (Api.classifyStatus lateBoarding = OK delayed ↔
     ∃ s, propOf lateBoarding "status" = VStr s ∧ s ≠ EmptyString
       ∧ ¬ ci_contains "cancel" s
       ∧ (ci_contains "delay" s ∨ Api.delayHint lateBoarding = OK true))
  ∧ (Api.classifyStatus lateBoarding = OK on_time ↔
       Val.truthy (propOf lateBoarding "status") = false
       ∨ ∃ s, propOf lateBoarding "status" = VStr s ∧ s ≠ EmptyString
           ∧ ¬ ci_contains "cancel" s ∧ ¬ ci_contains "delay" s
           ∧ Api.delayHint lateBoarding = OK false).
Proof.
  apply (api_status_table lateBoarding); [reflexivity |].
  intros _. by exists "Boarding".
Defined.

(** ** The empty list of flights *)




(** ** The answer 200 *)

(** X17: the request is answered 200 exactly when its parameters pass
    validation and the acquisition succeeds.  In the API version that
    takes a truthy payload whose totalFlightCount can be converted to a
    string and whose flightData is an array of records that are all
    processed to flights with a text as scheduled time; the report is
    then assembled from these flights, in the order of the payload, with
    the payload's totalFlightCount.  In the page version it takes the
    browser session to succeed, from the launch to the closing of the
    browser, and the report is that of the flights of its cards. *)
Theorem answers_200_iff :
  (∀ httpGet today now addDays query report,
     (Api.handler httpGet today now addDays query).1 = Api.Status200 report ↔
     Api.validateParams (dateOf query) (flightTypeOf query) (flightDirectionOf query)
     = Valid
     ∧ ∃ data items flights,
         httpGet (apiRequest today addDays query) = OK data
         ∧ Val.truthy data = true
         ∧ printable (propOf data "totalFlightCount") = true
         ∧ propOf data "flightData" = VArr items
         ∧ Forall2 (fun raw f => Api.processFlight raw = OK f) items flights
         ∧ Forall textTime flights
         ∧ report
           = Api.assembleReport (Api.dateToFetch today addDays (dateOf query))
               (flightTypeOf query) (flightDirectionOf query)
               (propOf data "totalFlightCount") flights now (tallyOf apiKey flights ∅))
  ∧ (∀ loadCards today now addDays query report,
       (Dom.handler loadCards today now addDays query).1 = Dom.Status200 report ↔
       Dom.validateParams (dateOf query) (flightTypeOf query) = Valid
       ∧ ∃ cards,
           loadCards (pageRequest today addDays query) = OK cards
           ∧ report
             = Dom.buildReport (Dom.dateToFetch today addDays (dateOf query))
                 (flightTypeOf query) (Dom.extractFlights cards) now).
Proof.
  split.
  - intros httpGet today now addDays query report. unfold Api.handler.
    fold (dateOf query) (flightTypeOf query) (flightDirectionOf query).
    destruct (Api.validateParams _ _ _) eqn:Hv; [| by split; [| intros [? _]]].
    unfold Api.getFlightData. fold (apiRequest today addDays query).
    destruct (httpGet (apiRequest today addDays query)) as [data | e] eqn:Hg; simpl.
    2: { split; [done |]. by intros (_ & data & items & flights & ? & _). }
    destruct (Api.processResponse data) as [[totalFlights flights] | e] eqn:Hp; simpl.
    + apply processResponse_accepts in Hp as (Ht & -> & Hc & items & Hi & Hfs).
      destruct (Api.buildReport _ _ _ _ flights now) as [r | e] eqn:Hb.
      * apply api_report in Hb as [Hl ->]. split.
        -- intros [= <-]. split; [done |]. by exists data, items, flights.
        -- intros (_ & data' & items' & flights' & [= <-] & _ & _ & Hi' & Hfs' & _ & ->).
           rewrite Hi in Hi'. injection Hi' as <-.
           apply mapM_Forall2 in Hfs, Hfs'. rewrite Hfs in Hfs'. by injection Hfs' as <-.
      * split; [done |].
        intros (_ & data' & items' & flights' & [= <-] & _ & _ & Hi' & Hfs' & Hl & ->).
        rewrite Hi in Hi'. injection Hi' as <-.
        apply mapM_Forall2 in Hfs, Hfs'. rewrite Hfs in Hfs'. injection Hfs' as <-.
        assert (∃ r, Api.buildReport (Api.dateToFetch today addDays (dateOf query))
                       (flightTypeOf query) (flightDirectionOf query)
                       (propOf data "totalFlightCount") flights now = OK r) as [r Hr]
          by (eexists; by apply api_report).
        congruence.
    + split; [done |].
      intros (_ & data' & items & flights & [= <-] & Ht & Hc & Hi & Hfs & _).
      assert (Api.processResponse data = OK (propOf data "totalFlightCount", flights))
        by (apply processResponse_accepts; eauto 10).
      congruence.
  - intros loadCards today now addDays query report. unfold Dom.handler.
    fold (dateOf query) (flightTypeOf query).
    destruct (Dom.validateParams _ _) eqn:Hv; [| by split; [| intros [? _]]].
    unfold Dom.getFlightTimes. fold (pageRequest today addDays query).
    destruct (loadCards (pageRequest today addDays query)) as [cards | e] eqn:Hg; simpl.
    + split.
      * intros [= <-]. split; [done |]. by exists cards.
      * by intros (_ & cards' & [= <-] & ->).
    + split; [done |]. by intros (_ & cards & ? & _).
Qed.

(** Three payloads that are answered 500: a totalFlightCount and a
    destination that cannot be converted to a string, and a scheduled
    time that is a number. *)
Example payloads_answered_500 :
  (Api.handler
     (fun _ => OK (VObj [("totalFlightCount", VObj [("toString", VNull)]);
                         ("flightData", VArr [])]))
     aDate "t" (fun d _ => d) noQuery).1
  = Api.Status500 "Failed to fetch flight data"
      "Cannot convert object to primitive value" "t"
  ∧ (Api.handler
       (fun _ => OK (VObj [("totalFlightCount", VNum 1);
                           ("flightData",
                            VArr [VObj [("destinations",
                                         VArr [VObj [("toString", VNull)]])]])]))
       aDate "t" (fun d _ => d) noQuery).1
    = Api.Status500 "Failed to fetch flight data"
        "Cannot convert object to primitive value" "t"
  ∧ (Api.handler
       (fun _ => OK (VObj [("totalFlightCount", VNum 1);
                           ("flightData", VArr [VObj [("scheduledTime", VNum 915)]])]))
       aDate "t" (fun d _ => d) noQuery).1
    = Api.Status500 "Failed to fetch flight data"
        "flight.scheduledTime.split is not a function or its return value is not iterable"
        "t".
Proof. by repeat split. Qed.

(** ** The hour of a scheduled time *)

Lemma split_colon_first hour rest :
  Str.includes ":" hour = false →
  Str.split ":" (hour +:+ String ":" rest) = hour :: Str.split ":" rest.
Proof.
  induction hour as [| c hour IH]; intros H.
  - done.
  - cbn [Str.includes Str.startsWith] in H. rewrite andb_true_r in H.
    apply orb_false_elim in H as [Hc Hi].
    change (String c hour +:+ String ":" rest) with (String c (hour +:+ String ":" rest)).
    cbn [Str.split]. rewrite Ascii.eqb_sym, Hc. by rewrite (IH Hi).
Qed.

Lemma split_colon_none s : Str.includes ":" s = false → Str.split ":" s = [s].
Proof.
  induction s as [| c s IH]; intros H; [done |].
  cbn [Str.includes Str.startsWith] in H. rewrite andb_true_r in H.
  apply orb_false_elim in H as [Hc Hi].
  cbn [Str.split]. rewrite Ascii.eqb_sym, Hc. by rewrite (IH Hi).
Qed.

Lemma two_digit_hours :
  Forall (fun h => Str.parseInt (pad2 h) = Some (Z.of_nat h)
                   ∧ Str.includes ":" (pad2 h) = false
                   ∧ Str.parseInt (pretty h) = Some (Z.of_nat h)
                   ∧ Str.includes ":" (pretty h) = false) (seq 0 100).
Proof. apply (bool_decide_unpack _). by vm_compute. Qed.

(** X18: the hour of a flight is read from the text before the first
    colon of its scheduled time, and from the whole text when it has no
    colon; what follows the colon is not looked at.  A time written
    HH:MM or H:MM, with or without the leading zero, gives the hour HH
    for every HH below 100, so that "24:00" gives 24. *)
Theorem clock_time_hour :
  (∀ hour rest,
     Str.includes ":" hour = false →
     parseHour (hour +:+ ":" +:+ rest) = Str.parseInt hour)
  ∧ (∀ s, Str.includes ":" s = false → parseHour s = Str.parseInt s)
  ∧ (∀ h rest,
       h < 100 →
       parseHour (pad2 h +:+ ":" +:+ rest) = Some (Z.of_nat h)
       ∧ parseHour (pretty h +:+ ":" +:+ rest) = Some (Z.of_nat h)).
Proof.
  assert (Hfirst : ∀ hour rest, Str.includes ":" hour = false →
                     parseHour (hour +:+ ":" +:+ rest) = Str.parseInt hour).
  { intros hour rest H. unfold parseHour.
    change (hour +:+ ":" +:+ rest) with (hour +:+ String ":" rest).
    by rewrite (split_colon_first _ _ H). }
  split; [exact Hfirst |]. split.
  - intros s H. unfold parseHour. by rewrite (split_colon_none _ H).
  - intros h rest Hh.
    destruct (proj1 (Forall_seq _ _ _) two_digit_hours h ltac:(lia))
      as (Hp & Hc & Hp' & Hc').
    by rewrite !Hfirst.
Qed.

Lemma clock_time_hour_witness :
  parseHour "09:15" = Some 9%Z ∧ parseHour "9:15" = Some 9%Z
  ∧ parseHour "0915" = Some 915%Z.
Proof.
  split; [| split].
  - exact (proj1 (proj2 (proj2 clock_time_hour) 9 "15" ltac:(lia))).
  - exact (proj2 (proj2 (proj2 clock_time_hour) 9 "15" ltac:(lia))).
  - exact (proj1 (proj2 clock_time_hour) "0915" eq_refl).
Defined.
